(** * bbswitch (Zephyrus G14 variant): the discrete-GPU power state machine

    A shallow embedding of [bbswitch.c].  The module talks to three things
    outside itself: the ACPI firmware, the PCI bus and the runtime-PM core.
    They are gathered in the interface [Platform]; every call the module makes
    to them is recorded in a trace, so that properties such as "no [_OFF] was
    evaluated" or "every put has its get" can be stated on runs.

    Integers are [Z]; [u32] and [s32] write out the wrap-around of the C
    types.  A [struct pci_dev *] is an address ([positive]), [NULL] is
    [None].  A run either returns, or stops at a fault: a NULL dereference,
    or a shift whose count is outside the width of [int], for which C defines
    no result.  The state reached at the fault is kept, as the module's
    globals outlive the task that faulted. *)

From Stdlib Require Import ZArith List String Ascii Bool Lia.
From Stdlib.Strings Require Import Byte.
Import ListNotations.
Local Open Scope Z_scope.

(** ** C integers *)

Definition u32 (z : Z) : Z := z mod 2 ^ 32.

Definition s32 (z : Z) : Z :=
  let r := u32 z in if r <? 2 ^ 31 then r else r - 2 ^ 32.

Definition u8 (b : byte) : Z := Z.of_N (Byte.to_N b).

(** ** Kernel objects *)

Definition pci_dev := positive.
Definition acpi_handle := Z.

(** [union acpi_object], as far as [acpi_call_dsm] looks at it. *)
Inductive acpi_object : Type :=
| ACPI_TYPE_INTEGER (value : Z)
| ACPI_TYPE_BUFFER (pointer : list byte)
| ACPI_TYPE_OTHER (type : Z).

Inductive event : Type :=
| EvEvaluate (pathname method : string)
| EvDsm (handle : acpi_handle) (muid : list byte) (revid func : Z)
        (args : list byte)
| EvPciGet (vendor device : Z)
| EvMsleep (msecs : Z)
| EvPmGet (bridge : pci_dev)
| EvPmPut (bridge : pci_dev).

(** The firmware, the bus and the device structures, seen from the module.

    - [sgst_value w] is the [integer.value] field of the object that
      evaluating [\_SB.PCI0.GPP0.PEGP.SGST] returns, [None] when the
      evaluation returns no object ([buffer.pointer] stays [NULL]);
    - [acpi_evaluate w path method] is the machine after [method] under
      [path] was evaluated ([_OFF] and [_ON]; their result is discarded);
    - [pci_get_device w vendor device] is [pci_get_device(vendor, device,
      NULL)];
    - [pdev_driver w p] is [p->driver] (the name of the bound driver);
    - [pdev_bridge w p] is [&p->bus->self->dev] when [p->bus] and
      [p->bus->self] are both non-NULL;
    - [msleep w ms] is the machine [ms] milliseconds later;
    - [evaluate_dsm] is [acpi_evaluate_object(handle, "_DSM", ...)]: the
      [acpi_status] and the object left in [output.pointer];
    - [expired_literal w] is what the four bytes of the compound literal
      [(char[4]){0, 0, 0, 0}] of [acpi_call_dsm] hold when the firmware is
      handed them: the literal belongs to the [else] block, which has ended
      when [acpi_evaluate_object] is called, so the bytes are whatever the
      stack holds there by then. *)
Class Platform (W : Type) : Type := {
  sgst_value : W -> option Z;
  acpi_evaluate : W -> string -> string -> W;
  pci_get_device : W -> Z -> Z -> option pci_dev;
  pdev_driver : W -> pci_dev -> option string;
  pdev_bridge : W -> pci_dev -> option pci_dev;
  msleep : W -> Z -> W;
  evaluate_dsm : W -> acpi_handle -> list byte -> Z -> Z -> list byte ->
                 W * (Z * option acpi_object);
  expired_literal : W -> list byte
}.

(** ** Module constants *)

Definition CARD_UNCHANGED : Z := -1.
Definition CARD_OFF : Z := 0.
Definition CARD_ON : Z := 1.

Definition DSM_TYPE_UNSUPPORTED : Z := 0.
Definition DSM_TYPE_OPTIMUS : Z := 1.
Definition DSM_TYPE_NVIDIA : Z := 2.

Definition acpi_optimus_dsm_muid : list byte :=
  [xf8; xd8; x86; xa4; xda; x0b; x1b; x47;
   xa7; x2b; x60; x42; xa6; xb5; xbe; xe0].

Definition acpi_nvidia_dsm_muid : list byte :=
  [xa0; xa0; x95; x9d; x60; x00; x48; x4d;
   xb3; x4d; x7e; x5f; xea; x12; x9f; xd4].

Definition PG00 : string := "\_SB.PCI0.GPP0.PG00".
Definition PEGP : string := "\_SB.PCI0.GPP0.PEGP".

(** The file-scope variables of the module. *)
Record globals : Type := {
  dsm_type : Z;
  skip_optimus_dsm : bool;
  dis_dev : option pci_dev;
  dis_handle : acpi_handle;
  dis_dev_name : string;
  vendor : Z;
  device : Z;
  dis_before_suspend_disabled : Z
}.

Definition set_dis_dev (d : option pci_dev) (g : globals) : globals :=
  {| dsm_type := dsm_type g; skip_optimus_dsm := skip_optimus_dsm g;
     dis_dev := d; dis_handle := dis_handle g;
     dis_dev_name := dis_dev_name g;
     vendor := vendor g; device := device g;
     dis_before_suspend_disabled := dis_before_suspend_disabled g |}.

Definition set_before_suspend (z : Z) (g : globals) : globals :=
  {| dsm_type := dsm_type g; skip_optimus_dsm := skip_optimus_dsm g;
     dis_dev := dis_dev g; dis_handle := dis_handle g;
     dis_dev_name := dis_dev_name g;
     vendor := vendor g; device := device g;
     dis_before_suspend_disabled := z |}.

Definition set_dsm (t : Z) (skip : bool) (g : globals) : globals :=
  {| dsm_type := t; skip_optimus_dsm := skip;
     dis_dev := dis_dev g; dis_handle := dis_handle g;
     dis_dev_name := dis_dev_name g;
     vendor := vendor g; device := device g;
     dis_before_suspend_disabled := dis_before_suspend_disabled g |}.

Inductive fault : Type :=
| NullDeref
| ShiftCount.

(** [enum] of the PM notifier events, [linux/suspend.h]. *)
Inductive pm_event : Type :=
| PM_HIBERNATION_PREPARE
| PM_POST_HIBERNATION
| PM_SUSPEND_PREPARE
| PM_POST_SUSPEND
| PM_RESTORE_PREPARE
| PM_POST_RESTORE
| PM_OTHER (event_type : Z).

Section Model.

Context {W : Type} {P : Platform W}.

(** The whole system: the module's variables, the machine, and the calls
    made so far (most recent first). *)
Record sys : Type := {
  vars : globals;
  hw : W;
  trace : list event
}.

Inductive outcome (A : Type) : Type :=
| Ret (a : A) (s : sys)
| Fault (f : fault) (s : sys).

Arguments Ret {A} a s.
Arguments Fault {A} f s.

Definition M (A : Type) : Type := sys -> outcome A.

Definition ret {A} (a : A) : M A := fun s => Ret a s.

Definition bind {A B} (m : M A) (k : A -> M B) : M B :=
  fun s => match m s with
           | Ret a s' => k a s'
           | Fault f s' => Fault f s'
           end.

Definition final {A} (o : outcome A) : sys :=
  match o with Ret _ s => s | Fault _ s => s end.

Definition value {A} (o : outcome A) : option A :=
  match o with Ret a _ => Some a | Fault _ _ => None end.

Definition lift (f : sys -> sys) : M unit := fun s => Ret tt (f s).

Definition log (e : event) (s : sys) : sys :=
  {| vars := vars s; hw := hw s; trace := e :: trace s |}.

Definition with_vars (f : globals -> globals) (s : sys) : sys :=
  {| vars := f (vars s); hw := hw s; trace := trace s |}.

Definition with_hw (w : W) (s : sys) : sys :=
  {| vars := vars s; hw := w; trace := trace s |}.

End Model.

Arguments sys W : clear implicits.
Arguments outcome W A : clear implicits.
Arguments M W A : clear implicits.
Arguments Ret {W A} a s.
Arguments Fault {W A} f s.

Declare Scope drv_scope.
Delimit Scope drv_scope with drv.
Notation "x <- m ;; k" := (bind m (fun x => k))
  (at level 100, m at next level, right associativity) : drv_scope.

(** ** The module's functions *)

Section Driver.

Context {W : Type} {P : Platform W}.

Local Open Scope drv_scope.

(** [1 << n] on [int]: defined (GNU C) for counts within the width. *)
Definition shl_int (a n : Z) : option Z :=
  if (0 <=? n) && (n <? 32) then Some (s32 (Z.shiftl a n)) else None.

(** [*result |= x] with [x] an [int], [*result] a [uint32_t]. *)
Definition or_assign (r x : Z) : Z := u32 (Z.lor r (u32 x)).

Definition buffer_result (pointer : list byte) : Z :=
  let r := 0 in
  let r := or_assign r (u8 (nth 0 pointer x00)) in
  let r := or_assign r (s32 (Z.shiftl (u8 (nth 1 pointer x00)) 8)) in
  let r := or_assign r (s32 (Z.shiftl (u8 (nth 2 pointer x00)) 16)) in
  let r := or_assign r (s32 (Z.shiftl (u8 (nth 3 pointer x00)) 24)) in
  r.

(** The four bytes behind [params[3].buffer.pointer] when the firmware
    reads them: the caller's block, or, for a NULL [args], the storage of a
    literal whose block has ended. *)
Definition arg_block (w : W) (args : option (list byte)) : list byte :=
  match args with
  | Some a => a
  | None => expired_literal w
  end.

(** [acpi_call_dsm].  [args] is [None] for a NULL argument block, [result]
    is [None] for a NULL output slot and [Some r] for a slot holding [r];
    the second component returned is the slot afterwards. *)
Definition acpi_call_dsm (handle : acpi_handle) (muid : list byte)
    (revid func : Z) (args : option (list byte)) (result : option Z)
    : M W (Z * option Z) :=
  fun s =>
    let buf := arg_block (hw s) args in
    let '(w, (status, obj)) :=
      evaluate_dsm (hw s) handle muid revid func buf in
    let s1 := log (EvDsm handle muid revid func buf) (with_hw w s) in
    let err := s32 status in
    if negb (err =? 0) then Ret (err, result) s1
    else
      match obj with
      | None => Fault NullDeref s1
      | Some (ACPI_TYPE_INTEGER v) =>
          Ret (0, match result with
                  | Some _ => Some (u32 v)
                  | None => None
                  end) s1
      | Some (ACPI_TYPE_BUFFER pointer) =>
          Ret (0, match result with
                  | Some r =>
                      if Z.of_nat (List.length pointer) =? 4
                      then Some (buffer_result pointer) else Some r
                  | None => None
                  end) s1
      | Some (ACPI_TYPE_OTHER _) => Ret (0, result) s1
      end.

(** [result & 1 && result & (1 << sfnc)]; the right operand is evaluated
    only when the left one is non-zero. *)
Definition dsm_mask_test (result sfnc : Z) : M W Z :=
  fun s =>
    if Z.land result 1 =? 0 then Ret 0 s
    else match shl_int 1 sfnc with
         | None => Fault ShiftCount s
         | Some m => Ret (if Z.land result (u32 m) =? 0 then 0 else 1) s
         end.

Definition handle_has_dsm_func (handle : acpi_handle) (muid : list byte)
    (revid sfnc : Z) : M W Z :=
  r <- acpi_call_dsm handle muid revid 0 None (Some 0) ;;
  if negb (fst r =? 0) then ret 0
  else dsm_mask_test (match snd r with Some m => m | None => 0 end) sfnc.

Definition has_dsm_func (muid : list byte) (revid sfnc : Z) : M W Z :=
  fun s => handle_has_dsm_func (dis_handle (vars s)) muid revid sfnc s.

Definition bbswitch_optimus_dsm : M W Z :=
  fun s =>
    if dsm_type (vars s) =? DSM_TYPE_OPTIMUS then
      (r <- acpi_call_dsm (dis_handle (vars s)) acpi_optimus_dsm_muid
             256 26 (Some [x01; x00; x00; x03]) (Some 0) ;;
       if negb (fst r =? 0) then ret 1 else ret 0) s
    else Ret 0 s.

Definition get_dis_dev (s : sys W) : sys W :=
  let g := vars s in
  let s1 := log (EvPciGet (vendor g) (device g)) s in
  match pci_get_device (hw s) (vendor g) (device g) with
  | Some pdev => with_vars (set_dis_dev (Some pdev)) s1
  | None => s1
  end.

Definition evaluate (pathname method : string) (s : sys W) : sys W :=
  log (EvEvaluate pathname method)
      (with_hw (acpi_evaluate (hw s) pathname method) s).

Definition bbswitch_acpi_off : M W Z :=
  fun s => Ret 0 (evaluate PG00 "_OFF" s).

Definition bbswitch_acpi_on : M W Z :=
  fun s => Ret 0 (evaluate PG00 "_ON" s).

(** Returns 1 if the card is disabled, 0 if enabled, -1 while it is
    reported on but no device is known. *)
Definition is_card_disabled : M W Z :=
  fun s =>
    let s1 := log (EvEvaluate PEGP "SGST") s in
    match sgst_value (hw s) with
    | None => Fault NullDeref s1
    | Some v =>
        let gpustatus := if v >? 0 then 0 else 1 in
        if gpustatus =? 0 then
          let s2 := get_dis_dev s1 in
          match dis_dev (vars s2) with
          | None => Ret (-1) s2
          | Some _ => Ret gpustatus s2
          end
        else Ret gpustatus s1
    end.

(** Reading a field through [dis_dev]. *)
Definition deref_dis_dev : M W pci_dev :=
  fun s => match dis_dev (vars s) with
           | Some p => Ret p s
           | None => Fault NullDeref s
           end.

Definition bbswitch_off : M W unit :=
  st <- is_card_disabled ;;
  if st =? 1 then ret tt
  else
    p <- deref_dis_dev ;;
    fun s =>
      match pdev_driver (hw s) p with
      | Some _ => Ret tt s
      | None =>
          (_ <- bbswitch_acpi_off ;;
           lift (with_vars (set_dis_dev None))) s
      end.

Definition do_msleep (msecs : Z) (s : sys W) : sys W :=
  log (EvMsleep msecs) (with_hw (msleep (hw s) msecs) s).

(** The polling loop of [bbswitch_on]; [left] bounds the iterations still
    possible and is 5 at the call, where [i] is 0. *)
Fixpoint bbswitch_on_poll (left : nat) (i : Z) (s : sys W) : sys W :=
  match dis_dev (vars s) with
  | Some _ => s
  | None =>
      match left with
      | O => s
      | S left' =>
          let s1 := get_dis_dev (do_msleep 500 s) in
          let i1 := i + 1 in
          if i1 >? 4 then s1 else bbswitch_on_poll left' i1 s1
      end
  end.

Definition bbswitch_on : M W unit :=
  st <- is_card_disabled ;;
  if st <? 1 then ret tt
  else
    _ <- bbswitch_acpi_on ;;
    lift (bbswitch_on_poll 5 0).

(** The polling loop of [dis_dev_get]: [false] when the function returns
    from inside the loop, [true] when control reaches the bridge code. *)
Fixpoint dis_dev_get_poll (left : nat) (i : Z) (s : sys W) : bool * sys W :=
  match dis_dev (vars s) with
  | Some _ => (true, s)
  | None =>
      match left with
      | O => (false, s)
      | S left' =>
          let s1 := get_dis_dev (do_msleep 500 s) in
          let i1 := i + 1 in
          if i1 >? 4 then
            match dis_dev (vars s1) with
            | Some _ => (true, s1)
            | None => (false, s1)
            end
          else dis_dev_get_poll left' i1 s1
      end
  end.

Definition pm_runtime_get_sync (bridge : pci_dev) : M W unit :=
  lift (log (EvPmGet bridge)).

Definition pm_runtime_put_sync (bridge : pci_dev) : M W unit :=
  lift (log (EvPmPut bridge)).

Definition dis_dev_get : M W unit :=
  st <- is_card_disabled ;;
  if st <? 1 then
    fun s =>
      let '(go, s1) := dis_dev_get_poll 5 0 s in
      if go then
        (p <- deref_dis_dev ;;
         fun s2 => match pdev_bridge (hw s2) p with
                   | Some bridge => pm_runtime_get_sync bridge s2
                   | None => Ret tt s2
                   end) s1
      else Ret tt s1
  else ret tt.

Definition dis_dev_put : M W unit :=
  st <- is_card_disabled ;;
  if st =? 0 then
    p <- deref_dis_dev ;;
    fun s => match pdev_bridge (hw s) p with
             | Some bridge => pm_runtime_put_sync bridge s
             | None => Ret tt s
             end
  else ret tt.

Definition EFAULT : Z := 14.

(** [bbswitch_proc_write].  [buff] is the user buffer of [len] bytes
    ([None] when it cannot be read); [stack] is what the eight bytes of
    [cmd] held before the copy. *)
Definition bbswitch_proc_write (stack : string) (buff : option string)
    : M W Z :=
  match buff with
  | None => ret (- EFAULT)
  | Some b =>
      let len := Z.of_nat (String.length b) in
      let len := if len >=? 8 then 7 else len in
      let n := Z.to_nat len in
      let cmd := (substring 0 n b ++ substring n (8 - n) stack)%string in
      _ <- dis_dev_get ;;
      _ <- (if String.prefix "OFF" cmd then bbswitch_off else ret tt) ;;
      _ <- (if String.prefix "ON" cmd then bbswitch_on else ret tt) ;;
      _ <- dis_dev_put ;;
      ret len
  end.

Definition newline : string := String (ascii_of_nat 10) EmptyString.

(** [bbswitch_proc_show]: the line written to the seq file. *)
Definition bbswitch_proc_show : M W string :=
  _ <- dis_dev_get ;;
  st <- is_card_disabled ;;
  fun s =>
    let line := (dis_dev_name (vars s) ++ " "
                 ++ (if st >? 0 then "OFF" else "ON") ++ newline)%string in
    (_ <- dis_dev_put ;; ret line) s.

Definition bbswitch_pm_handler (event_type : pm_event) : M W Z :=
  match event_type with
  | PM_HIBERNATION_PREPARE | PM_SUSPEND_PREPARE =>
      _ <- dis_dev_get ;;
      st <- is_card_disabled ;;
      _ <- lift (with_vars (set_before_suspend st)) ;;
      (* the [if] guards the log line only; [bbswitch_on] always runs *)
      _ <- bbswitch_on ;;
      _ <- dis_dev_put ;;
      ret 0
  | PM_POST_HIBERNATION | PM_POST_SUSPEND | PM_POST_RESTORE =>
      fun s =>
        if negb (dis_before_suspend_disabled (vars s) =? 0) then
          (_ <- dis_dev_get ;;
           _ <- bbswitch_off ;;
           _ <- dis_dev_put ;;
           ret 0) s
        else Ret 0 s
  | PM_RESTORE_PREPARE => ret 0
  | PM_OTHER _ => ret 0
  end.

End Driver.

(** ** Vocabulary of the properties *)

Section Vocabulary.

Context {W : Type} {P : Platform W}.

(** The observable status after a run: what [is_card_disabled] answers in
    the state the run left. *)
Definition status_after {A} (o : outcome W A) : option Z :=
  value (is_card_disabled (final o)).

Fixpoint after_sleeps (k : nat) (w : W) : W :=
  match k with
  | O => w
  | S k' => after_sleeps k' (msleep w 500)
  end.

Definition reports_on (w : W) : Prop :=
  exists v, sgst_value w = Some v /\ 0 < v.

Definition reports_off (w : W) : Prop :=
  exists v, sgst_value w = Some v /\ v <= 0.

(** What the firmware and the bus are expected to do. *)
Definition on_takes_effect : Prop :=
  forall w, reports_on (acpi_evaluate w PG00 "_ON").

Definition off_takes_effect : Prop :=
  forall w, reports_off (acpi_evaluate w PG00 "_OFF").

Definition sleep_keeps_status : Prop :=
  forall w ms, sgst_value (msleep w ms) = sgst_value w.

(** Once [_ON] was evaluated the firmware reports the card on, and still
    does after each of the sleeps of the polling loop. *)
Definition on_stays_reported : Prop :=
  forall w k, (k <= 5)%nat ->
    reports_on (after_sleeps k (acpi_evaluate w PG00 "_ON")).

Definition no_consumer : Prop :=
  forall w p, pdev_driver w p = None.

Definition powered_on (s : sys W) : W := acpi_evaluate (hw s) PG00 "_ON".

Definition reappears (s : sys W) : Prop :=
  exists k, (1 <= k <= 5)%nat /\
    pci_get_device (after_sleeps k (powered_on s))
                   (vendor (vars s)) (device (vars s)) <> None.

Definition never_reappears (s : sys W) : Prop :=
  forall k, (1 <= k <= 5)%nat ->
    pci_get_device (after_sleeps k (powered_on s))
                   (vendor (vars s)) (device (vars s)) = None.

(** The calls a run added to the trace, most recent first. *)
Definition new_events (s s' : sys W) : list event :=
  firstn (List.length (trace s') - List.length (trace s)) (trace s').

Definition is_msleep (e : event) : bool :=
  match e with EvMsleep _ => true | _ => false end.

Definition is_dsm (e : event) : bool :=
  match e with EvDsm _ _ _ _ _ => true | _ => false end.

Definition is_evaluate (pathname method : string) (e : event) : bool :=
  match e with
  | EvEvaluate p m => String.eqb p pathname && String.eqb m method
  | _ => false
  end.

(** One polling attempt: a sleep of 500 ms, then a scan of the bus. *)
Definition attempt (s : sys W) : list event :=
  [EvPciGet (vendor (vars s)) (device (vars s)); EvMsleep 500].

Fixpoint attempts (n : nat) (s : sys W) : list event :=
  match n with
  | O => []
  | S n' => attempt s ++ attempts n' s
  end.

(** Calls that an off-transition, resp. an on-transition, may make. *)
Definition off_event (e : event) : bool :=
  match e with
  | EvEvaluate p m =>
      (String.eqb p PEGP && String.eqb m "SGST")
      || (String.eqb p PG00 && String.eqb m "_OFF")
  | EvPciGet _ _ => true
  | _ => false
  end.

Definition on_event (e : event) : bool :=
  match e with
  | EvEvaluate p m =>
      (String.eqb p PEGP && String.eqb m "SGST")
      || (String.eqb p PG00 && String.eqb m "_ON")
  | EvPciGet _ _ => true
  | EvMsleep _ => true
  | _ => false
  end.

(** [s'] continues the trace of [s] with calls that all satisfy [q]. *)
Definition extends_by (q : event -> bool) (s s' : sys W) : Prop :=
  exists l, trace s' = l ++ trace s /\ forallb q l = true.

(** [s] with another firmware interface variant recorded. *)
Definition retype (t : Z) (skip : bool) (s : sys W) : sys W :=
  with_vars (set_dsm t skip) s.

(** The same outcome, in a state changed by [f]. *)
Definition on_state {A} (f : sys W -> sys W) (o : outcome W A)
    : outcome W A :=
  match o with
  | Ret a s => Ret a (f s)
  | Fault e s => Fault e (f s)
  end.

(** The card is reported on and the module holds a device reference. *)
Definition located (s : sys W) : Prop :=
  reports_on (hw s) /\ dis_dev (vars s) <> None.

(** The card is reported on and a reference is held once the bus was
    scanned: the status query answers 0. *)
Definition found_on (s : sys W) : Prop :=
  reports_on (hw s) /\ dis_dev (vars (get_dis_dev s)) <> None.

(** [s'] has the machine, the device ids and the suspend memory of [s]. *)
Definition keeps (s s' : sys W) : Prop :=
  hw s' = hw s
  /\ vendor (vars s') = vendor (vars s)
  /\ device (vars s') = device (vars s)
  /\ dis_before_suspend_disabled (vars s')
     = dis_before_suspend_disabled (vars s).

(** Whether the off-transition, entered at [s], goes on to evaluate
    [_OFF]: the card is not reported off, a device is referenced, and no
    driver is bound to it. *)
Definition off_gate (s : sys W) : bool :=
  match value (is_card_disabled s) with
  | Some st =>
      negb (st =? 1)
      && match dis_dev (vars (final (is_card_disabled s))) with
         | Some p =>
             match pdev_driver (hw s) p with
             | Some _ => false
             | None => true
             end
         | None => false
         end
  | None => false
  end.

(** Bridge references along a run, oldest call first: [None] as soon as a
    put has no earlier get left to match, else the number of gets still
    held. *)
Fixpoint held (n : nat) (chronological : list event) : option nat :=
  match chronological with
  | [] => Some n
  | EvPmGet _ :: rest => held (S n) rest
  | EvPmPut _ :: rest =>
      match n with
      | O => None
      | S n' => held n' rest
      end
  | _ :: rest => held n rest
  end.

Definition paired (s : sys W) {A} (o : outcome W A) : Prop :=
  held 0 (rev (new_events s (final o))) = Some O.

Definition is_prepare (e : pm_event) : bool :=
  match e with
  | PM_HIBERNATION_PREPARE | PM_SUSPEND_PREPARE => true
  | _ => false
  end.

Definition is_post (e : pm_event) : bool :=
  match e with
  | PM_POST_HIBERNATION | PM_POST_SUSPEND | PM_POST_RESTORE => true
  | _ => false
  end.

(** Suspend/resume symmetry at [s], as the specification words it: from
    status on (0) or off (1), a prepare event and then its post event leave
    the status as it was. *)
Definition suspend_resume_symmetric (s : sys W) : Prop :=
  forall st prepare post,
    value (is_card_disabled s) = Some st ->
    st = 0 \/ st = 1 ->
    is_prepare prepare = true ->
    is_post post = true ->
    status_after
      (bbswitch_pm_handler post
         (final (bbswitch_pm_handler prepare s))) = Some st.

(** The status mapping at [s], as the specification words it; "cannot be
    located" is a look-up of the recorded ids on the bus that finds
    nothing. *)
Definition status_mapping (s : sys W) : Prop :=
  forall v,
    sgst_value (hw s) = Some v ->
    (v <= 0 -> value (is_card_disabled s) = Some 1)
    /\ (0 < v ->
        pci_get_device (hw s) (vendor (vars s)) (device (vars s)) <> None ->
        value (is_card_disabled s) = Some 0)
    /\ (0 < v ->
        pci_get_device (hw s) (vendor (vars s)) (device (vars s)) = None ->
        value (is_card_disabled s) = Some (-1)).

(** Idempotence of the two transitions at [s], as the specification words
    it. *)
Definition idempotent_at (s : sys W) : Prop :=
  status_after (bbswitch_off (final (bbswitch_off s)))
  = status_after (bbswitch_off s)
  /\ status_after (bbswitch_on (final (bbswitch_on s)))
     = status_after (bbswitch_on s).

(** Bounded retry at [s], as the specification words it. *)
Definition bounded_retry (s : sys W) : Prop :=
  never_reappears s ->
  let s' := final (bbswitch_on s) in
  List.length (filter is_msleep (new_events s s')) = 5%nat
  /\ dis_dev (vars s') = None
  /\ value (is_card_disabled s') = Some (-1).

Definition mask_says (m index : Z) : Z :=
  if Z.testbit m 0 && Z.testbit m index then 1 else 0.

(** What the specification says of a capability probe [probe] that queries
    [handle]. *)
Definition probe_correct (probe : M W Z) (handle : acpi_handle)
    (muid : list byte) (revid index : Z) (s : sys W) : Prop :=
  (forall e r s1,
      acpi_call_dsm handle muid revid 0 None (Some 0) s = Ret (e, r) s1 ->
      e <> 0 -> value (probe s) = Some 0)
  /\ (forall m s1,
      acpi_call_dsm handle muid revid 0 None (Some 0) s
        = Ret (0, Some m) s1 ->
      value (probe s) = Some (mask_says m index)).

(** [ACPI_FAILURE] of an [acpi_status]. *)
Definition ACPI_FAILURE (status : Z) : Prop := u32 status <> 0.

End Vocabulary.

(** ** A reference machine

    The GPU rail is either powered or not; [SGST] reads 1 or 0 accordingly.
    After [_ON] the device is enumerated once [latency] sleeps have passed,
    and [driver] is what binds to it. *)

Record machine : Type := {
  m_power : bool;
  m_wait : nat;
  m_dsm : Z * option acpi_object
}.

Definition GPU_VENDOR : Z := 4318.
Definition GPU_DEVICE : Z := 7954.
Definition GPU : pci_dev := 1%positive.
Definition ROOT_PORT : pci_dev := 2%positive.

Definition machine_evaluate (latency : nat) (m : machine)
    (pathname method : string) : machine :=
  if negb (String.eqb pathname PG00) then m
  else if String.eqb method "_OFF" then
    {| m_power := false; m_wait := O; m_dsm := m_dsm m |}
  else if String.eqb method "_ON" then
    (if m_power m then m
     else {| m_power := true; m_wait := latency; m_dsm := m_dsm m |})
  else m.

#[export] Instance machine_platform (latency : nat) (driver : option string)
  : Platform machine := {|
  sgst_value m := Some (if m_power m then 1 else 0);
  acpi_evaluate := machine_evaluate latency;
  pci_get_device m v d :=
    if m_power m && Nat.eqb (m_wait m) 0
       && (v =? GPU_VENDOR) && (d =? GPU_DEVICE)
    then Some GPU else None;
  pdev_driver _ _ := driver;
  pdev_bridge _ _ := Some ROOT_PORT;
  msleep m _ :=
    {| m_power := m_power m; m_wait := Nat.pred (m_wait m);
       m_dsm := m_dsm m |};
  evaluate_dsm m _ _ _ _ _ := (m, m_dsm m);
  expired_literal _ := [x00; x00; x00; x00]
|}.

Definition AE_OK : Z := 0.
Definition AE_NOT_FOUND : Z := 5.

Definition module_vars (d : option pci_dev) : globals :=
  {| dsm_type := DSM_TYPE_OPTIMUS; skip_optimus_dsm := false;
     dis_dev := d; dis_handle := 7; dis_dev_name := "0000:01:00.0";
     vendor := GPU_VENDOR; device := GPU_DEVICE;
     dis_before_suspend_disabled := 0 |}.

Definition boot (power : bool) (wait : nat) (d : option pci_dev)
    (reply : Z * option acpi_object) : sys machine :=
  {| vars := module_vars d;
     hw := {| m_power := power; m_wait := wait; m_dsm := reply |};
     trace := [] |}.

Definition no_reply : Z * option acpi_object := (AE_NOT_FOUND, None).

(** The card on and enumerated, the module holding its device. *)
Definition card_on : sys machine := boot true 0 (Some GPU) no_reply.

(** The card off, the reference cleared by an earlier off-transition. *)
Definition card_off : sys machine := boot false 0 None no_reply.

(** The card reported on by the firmware but not on the bus. *)
Definition card_powering_up : sys machine := boot true 100 None no_reply.

(** The card powered off behind the module's back: the reference is still
    the device seen at load time. *)
Definition card_off_stale : sys machine := boot false 0 (Some GPU) no_reply.

(** The card on, its [_DSM] answering function 0 with the mask [m]. *)
Definition card_with_mask (m : Z) : sys machine :=
  boot true 0 (Some GPU) (AE_OK, Some (ACPI_TYPE_INTEGER m)).

(** The card reported on by the firmware but not on the bus, the module
    still holding the device seen earlier: what an on-transition leaves from
    [card_off_stale] when the device is slow to come back. *)
Definition card_on_unlisted : sys machine :=
  boot true 100 (Some GPU) no_reply.

(** The device is back one poll after [_ON]; no driver is loaded. *)
Definition g14 : Platform machine := machine_platform 1 None.

(** As [g14], with a driver that binds to the device when it appears. *)
Definition g14_nvidia : Platform machine :=
  machine_platform 1 (Some "nvidia"%string).

(** The device needs far more than five polls to come back. *)
Definition g14_slow : Platform machine := machine_platform 100 None.

(** A firmware that acts on [_ON] and on [_OFF] only when asked a second
    time: the first request is remembered in [m_wait], the second one
    switches the rail.  Sleeping changes nothing. *)
Definition sluggish_evaluate (m : machine) (pathname method : string)
    : machine :=
  if negb (String.eqb pathname PG00) then m
  else if String.eqb method "_OFF" || String.eqb method "_ON" then
    match m_wait m with
    | O => {| m_power := m_power m; m_wait := 1; m_dsm := m_dsm m |}
    | S _ => {| m_power := String.eqb method "_ON"; m_wait := O;
                m_dsm := m_dsm m |}
    end
  else m.

Definition sluggish : Platform machine :=
  {| sgst_value m := Some (if m_power m then 1 else 0);
     acpi_evaluate := sluggish_evaluate;
     pci_get_device m v d :=
       if m_power m && (v =? GPU_VENDOR) && (d =? GPU_DEVICE)
       then Some GPU else None;
     pdev_driver _ _ := None;
     pdev_bridge _ _ := Some ROOT_PORT;
     msleep m _ := m;
     evaluate_dsm m _ _ _ _ _ := (m, m_dsm m);
     expired_literal _ := [x00; x00; x00; x00] |}.

(** ** The rest of the module

    [buffer_to_string], and the load and unload entry points. *)

(** [snprintf] into a character array.  [overwrite mem off cs] stores [cs]
    at [mem + off]; [None] when a byte would land outside the array. *)
Definition overwrite (mem : list ascii) (off : nat) (cs : list ascii)
    : option (list ascii) :=
  if (off + List.length cs <=? List.length mem)%nat
  then Some (firstn off mem ++ cs ++ skipn (off + List.length cs) mem)
  else None.

Definition NUL : ascii := Ascii.zero.

(** [snprintf(mem + off, size, "%s", text)]: at most [size - 1] characters
    of [text], then a NUL; nothing at all when [size] is 0. *)
Definition snprintf (mem : list ascii) (off size : nat) (text : list ascii)
    : option (list ascii) :=
  match size with
  | O => Some mem
  | S room => overwrite mem off (firstn room text ++ [NUL])
  end.

(** One upper-case hexadecimal digit. *)
Definition hex_digit (d : Z) : ascii :=
  if d <? 10 then ascii_of_nat (48 + Z.to_nat d)
  else ascii_of_nat (55 + Z.to_nat d).

(** ["%02X"] of a value between 0 and 255. *)
Definition hex2 (v : Z) : list ascii := [hex_digit (v / 16); hex_digit (v mod 16)].

(** ["0x%02X,"]. *)
Definition format_byte (v : Z) : list ascii :=
  ["0"%char; "x"%char] ++ hex2 v ++ [","%char].

(** The loop of [buffer_to_string], from index [i], with [left] iterations
    to go.  [buffer] is [None] for a NULL pointer; a read past the end of
    the buffer has no result. *)
Fixpoint buffer_to_string_from (left i n : nat) (buffer : option (list byte))
    (target : list ascii) : option (list ascii) :=
  match left with
  | O => Some target
  | S left' =>
      match (match buffer with
             | Some b => option_map (fun c => Z.land (u8 c) 255) (nth_error b i)
             | None => Some 0
             end) with
      | None => None
      | Some v =>
          match snprintf target (i * 5) (5 * (n - i)) (format_byte v) with
          | None => None
          | Some target' => buffer_to_string_from left' (S i) n buffer target'
          end
      end
  end.

Definition buffer_to_string (buffer : option (list byte)) (n : nat)
    (target : list ascii) : option (list ascii) :=
  buffer_to_string_from n 0 n buffer target.

(** What the log line shows for a block of bytes: ["0xF8,0xD8,0x86"]. *)
Fixpoint hex_list (bytes : list byte) : list ascii :=
  match bytes with
  | [] => []
  | [b] => ["0"%char; "x"%char] ++ hex2 (u8 b)
  | b :: rest => format_byte (u8 b) ++ hex_list rest
  end.

(** The C string held by a character array: the characters before the
    first NUL. *)
Fixpoint c_string (mem : list ascii) : list ascii :=
  match mem with
  | [] => []
  | c :: rest => if Ascii.eqb c NUL then [] else c :: c_string rest
  end.

(** The byte of a value, and the four bytes of a 32-bit value, least
    significant first. *)
Definition byte_of (z : Z) : byte :=
  match Byte.of_N (Z.to_N (z mod 256)) with
  | Some b => b
  | None => x00
  end.

Definition le_bytes (m : Z) : list byte :=
  [byte_of m; byte_of (m / 2 ^ 8); byte_of (m / 2 ^ 16); byte_of (m / 2 ^ 24)].

(** A function of the PCI bus, as [bbswitch_init] reads it: [pdev->class],
    [pdev->vendor], [pdev->device], [ACPI_HANDLE(&pdev->dev)] (0 for NULL)
    and [dev_name(&pdev->dev)]. *)
Record pci_function : Type := {
  pf_dev : pci_dev;
  pf_class : Z;
  pf_vendor : Z;
  pf_device : Z;
  pf_handle : acpi_handle;
  pf_name : string
}.

(** [linux/pci_ids.h], [linux/pci.h], [errno.h]. *)
Definition PCI_CLASS_DISPLAY_VGA : Z := 768.
Definition PCI_CLASS_DISPLAY_3D : Z := 770.
Definition PCI_VENDOR_ID_INTEL : Z := 32902.
Definition PCI_ANY_ID : Z := 4294967295.
Definition ENODEV : Z := 19.
Definition ENOMEM : Z := 12.

(** Calls into the kernel whose only trace is that they were made. *)
Inductive kcall : Type :=
| ProcCreate
| PciEnableDevice (pdev : pci_dev)
| RegisterPmNotifier
| RemoveProcEntry
| UnregisterPmNotifier.

Definition set_discrete (pdev : pci_function) (g : globals) : globals :=
  {| dsm_type := dsm_type g; skip_optimus_dsm := skip_optimus_dsm g;
     dis_dev := Some (pf_dev pdev); dis_handle := pf_handle pdev;
     dis_dev_name := substring 0 15 (pf_name pdev);
     vendor := pf_vendor pdev; device := pf_device pdev;
     dis_before_suspend_disabled := dis_before_suspend_disabled g |}.

Definition set_dsm_type (t : Z) (g : globals) : globals :=
  set_dsm t (skip_optimus_dsm g) g.

Definition set_dis_handle (h : acpi_handle) (g : globals) : globals :=
  {| dsm_type := dsm_type g; skip_optimus_dsm := skip_optimus_dsm g;
     dis_dev := dis_dev g; dis_handle := h;
     dis_dev_name := dis_dev_name g;
     vendor := vendor g; device := device g;
     dis_before_suspend_disabled := dis_before_suspend_disabled g |}.

(** What the entry points leave alone once the module is loaded. *)
Definition same_config (g g' : globals) : Prop :=
  dsm_type g' = dsm_type g
  /\ skip_optimus_dsm g' = skip_optimus_dsm g
  /\ dis_handle g' = dis_handle g
  /\ dis_dev_name g' = dis_dev_name g
  /\ vendor g' = vendor g
  /\ device g' = device g.

Definition is_candidate (pdev : pci_function) : bool :=
  let pci_class := Z.shiftr (pf_class pdev) 8 in
  ((pci_class =? PCI_CLASS_DISPLAY_VGA) || (pci_class =? PCI_CLASS_DISPLAY_3D))
  && negb (pf_handle pdev =? 0)
  && negb (pf_vendor pdev =? PCI_VENDOR_ID_INTEL).

Definition is_power_call (e : event) : bool :=
  is_evaluate PG00 "_OFF" e || is_evaluate PG00 "_ON" e.

(** Calls a status read may make. *)
Definition read_event (e : event) : bool :=
  match e with
  | EvEvaluate p m => String.eqb p PEGP && String.eqb m "SGST"
  | EvPciGet _ _ => true
  | EvMsleep ms => ms =? 500
  | EvPmGet _ => true
  | EvPmPut _ => true
  | EvDsm _ _ _ _ _ => false
  end.

(** Calls a command write or a PM event may make. *)
Definition entry_event (e : event) : bool :=
  read_event e || is_power_call e.

Definition sleeps (l : list event) : nat :=
  List.length (filter is_msleep l).

Section Loading.

Context {W : Type} {P : Platform W}.

Local Open Scope drv_scope.

(** Every evaluation of [SGST] returns an object. *)
Definition status_answers : Prop :=
  forall w : W, sgst_value w <> None.

(** [s'] continues the trace of [s] with at most [n] sleeps, all of them
    calls that satisfy [q]. *)
Definition continues (q : event -> bool) (n : nat) (s s' : sys W) : Prop :=
  exists l, trace s' = l ++ trace s /\ forallb q l = true
            /\ (sleeps l <= n)%nat.

Definition is_pm (e : event) : bool :=
  match e with
  | EvPmGet _ => true
  | EvPmPut _ => true
  | _ => false
  end.

(** Calls of a status read other than those on a bridge reference. *)
Definition quiet (e : event) : bool := read_event e && negb (is_pm e).

(** Every run of [m] ends in a state related by [R] to the one it began
    in. *)
Definition preserves {A} (R : sys W -> sys W -> Prop) (m : M W A) : Prop :=
  forall s, R s (final (m s)).

(** The run of [m] from [s] returns. *)
Definition returns {A} (m : M W A) (s : sys W) : Prop :=
  exists a s', m s = Ret a s'.

Definition keeps_config (s s' : sys W) : Prop :=
  same_config (vars s) (vars s').

Definition keeps_reference (s s' : sys W) : Prop :=
  dis_dev (vars s) <> None -> dis_dev (vars s') <> None.

(** The call made for the bridge [ob], if there is one. *)
Definition bridge_call (call : pci_dev -> event) (ob : option pci_dev)
    : list event :=
  match ob with
  | Some bridge => [call bridge]
  | None => []
  end.

(** Between [dis_dev_get] and [dis_dev_put]: the card is reported off, or
    reported on with no device known and none on the bus, or reported on with
    a device referenced that a bus scan leaves in place; [ob] is the bridge of
    that device, the one whose reference is held. *)
Definition settled (ob : option pci_dev) (s : sys W) : Prop :=
  (reports_off (hw s) /\ ob = None)
  \/ (reports_on (hw s) /\ dis_dev (vars (get_dis_dev s)) = None
      /\ ob = None)
  \/ (reports_on (hw s)
      /\ exists p, dis_dev (vars s) = Some p
                   /\ dis_dev (vars (get_dis_dev s)) = Some p
                   /\ pdev_bridge (hw s) p = ob).

(** Calls that loading may make besides [_ON] and [_OFF]. *)
Definition load_event (e : event) : bool := read_event e || is_dsm e.

(** Every successful evaluation of [_DSM] returns an object. *)
Definition dsm_answers : Prop :=
  forall (w : W) handle muid revid func args,
    s32 (fst (snd (evaluate_dsm w handle muid revid func args))) = 0 ->
    snd (snd (evaluate_dsm w handle muid revid func args)) <> None.

(** The scan of the bus in [bbswitch_init]; [bus] is what successive calls
    of [pci_get_device(PCI_ANY_ID, PCI_ANY_ID, pdev)] return.  The result is
    [igd_handle]. *)
Fixpoint bbswitch_init_scan (bus : list pci_function)
    (igd_handle : acpi_handle) : M W acpi_handle :=
  fun s0 =>
    let s := log (EvPciGet PCI_ANY_ID PCI_ANY_ID) s0 in
    match bus with
    | [] => Ret igd_handle s
    | pdev :: rest =>
        let pci_class := Z.shiftr (pf_class pdev) 8 in
        if negb (pci_class =? PCI_CLASS_DISPLAY_VGA)
           && negb (pci_class =? PCI_CLASS_DISPLAY_3D)
        then bbswitch_init_scan rest igd_handle s
        else if pf_handle pdev =? 0
        then bbswitch_init_scan rest igd_handle s
        else if pf_vendor pdev =? PCI_VENDOR_ID_INTEL
        then bbswitch_init_scan rest (pf_handle pdev) s
        else
          (found <- handle_has_dsm_func (pf_handle pdev)
                      acpi_optimus_dsm_muid 256 26 ;;
           if negb (found =? 0) then
             (_ <- lift (with_vars (set_discrete pdev)) ;;
              bbswitch_init_scan rest igd_handle)
           else bbswitch_init_scan rest (pf_handle pdev)) s
    end.

(** The choice of [dsm_type] in [bbswitch_init]: [true] when one was
    found, [false] for the return of [-ENODEV]. *)
Definition bbswitch_init_dsm (igd_handle : acpi_handle) : M W bool :=
  fun s =>
    (optimus <- (if skip_optimus_dsm (vars s) then ret 0
                 else has_dsm_func acpi_optimus_dsm_muid 256 26) ;;
     if negb (optimus =? 0) then
       (_ <- lift (with_vars (set_dsm_type DSM_TYPE_OPTIMUS)) ;; ret true)
     else
       nvidia <- has_dsm_func acpi_nvidia_dsm_muid 258 3 ;;
       if negb (nvidia =? 0) then
         (_ <- lift (with_vars (set_dsm_type DSM_TYPE_NVIDIA)) ;; ret true)
       else
         _ <- lift (with_vars (set_dis_handle igd_handle)) ;;
         (if igd_handle =? 0 then ret false
          else
            nvidia' <- has_dsm_func acpi_nvidia_dsm_muid 258 3 ;;
            if negb (nvidia' =? 0) then
              (_ <- lift (with_vars (set_dsm_type DSM_TYPE_NVIDIA)) ;;
               ret true)
            else ret false)) s.

(** [bbswitch_on] or [bbswitch_off] as [load_state] or [unload_state]
    asks. *)
Definition apply_state (state : Z) : M W unit :=
  if state =? CARD_ON then bbswitch_on
  else if state =? CARD_OFF then bbswitch_off
  else ret tt.

(** The end of [bbswitch_init], from [dis_dev_get] on. *)
Definition bbswitch_init_finish (load_state : Z) : M W (Z * list kcall) :=
  _ <- dis_dev_get ;;
  st <- is_card_disabled ;;
  enabled <- (if st <? 1 then
                (p <- deref_dis_dev ;; ret [PciEnableDevice p])
              else ret []) ;;
  _ <- apply_state load_state ;;
  _ <- is_card_disabled ;;
  _ <- dis_dev_put ;;
  ret (0, [ProcCreate] ++ enabled ++ [RegisterPmNotifier]).

(** [bbswitch_init].  [load_state] is the module parameter, [bus] the
    functions on the PCI bus, [proc_created] whether [proc_create]
    succeeds.  Returns the value returned and the kernel calls made, oldest
    first. *)
Definition bbswitch_init (load_state : Z) (bus : list pci_function)
    (proc_created : bool) : M W (Z * list kcall) :=
  igd_handle <- bbswitch_init_scan bus 0 ;;
  fun s =>
    match dis_dev (vars s) with
    | None => Ret (- ENODEV, []) s
    | Some _ =>
        (found <- bbswitch_init_dsm igd_handle ;;
         if negb found then ret (- ENODEV, [])
         else if negb proc_created then ret (- ENOMEM, [ProcCreate])
         else bbswitch_init_finish load_state) s
    end.

(** [bbswitch_exit]: the kernel calls made, oldest first. *)
Definition bbswitch_exit (unload_state : Z) : M W (list kcall) :=
  _ <- dis_dev_get ;;
  _ <- apply_state unload_state ;;
  _ <- is_card_disabled ;;
  _ <- dis_dev_put ;;
  ret [RemoveProcEntry; UnregisterPmNotifier].

End Loading.

(** The module as it is before [bbswitch_init] ran. *)
Definition unloaded_vars (skip : bool) : globals :=
  {| dsm_type := DSM_TYPE_UNSUPPORTED; skip_optimus_dsm := skip;
     dis_dev := None; dis_handle := 0; dis_dev_name := "";
     vendor := 0; device := 0; dis_before_suspend_disabled := 0 |}.

Definition OPTIMUS_MASK : Z := 67108865.

(** A laptop bus: the integrated GPU, the discrete one, a network card. *)
Definition igpu : pci_function :=
  {| pf_dev := 3%positive; pf_class := 196608; pf_vendor := PCI_VENDOR_ID_INTEL;
     pf_device := 5686; pf_handle := 5; pf_name := "0000:00:02.0" |}.

Definition dgpu : pci_function :=
  {| pf_dev := GPU; pf_class := 197120; pf_vendor := GPU_VENDOR;
     pf_device := GPU_DEVICE; pf_handle := 7; pf_name := "0000:01:00.0" |}.

Definition nic : pci_function :=
  {| pf_dev := 4%positive; pf_class := 131072; pf_vendor := 4332;
     pf_device := 33128; pf_handle := 9; pf_name := "0000:02:00.0" |}.

Definition insmod (skip : bool) (reply : Z * option acpi_object)
    : sys machine :=
  {| vars := unloaded_vars skip;
     hw := {| m_power := true; m_wait := 0; m_dsm := reply |};
     trace := [] |}.

(** As [g14], with a firmware whose [_DSM] answers every call with the
    Optimus function mask. *)
Definition g14_optimus : Platform machine :=
  {| sgst_value := @sgst_value machine g14;
     acpi_evaluate := @acpi_evaluate machine g14;
     pci_get_device := @pci_get_device machine g14;
     pdev_driver := @pdev_driver machine g14;
     pdev_bridge := @pdev_bridge machine g14;
     msleep := @msleep machine g14;
     evaluate_dsm m _ _ _ _ _ :=
       (m, (AE_OK, Some (ACPI_TYPE_INTEGER OPTIMUS_MASK)));
     expired_literal := @expired_literal machine g14 |}.

(** The module unloaded on a machine whose [_DSM] answers with the Optimus
    function mask. *)
Definition optimus_laptop : sys machine :=
  insmod false (AE_OK, Some (ACPI_TYPE_INTEGER OPTIMUS_MASK)).

(** ** Basic facts about the primitives *)

Section Properties.

Context {W : Type} {P : Platform W}.

Lemma u32_range (z : Z) : 0 <= u32 z < 2 ^ 32.
Proof. unfold u32. apply Z.mod_pos_bound. lia. Qed.

Lemma s32_zero_iff (z : Z) : s32 z = 0 <-> u32 z = 0.
Proof.
  unfold s32. pose proof (u32_range z) as Hr.
  destruct (u32 z <? 2 ^ 31) eqn:E.
  - tauto.
  - apply Z.ltb_ge in E. split; lia.
Qed.

Lemma hw_get_dis_dev (s : sys W) : hw (get_dis_dev s) = hw s.
Proof.
  unfold get_dis_dev.
  destruct (pci_get_device _ _ _); reflexivity.
Qed.

Lemma trace_get_dis_dev (s : sys W) :
  trace (get_dis_dev s)
  = EvPciGet (vendor (vars s)) (device (vars s)) :: trace s.
Proof.
  unfold get_dis_dev.
  destruct (pci_get_device _ _ _); reflexivity.
Qed.

Lemma dis_dev_get_dis_dev (s : sys W) :
  dis_dev (vars (get_dis_dev s))
  = match pci_get_device (hw s) (vendor (vars s)) (device (vars s)) with
    | Some pdev => Some pdev
    | None => dis_dev (vars s)
    end.
Proof.
  unfold get_dis_dev.
  destruct (pci_get_device _ _ _); reflexivity.
Qed.

Lemma ids_get_dis_dev (s : sys W) :
  vendor (vars (get_dis_dev s)) = vendor (vars s)
  /\ device (vars (get_dis_dev s)) = device (vars s)
  /\ dis_before_suspend_disabled (vars (get_dis_dev s))
     = dis_before_suspend_disabled (vars s).
Proof.
  unfold get_dis_dev.
  destruct (pci_get_device _ _ _); repeat split; reflexivity.
Qed.

(** Relocating twice on the same machine finds what the first scan found. *)
Lemma get_dis_dev_log (e : event) (s : sys W) :
  dis_dev (vars (get_dis_dev (log e s))) = dis_dev (vars (get_dis_dev s)).
Proof. rewrite !dis_dev_get_dis_dev. reflexivity. Qed.

Lemma get_dis_dev_again (e : event) (s : sys W) :
  dis_dev (vars (get_dis_dev (log e (get_dis_dev s))))
  = dis_dev (vars (get_dis_dev s)).
Proof.
  rewrite dis_dev_get_dis_dev. cbn [log hw vars].
  rewrite hw_get_dis_dev.
  destruct (ids_get_dis_dev s) as (-> & -> & _).
  rewrite dis_dev_get_dis_dev.
  destruct (pci_get_device _ _ _); reflexivity.
Qed.

(** ** The status query *)

Lemma is_card_disabled_fault (s : sys W) :
  sgst_value (hw s) = None ->
  is_card_disabled s = Fault NullDeref (log (EvEvaluate PEGP "SGST") s).
Proof. intros H. unfold is_card_disabled. rewrite H. reflexivity. Qed.

Lemma is_card_disabled_off (s : sys W) (v : Z) :
  sgst_value (hw s) = Some v -> v <= 0 ->
  is_card_disabled s = Ret 1 (log (EvEvaluate PEGP "SGST") s).
Proof.
  intros H Hv. unfold is_card_disabled. rewrite H.
  destruct (v >? 0) eqn:E; [apply Z.gtb_lt in E; lia | reflexivity].
Qed.

Lemma is_card_disabled_on (s : sys W) (v : Z) :
  sgst_value (hw s) = Some v -> 0 < v ->
  is_card_disabled s
  = let s2 := get_dis_dev (log (EvEvaluate PEGP "SGST") s) in
    match dis_dev (vars s2) with
    | None => Ret (-1) s2
    | Some _ => Ret 0 s2
    end.
Proof.
  intros H Hv. unfold is_card_disabled. rewrite H.
  destruct (v >? 0) eqn:E; [reflexivity | ].
  rewrite Z.gtb_ltb in E. apply Z.ltb_ge in E. lia.
Qed.

Lemma hw_is_card_disabled (s : sys W) :
  hw (final (is_card_disabled s)) = hw s.
Proof.
  unfold is_card_disabled.
  destruct (sgst_value (hw s)) as [v | ]; [ | reflexivity].
  destruct (v >? 0); cbn [Z.eqb]; [ | reflexivity].
  destruct (dis_dev _); cbn [final]; rewrite hw_get_dis_dev; reflexivity.
Qed.

(** The status query answers the same when asked again at once. *)
Lemma status_stable (s : sys W) :
  status_after (is_card_disabled s) = value (is_card_disabled s).
Proof.
  unfold status_after.
  destruct (sgst_value (hw s)) as [v | ] eqn:Hs.
  - destruct (Z_lt_le_dec 0 v) as [Hv | Hv].
    + rewrite (is_card_disabled_on s v Hs Hv). cbv zeta.
      set (s2 := get_dis_dev (log (EvEvaluate PEGP "SGST") s)).
      assert (Hs2 : sgst_value (hw s2) = Some v).
      { unfold s2. rewrite hw_get_dis_dev. exact Hs. }
      assert (Hd : dis_dev (vars (get_dis_dev
                      (log (EvEvaluate PEGP "SGST") s2)))
                   = dis_dev (vars s2)).
      { unfold s2. rewrite get_dis_dev_again. reflexivity. }
      destruct (dis_dev (vars s2)) eqn:E; cbn [final value];
        rewrite (is_card_disabled_on s2 v Hs2 Hv); cbv zeta;
        rewrite Hd; reflexivity.
    + rewrite (is_card_disabled_off s v Hs Hv). cbn [final value].
      rewrite (is_card_disabled_off _ v); [reflexivity | exact Hs | exact Hv].
  - rewrite (is_card_disabled_fault s Hs). cbn [final value].
    rewrite is_card_disabled_fault; [reflexivity | exact Hs].
Qed.

(** C5, as amended.  The status query answers 1 (off) when the firmware
    status value is not positive, and then looks nothing up.  When the value
    is positive it looks the recorded ids up on the bus: a device found is
    kept and the answer is 0 (on); when none is found the answer is -1
    (indeterminate) if the module holds no reference from before, and 0 (on)
    if it still holds one. *)
Theorem status_query_mapping (s : sys W) (v : Z) :
  sgst_value (hw s) = Some v ->
  (v <= 0 ->
   is_card_disabled s = Ret 1 (log (EvEvaluate PEGP "SGST") s))
  /\ (0 < v ->
      forall p,
        pci_get_device (hw s) (vendor (vars s)) (device (vars s)) = Some p ->
        value (is_card_disabled s) = Some 0
        /\ dis_dev (vars (final (is_card_disabled s))) = Some p)
  /\ (0 < v ->
      pci_get_device (hw s) (vendor (vars s)) (device (vars s)) = None ->
      (dis_dev (vars s) = None ->
       value (is_card_disabled s) = Some (-1)
       /\ dis_dev (vars (final (is_card_disabled s))) = None)
      /\ (forall p,
            dis_dev (vars s) = Some p ->
            value (is_card_disabled s) = Some 0
            /\ dis_dev (vars (final (is_card_disabled s))) = Some p)).
Proof.
  intros Hs.
  assert (Hscan : dis_dev (vars (get_dis_dev
                                   (log (EvEvaluate PEGP "SGST") s)))
                  = match pci_get_device (hw s) (vendor (vars s))
                            (device (vars s)) with
                    | Some pdev => Some pdev
                    | None => dis_dev (vars s)
                    end).
  { rewrite get_dis_dev_log. apply dis_dev_get_dis_dev. }
  split; [ | split].
  - intros Hv. exact (is_card_disabled_off s v Hs Hv).
  - intros Hv p Hp. rewrite (is_card_disabled_on s v Hs Hv). cbv zeta.
    rewrite Hp in Hscan. rewrite Hscan. cbn [value final]. rewrite Hscan.
    split; reflexivity.
  - intros Hv Hp. rewrite Hp in Hscan. split.
    + intros Hd. rewrite (is_card_disabled_on s v Hs Hv). cbv zeta.
      rewrite Hd in Hscan. rewrite Hscan. cbn [value final]. rewrite Hscan.
      split; reflexivity.
    + intros p Hd. rewrite (is_card_disabled_on s v Hs Hv). cbv zeta.
      rewrite Hd in Hscan. rewrite Hscan. cbn [value final]. rewrite Hscan.
      split; reflexivity.
Qed.

(** ** Events added by a run *)

Lemma new_events_app (s s' : sys W) (l : list event) :
  trace s' = l ++ trace s -> new_events s s' = l.
Proof.
  intros H. unfold new_events. rewrite H, List.length_app, Nat.add_sub.
  rewrite firstn_app, firstn_all, Nat.sub_diag. cbn [firstn].
  apply app_nil_r.
Qed.

Lemma is_card_disabled_trace (s : sys W) :
  trace (final (is_card_disabled s))
    = [EvEvaluate PEGP "SGST"] ++ trace s
  \/ trace (final (is_card_disabled s))
    = [EvPciGet (vendor (vars s)) (device (vars s));
       EvEvaluate PEGP "SGST"] ++ trace s.
Proof.
  unfold is_card_disabled.
  destruct (sgst_value (hw s)) as [v | ]; [ | left; reflexivity].
  destruct (v >? 0); cbn [Z.eqb]; [ | left; reflexivity].
  right.
  destruct (dis_dev _); cbn [final]; rewrite trace_get_dis_dev; reflexivity.
Qed.

(** ** The off-transition *)

Lemma bbswitch_off_refuses (s : sys W) (p : pci_dev) (drv : string) :
  dis_dev (vars (final (is_card_disabled s))) = Some p ->
  pdev_driver (hw s) p = Some drv ->
  final (bbswitch_off s) = final (is_card_disabled s).
Proof.
  intros Hd Hdrv. pose proof (hw_is_card_disabled s) as Hw.
  unfold bbswitch_off, bind.
  destruct (is_card_disabled s) as [st s1 | f s1]; cbn [final] in *;
    [ | reflexivity].
  destruct (st =? 1); [reflexivity | ].
  unfold deref_dis_dev. rewrite Hd, Hw, Hdrv. reflexivity.
Qed.

(** C1.  When the device reference the off-transition consults (the one its
    status query leaves in [dis_dev]) has a driver bound, the transition
    evaluates no [_OFF], leaves the machine as it was and the reference in
    place, and the status queried afterwards is the status queried before. *)
Theorem off_refused_when_bound (s : sys W) (p : pci_dev) (drv : string) :
  dis_dev (vars (final (is_card_disabled s))) = Some p ->
  pdev_driver (hw s) p = Some drv ->
  existsb (is_evaluate PG00 "_OFF")
          (new_events s (final (bbswitch_off s))) = false
  /\ hw (final (bbswitch_off s)) = hw s
  /\ dis_dev (vars (final (bbswitch_off s))) = Some p
  /\ status_after (bbswitch_off s) = value (is_card_disabled s).
Proof.
  intros Hd Hdrv.
  pose proof (bbswitch_off_refuses s p drv Hd Hdrv) as Hf.
  unfold status_after. rewrite Hf. repeat split.
  - destruct (is_card_disabled_trace s) as [Ht | Ht];
      rewrite (new_events_app _ _ _ Ht); reflexivity.
  - apply hw_is_card_disabled.
  - exact Hd.
  - apply status_stable.
Qed.

(** ** The firmware method invoker and the capability probe *)

Lemma acpi_call_dsm_unfold (handle : acpi_handle) (muid : list byte)
    (revid func : Z) (args : option (list byte)) (result : option Z)
    (s : sys W) :
  acpi_call_dsm handle muid revid func args result s
  = let reply := evaluate_dsm (hw s) handle muid revid func
                   (arg_block (hw s) args) in
    let s1 := log (EvDsm handle muid revid func (arg_block (hw s) args))
                  (with_hw (fst reply) s) in
    if negb (s32 (fst (snd reply)) =? 0)
    then Ret (s32 (fst (snd reply)), result) s1
    else match snd (snd reply) with
         | None => Fault NullDeref s1
         | Some (ACPI_TYPE_INTEGER v) =>
             Ret (0, match result with
                     | Some _ => Some (u32 v)
                     | None => None
                     end) s1
         | Some (ACPI_TYPE_BUFFER pointer) =>
             Ret (0, match result with
                     | Some r =>
                         if Z.of_nat (List.length pointer) =? 4
                         then Some (buffer_result pointer) else Some r
                     | None => None
                     end) s1
         | Some (ACPI_TYPE_OTHER _) => Ret (0, result) s1
         end.
Proof.
  unfold acpi_call_dsm.
  destruct (evaluate_dsm _ _ _ _ _ _) as [w [status obj]]. reflexivity.
Qed.

(** C8.  When the evaluation of [_DSM] fails (a non-zero [acpi_status]),
    [acpi_call_dsm] returns a non-zero value and the output slot is as the
    caller left it. *)
Theorem acpi_call_dsm_failure (handle : acpi_handle) (muid : list byte)
    (revid func : Z) (args : option (list byte)) (result : option Z)
    (s : sys W) :
  ACPI_FAILURE
    (fst (snd (evaluate_dsm (hw s) handle muid revid func
                 (arg_block (hw s) args)))) ->
  exists err s1,
    acpi_call_dsm handle muid revid func args result s = Ret (err, result) s1
    /\ err <> 0.
Proof.
  unfold ACPI_FAILURE. intros Hfail.
  rewrite acpi_call_dsm_unfold. cbv zeta.
  set (reply := evaluate_dsm _ _ _ _ _ _) in *.
  assert (Hne : s32 (fst (snd reply)) <> 0).
  { intros H0. apply Hfail. apply s32_zero_iff. exact H0. }
  destruct (s32 (fst (snd reply)) =? 0) eqn:E.
  - apply Z.eqb_eq in E. contradiction.
  - cbn [negb]. eexists. eexists. split; [reflexivity | exact Hne].
Qed.

Lemma u32_s32 (z : Z) : u32 (s32 z) = u32 z.
Proof.
  unfold s32. pose proof (u32_range z) as Hr.
  destruct (u32 z <? 2 ^ 31).
  - unfold u32. apply Z.mod_mod. lia.
  - unfold u32 at 1.
    replace (u32 z - 2 ^ 32) with (u32 z + (-1) * 2 ^ 32) by lia.
    rewrite Z.mod_add by lia. unfold u32. apply Z.mod_mod. lia.
Qed.

Lemma shl_int_one (n : Z) :
  0 <= n < 32 -> exists m, shl_int 1 n = Some m /\ u32 m = 2 ^ n.
Proof.
  intros Hn. unfold shl_int.
  destruct (0 <=? n) eqn:E1; [ | apply Z.leb_gt in E1; lia].
  destruct (n <? 32) eqn:E2; [ | apply Z.ltb_ge in E2; lia].
  cbn [andb]. eexists. split; [reflexivity | ].
  rewrite u32_s32, Z.shiftl_1_l. unfold u32.
  apply Z.mod_small. split; [apply Z.pow_nonneg; lia | ].
  apply Z.pow_lt_mono_r; lia.
Qed.

Lemma land_pow2_eqb (m n : Z) :
  0 <= n -> (Z.land m (2 ^ n) =? 0) = negb (Z.testbit m n).
Proof.
  intros Hn. destruct (Z.testbit m n) eqn:Hb; cbn [negb].
  - apply Z.eqb_neq. intros H0.
    assert (Hbit : Z.testbit (Z.land m (2 ^ n)) n = true).
    { rewrite Z.land_spec, Hb, Z.pow2_bits_true by lia. reflexivity. }
    rewrite H0, Z.bits_0 in Hbit. discriminate.
  - apply Z.eqb_eq. apply Z.bits_inj'. intros k Hk.
    rewrite Z.land_spec, Z.bits_0.
    destruct (Z.eq_dec n k) as [<- | Hne].
    + rewrite Hb. reflexivity.
    + rewrite Z.pow2_bits_false by lia. apply andb_false_r.
Qed.

Lemma dsm_mask_test_spec (m index : Z) (s : sys W) :
  0 <= index < 32 ->
  dsm_mask_test m index s = Ret (mask_says m index) s.
Proof.
  intros Hi. unfold dsm_mask_test, mask_says.
  change 1 with (2 ^ 0) at 1. rewrite land_pow2_eqb by lia.
  destruct (Z.testbit m 0); cbn [negb andb]; [ | reflexivity].
  destruct (shl_int_one index Hi) as (k & -> & ->).
  rewrite land_pow2_eqb by lia.
  destruct (Z.testbit m index); reflexivity.
Qed.

(** C7, as amended.  The probe answers 0 whenever [acpi_call_dsm] for
    function 0 returns a failure, whatever the index asked for; when the call
    succeeds and leaves the mask [m], and the index is one that [1 << index]
    is defined for (0 to 31), it answers 1 exactly if bit 0 and bit [index]
    of [m] are set.  [has_dsm_func] is the same probe on [dis_handle]. *)
Theorem capability_probe (handle : acpi_handle) (muid : list byte)
    (revid index : Z) (s : sys W) :
  (forall e r s1,
      acpi_call_dsm handle muid revid 0 None (Some 0) s = Ret (e, r) s1 ->
      e <> 0 ->
      value (handle_has_dsm_func handle muid revid index s) = Some 0)
  /\ (0 <= index < 32 ->
      forall m s1,
        acpi_call_dsm handle muid revid 0 None (Some 0) s
          = Ret (0, Some m) s1 ->
        value (handle_has_dsm_func handle muid revid index s)
          = Some (mask_says m index))
  /\ (handle = dis_handle (vars s) ->
      has_dsm_func muid revid index s
        = handle_has_dsm_func handle muid revid index s).
Proof.
  repeat split.
  - intros e r s1 Hcall He. unfold handle_has_dsm_func, bind.
    rewrite Hcall. cbn [fst].
    destruct (e =? 0) eqn:E; [apply Z.eqb_eq in E; contradiction | ].
    reflexivity.
  - intros Hi m s1 Hcall. unfold handle_has_dsm_func, bind.
    rewrite Hcall. cbn [fst snd Z.eqb negb].
    rewrite dsm_mask_test_spec by exact Hi. reflexivity.
  - intros ->. reflexivity.
Qed.

(** ** The transitions do not depend on the firmware interface variant *)

Lemma extends_by_refl (q : event -> bool) (s : sys W) : extends_by q s s.
Proof. exists []. split; reflexivity. Qed.

Lemma extends_by_trans (q : event -> bool) (s1 s2 s3 : sys W) :
  extends_by q s1 s2 -> extends_by q s2 s3 -> extends_by q s1 s3.
Proof.
  intros (l1 & H1 & Q1) (l2 & H2 & Q2). exists (l2 ++ l1). split.
  - rewrite H2, H1. apply app_assoc.
  - rewrite forallb_app, Q1, Q2. reflexivity.
Qed.

Lemma extends_by_log (q : event -> bool) (e : event) (s : sys W) :
  q e = true -> extends_by q s (log e s).
Proof. intros H. exists [e]. split; [reflexivity | cbn; rewrite H; reflexivity]. Qed.

Lemma extends_by_new_events (q : event -> bool) (s s' : sys W) :
  extends_by q s s' -> forallb q (new_events s s') = true.
Proof. intros (l & H & Q). rewrite (new_events_app _ _ _ H). exact Q. Qed.

Lemma get_dis_dev_extends (q : event -> bool) (s : sys W) :
  (forall v d, q (EvPciGet v d) = true) -> extends_by q s (get_dis_dev s).
Proof.
  intros Hq. exists [EvPciGet (vendor (vars s)) (device (vars s))]. split.
  - apply trace_get_dis_dev.
  - cbn. rewrite Hq. reflexivity.
Qed.

Lemma is_card_disabled_extends (q : event -> bool) (s : sys W) :
  q (EvEvaluate PEGP "SGST") = true ->
  (forall v d, q (EvPciGet v d) = true) ->
  extends_by q s (final (is_card_disabled s)).
Proof.
  intros Hs Hp.
  destruct (is_card_disabled_trace s) as [Ht | Ht]; eexists; (split; [exact Ht | ]);
    cbn; rewrite Hs, ?Hp; reflexivity.
Qed.

Lemma bbswitch_on_poll_extends (left : nat) (i : Z) (s : sys W) :
  extends_by on_event s (bbswitch_on_poll left i s).
Proof.
  revert i s. induction left as [ | left IH]; intros i s; cbn [bbswitch_on_poll].
  - destruct (dis_dev (vars s)); apply extends_by_refl.
  - destruct (dis_dev (vars s)); [apply extends_by_refl | ].
    assert (H1 : extends_by on_event s (get_dis_dev (do_msleep 500 s))).
    { eapply extends_by_trans.
      - apply (extends_by_log on_event (EvMsleep 500)
                 (with_hw (msleep (hw s) 500) s)). reflexivity.
      - apply get_dis_dev_extends. reflexivity. }
    destruct (i + 1 >? 4); [exact H1 | ].
    eapply extends_by_trans; [exact H1 | apply IH].
Qed.

Lemma bbswitch_off_extends (s : sys W) :
  extends_by off_event s (final (bbswitch_off s)).
Proof.
  pose proof (is_card_disabled_extends off_event s eq_refl
                (fun _ _ => eq_refl)) as H1.
  unfold bbswitch_off, bind.
  destruct (is_card_disabled s) as [st s1 | f s1]; cbn [final] in *;
    [ | exact H1].
  destruct (st =? 1); [exact H1 | ].
  unfold deref_dis_dev. destruct (dis_dev (vars s1)); [ | exact H1].
  destruct (pdev_driver (hw s1) p); [exact H1 | ].
  eapply extends_by_trans; [exact H1 | ].
  exists [EvEvaluate PG00 "_OFF"]. split; reflexivity.
Qed.

Lemma bbswitch_on_extends (s : sys W) :
  extends_by on_event s (final (bbswitch_on s)).
Proof.
  pose proof (is_card_disabled_extends on_event s eq_refl
                (fun _ _ => eq_refl)) as H1.
  unfold bbswitch_on, bind.
  destruct (is_card_disabled s) as [st s1 | f s1]; cbn [final] in *;
    [ | exact H1].
  destruct (st <? 1); [exact H1 | ].
  cbn [bbswitch_acpi_on lift final].
  eapply extends_by_trans; [exact H1 | ].
  eapply extends_by_trans; [ | apply bbswitch_on_poll_extends].
  exists [EvEvaluate PG00 "_ON"]. split; reflexivity.
Qed.

Section Variant.

Variables (t : Z) (skip : bool).

Lemma get_dis_dev_retype (s : sys W) :
  get_dis_dev (retype t skip s) = retype t skip (get_dis_dev s).
Proof.
  unfold get_dis_dev, retype.
  cbn [with_vars vars hw set_dsm vendor device].
  destruct (pci_get_device _ _ _); reflexivity.
Qed.

Lemma is_card_disabled_retype (s : sys W) :
  is_card_disabled (retype t skip s)
  = on_state (retype t skip) (is_card_disabled s).
Proof.
  unfold is_card_disabled.
  change (hw (retype t skip s)) with (hw s).
  destruct (sgst_value (hw s)) as [v | ]; [ | reflexivity].
  destruct (v >? 0); cbn [Z.eqb]; [ | reflexivity].
  change (log (EvEvaluate PEGP "SGST") (retype t skip s))
    with (retype t skip (log (EvEvaluate PEGP "SGST") s)).
  rewrite get_dis_dev_retype.
  change (dis_dev (vars (retype t skip ?x))) with (dis_dev (vars x)).
  destruct (dis_dev _); reflexivity.
Qed.

Lemma bbswitch_on_poll_retype (left : nat) (i : Z) (s : sys W) :
  bbswitch_on_poll left i (retype t skip s)
  = retype t skip (bbswitch_on_poll left i s).
Proof.
  revert i s. induction left as [ | left IH]; intros i s;
    cbn [bbswitch_on_poll];
    change (dis_dev (vars (retype t skip s))) with (dis_dev (vars s));
    destruct (dis_dev (vars s)); try reflexivity.
  change (do_msleep 500 (retype t skip s))
    with (retype t skip (do_msleep 500 s)).
  rewrite get_dis_dev_retype.
  destruct (i + 1 >? 4); [reflexivity | apply IH].
Qed.

Lemma bbswitch_off_retype (s : sys W) :
  bbswitch_off (retype t skip s) = on_state (retype t skip) (bbswitch_off s).
Proof.
  unfold bbswitch_off, bind. rewrite is_card_disabled_retype.
  destruct (is_card_disabled s) as [st s1 | f s1]; cbn [on_state];
    [ | reflexivity].
  destruct (st =? 1); [reflexivity | ].
  unfold deref_dis_dev.
  change (dis_dev (vars (retype t skip s1))) with (dis_dev (vars s1)).
  destruct (dis_dev (vars s1)); [ | reflexivity].
  change (hw (retype t skip s1)) with (hw s1).
  destruct (pdev_driver (hw s1) p); reflexivity.
Qed.

Lemma bbswitch_on_retype (s : sys W) :
  bbswitch_on (retype t skip s) = on_state (retype t skip) (bbswitch_on s).
Proof.
  unfold bbswitch_on, bind. rewrite is_card_disabled_retype.
  destruct (is_card_disabled s) as [st s1 | f s1]; cbn [on_state];
    [ | reflexivity].
  destruct (st <? 1); [reflexivity | ].
  cbn [bbswitch_acpi_on lift on_state].
  change (evaluate PG00 "_ON" (retype t skip s1))
    with (retype t skip (evaluate PG00 "_ON" s1)).
  unfold lift. rewrite bbswitch_on_poll_retype. reflexivity.
Qed.

End Variant.

(** C10.  Changing [dsm_type] and [skip_optimus_dsm] changes nothing in what
    the off- and on-transitions do: the run from the changed state is the run
    from the original one, with the two variables changed in its final
    state.  Every call either transition makes is the [SGST] status query, a
    bus scan, a sleep (on-transition only), or the evaluation of [_OFF],
    resp. [_ON], under [\_SB.PCI0.GPP0.PG00]; no [_DSM] is evaluated. *)
Theorem transitions_ignore_dsm_type (t : Z) (skip : bool) (s : sys W) :
  bbswitch_off (retype t skip s)
    = on_state (retype t skip) (bbswitch_off s)
  /\ bbswitch_on (retype t skip s)
    = on_state (retype t skip) (bbswitch_on s)
  /\ forallb off_event (new_events s (final (bbswitch_off s))) = true
  /\ forallb on_event (new_events s (final (bbswitch_on s))) = true
  /\ existsb is_dsm (new_events s (final (bbswitch_off s))) = false
  /\ existsb is_dsm (new_events s (final (bbswitch_on s))) = false.
Proof.
  pose proof (extends_by_new_events _ _ _ (bbswitch_off_extends s)) as Hoff.
  pose proof (extends_by_new_events _ _ _ (bbswitch_on_extends s)) as Hon.
  assert (Hno : forall q l, (forall e, q e = true -> is_dsm e = false) ->
                  forallb q l = true -> existsb is_dsm l = false).
  { intros q l Hq. induction l as [ | e l IH]; cbn; [reflexivity | ].
    intros H. apply andb_prop in H. destruct H as [He Hl].
    rewrite (Hq e He), (IH Hl). reflexivity. }
  repeat split.
  - apply bbswitch_off_retype.
  - apply bbswitch_on_retype.
  - exact Hoff.
  - exact Hon.
  - apply (Hno off_event); [ | exact Hoff]. intros [ | | | | | ]; cbn; congruence.
  - apply (Hno on_event); [ | exact Hon]. intros [ | | | | | ]; cbn; congruence.
Qed.

(** ** The polling loop of the on-transition *)

(** The bound [left] is never what ends the loop: from [i <= 4] any bound
    of at least [5 - i] gives the same run. *)
Lemma bbswitch_on_poll_fuel (left extra : nat) (i : Z) (s : sys W) :
  i <= 4 -> 5 - i <= Z.of_nat left ->
  bbswitch_on_poll (left + extra) i s = bbswitch_on_poll left i s.
Proof.
  revert i s. induction left as [ | left IH]; intros i s Hi Hl; [lia | ].
  cbn [Nat.add bbswitch_on_poll].
  destruct (dis_dev (vars s)); [reflexivity | ].
  destruct (i + 1 >? 4) eqn:E; [reflexivity | ].
  rewrite Z.gtb_ltb in E. apply Z.ltb_ge in E. apply IH; lia.
Qed.

Lemma attempts_snoc (n : nat) (s : sys W) :
  attempts n s ++ attempt s = attempt s ++ attempts n s.
Proof.
  induction n as [ | n IH]; cbn [attempts].
  - rewrite app_nil_r. reflexivity.
  - rewrite <- app_assoc, IH. reflexivity.
Qed.

Lemma attempts_vars (n : nat) (s s' : sys W) :
  vars s' = vars s -> attempts n s' = attempts n s.
Proof.
  intros H. induction n as [ | n IH]; cbn [attempts]; [reflexivity | ].
  rewrite IH. unfold attempt. rewrite H. reflexivity.
Qed.

Lemma bbswitch_on_poll_never (left : nat) (i : Z) (s : sys W) :
  Z.of_nat left = 5 - i ->
  dis_dev (vars s) = None ->
  (forall k, (1 <= k <= left)%nat ->
     pci_get_device (after_sleeps k (hw s))
                    (vendor (vars s)) (device (vars s)) = None) ->
  trace (bbswitch_on_poll left i s) = attempts left s ++ trace s
  /\ vars (bbswitch_on_poll left i s) = vars s
  /\ hw (bbswitch_on_poll left i s) = after_sleeps left (hw s).
Proof.
  revert i s. induction left as [ | left IH]; intros i s Hl Hd Hnone;
    cbn [bbswitch_on_poll]; rewrite Hd.
  - repeat split.
  - assert (H1 : pci_get_device (msleep (hw s) 500)
                   (vendor (vars s)) (device (vars s)) = None).
    { apply (Hnone 1%nat). lia. }
    assert (Hs1 : get_dis_dev (do_msleep 500 s)
                  = log (EvPciGet (vendor (vars s)) (device (vars s)))
                        (do_msleep 500 s)).
    { unfold get_dis_dev. cbn [do_msleep log with_hw vars hw].
      rewrite H1. reflexivity. }
    rewrite Hs1.
    destruct (i + 1 >? 4) eqn:E.
    + apply Z.gtb_lt in E. assert (left = O) by lia. subst left.
      repeat split.
    + rewrite Z.gtb_ltb in E. apply Z.ltb_ge in E.
      set (s1 := log _ (do_msleep 500 s)).
      destruct (IH (i + 1) s1) as (Ht & Hv & Hh).
      * lia.
      * exact Hd.
      * intros k Hk. apply (Hnone (S k)). lia.
      * rewrite Ht, Hv, Hh. repeat split.
        rewrite (attempts_vars left s s1) by reflexivity.
        change (trace s1) with (attempt s ++ trace s).
        rewrite app_assoc, attempts_snoc.
        cbn [attempts]. rewrite <- app_assoc. reflexivity.
Qed.

(** C6, as amended.  An on-transition entered with the card reported off
    and no device reference held, during which no bus scan finds the device,
    evaluates [_ON], makes exactly five attempts (each a sleep of 500 ms
    followed by a bus scan) and returns with the reference still NULL.  The
    status queried next is never on: it is indeterminate if the firmware
    then reports on. *)
Theorem on_transition_bounded_retry (s : sys W) (v : Z) :
  sgst_value (hw s) = Some v -> v <= 0 ->
  dis_dev (vars s) = None ->
  never_reappears s ->
  exists s',
    bbswitch_on s = Ret tt s'
    /\ new_events s s'
       = attempts 5 s ++ [EvEvaluate PG00 "_ON"; EvEvaluate PEGP "SGST"]
    /\ dis_dev (vars s') = None
    /\ value (is_card_disabled s') <> Some 0
    /\ (reports_on (hw s') -> value (is_card_disabled s') = Some (-1)).
Proof.
  intros Hs Hv Hd Hnever.
  set (s1 := evaluate PG00 "_ON" (log (EvEvaluate PEGP "SGST") s)).
  destruct (bbswitch_on_poll_never 5 0 s1) as (Ht & Hvars & Hh).
  - reflexivity.
  - exact Hd.
  - exact Hnever.
  - exists (bbswitch_on_poll 5 0 s1).
    assert (Hscan : pci_get_device (hw (bbswitch_on_poll 5 0 s1))
                      (vendor (vars s)) (device (vars s)) = None).
    { rewrite Hh. apply (Hnever 5%nat). lia. }
    assert (Hq : forall e,
               dis_dev (vars (get_dis_dev (log e (bbswitch_on_poll 5 0 s1))))
               = None).
    { intros e. rewrite dis_dev_get_dis_dev. cbn [log hw vars].
      rewrite Hvars. change (vars s1) with (vars s).
      rewrite Hscan. exact Hd. }
    split; [ | split; [ | split; [ | split]]].
    + unfold bbswitch_on, bind. rewrite (is_card_disabled_off s v Hs Hv).
      reflexivity.
    + apply new_events_app. rewrite Ht.
      rewrite (attempts_vars 5 s s1) by reflexivity.
      rewrite <- app_assoc. reflexivity.
    + rewrite Hvars. exact Hd.
    + destruct (sgst_value (hw (bbswitch_on_poll 5 0 s1))) as [v' | ] eqn:E.
      * destruct (Z_lt_le_dec 0 v') as [Hv' | Hv'].
        -- rewrite (is_card_disabled_on _ v' E Hv'). cbv zeta.
           rewrite Hq. cbn [value]. discriminate.
        -- rewrite (is_card_disabled_off _ v' E Hv'). cbn [value].
           discriminate.
      * rewrite (is_card_disabled_fault _ E). cbn [value]. discriminate.
    + intros (v' & E & Hv').
      rewrite (is_card_disabled_on _ v' E Hv'). cbv zeta.
      rewrite Hq. reflexivity.
Qed.

(** ** Idempotence of the transitions *)

Lemma dis_dev_is_card_disabled_again (s : sys W) :
  dis_dev (vars (final (is_card_disabled (final (is_card_disabled s)))))
  = dis_dev (vars (final (is_card_disabled s))).
Proof.
  destruct (sgst_value (hw s)) as [v | ] eqn:Hs.
  - destruct (Z_lt_le_dec 0 v) as [Hv | Hv].
    + rewrite (is_card_disabled_on s v Hs Hv). cbv zeta.
      set (s2 := get_dis_dev (log (EvEvaluate PEGP "SGST") s)).
      assert (Hs2 : sgst_value (hw s2) = Some v).
      { unfold s2. rewrite hw_get_dis_dev. exact Hs. }
      assert (Hd : dis_dev (vars (get_dis_dev
                      (log (EvEvaluate PEGP "SGST") s2)))
                   = dis_dev (vars s2)).
      { unfold s2. rewrite get_dis_dev_again. reflexivity. }
      destruct (dis_dev (vars s2)) eqn:E; cbn [final];
        rewrite (is_card_disabled_on s2 v Hs2 Hv); cbv zeta;
        rewrite Hd; cbn [final]; congruence.
    + rewrite (is_card_disabled_off s v Hs Hv). cbn [final].
      rewrite (is_card_disabled_off _ v); [reflexivity | exact Hs | exact Hv].
  - rewrite (is_card_disabled_fault s Hs). cbn [final].
    rewrite is_card_disabled_fault; [reflexivity | exact Hs].
Qed.

Lemma off_gate_stable (s : sys W) :
  off_gate (final (is_card_disabled s)) = off_gate s.
Proof.
  unfold off_gate.
  pose proof (status_stable s) as Hst. unfold status_after in Hst.
  rewrite Hst, dis_dev_is_card_disabled_again, hw_is_card_disabled.
  reflexivity.
Qed.

Lemma off_gate_closed (s : sys W) :
  off_gate s = false -> final (bbswitch_off s) = final (is_card_disabled s).
Proof.
  pose proof (hw_is_card_disabled s) as Hw.
  unfold off_gate, bbswitch_off, bind.
  destruct (is_card_disabled s) as [st s1 | f s1]; cbn [final value] in *;
    [ | reflexivity].
  destruct (st =? 1); cbn [negb andb]; [reflexivity | ].
  unfold deref_dis_dev. destruct (dis_dev (vars s1)); [ | reflexivity].
  rewrite Hw. destruct (pdev_driver (hw s) p); [reflexivity | discriminate].
Qed.

Lemma off_gate_open (s : sys W) :
  off_gate s = true ->
  bbswitch_off s
  = Ret tt (with_vars (set_dis_dev None)
              (evaluate PG00 "_OFF" (final (is_card_disabled s)))).
Proof.
  pose proof (hw_is_card_disabled s) as Hw.
  unfold off_gate, bbswitch_off, bind.
  destruct (is_card_disabled s) as [st s1 | f s1]; cbn [final value] in *;
    [ | discriminate].
  destruct (st =? 1); cbn [negb andb]; [discriminate | ].
  unfold deref_dis_dev. destruct (dis_dev (vars s1)); [ | discriminate].
  rewrite Hw. destruct (pdev_driver (hw s) p); [discriminate | reflexivity].
Qed.

(** With the card reported on and no device known, the off-transition reads
    [dis_dev->driver] through a NULL [dis_dev]. *)
Lemma bbswitch_off_indeterminate (s : sys W) :
  value (is_card_disabled s) = Some (-1) ->
  exists s', bbswitch_off s = Fault NullDeref s' /\ dis_dev (vars s') = None.
Proof.
  destruct (sgst_value (hw s)) as [v | ] eqn:Hs.
  - destruct (Z_lt_le_dec 0 v) as [Hv | Hv].
    + unfold bbswitch_off, bind.
      rewrite (is_card_disabled_on s v Hs Hv). cbv zeta.
      destruct (dis_dev (vars (get_dis_dev _))) eqn:Ed; [discriminate | ].
      intros _. eexists. cbn [Z.eqb]. unfold deref_dis_dev. rewrite Ed.
      split; [reflexivity | exact Ed].
    + rewrite (is_card_disabled_off s v Hs Hv). discriminate.
  - rewrite (is_card_disabled_fault s Hs). discriminate.
Qed.

Lemma status_when_off (s : sys W) :
  reports_off (hw s) -> is_card_disabled s = Ret 1 (log (EvEvaluate PEGP "SGST") s).
Proof. intros (v & Hs & Hv). exact (is_card_disabled_off s v Hs Hv). Qed.

Lemma status_when_on (s : sys W) (st : Z) :
  reports_on (hw s) -> value (is_card_disabled s) = Some st -> st < 1.
Proof.
  intros (v & Hs & Hv). rewrite (is_card_disabled_on s v Hs Hv). cbv zeta.
  destruct (dis_dev _); cbn [value]; intros [= <-]; lia.
Qed.

Lemma on_noop (s : sys W) :
  (forall st, value (is_card_disabled s) = Some st -> st < 1) ->
  final (bbswitch_on s) = final (is_card_disabled s).
Proof.
  unfold bbswitch_on, bind.
  destruct (is_card_disabled s) as [st s1 | f s1]; cbn [final value];
    [ | reflexivity].
  intros H. specialize (H st eq_refl).
  destruct (st <? 1) eqn:E; [reflexivity | ].
  apply Z.ltb_ge in E. lia.
Qed.

(** The polling loop leaves the machine as some number of sleeps, at most
    its bound, leave it. *)
Lemma hw_bbswitch_on_poll (left : nat) (i : Z) (s : sys W) :
  exists k, (k <= left)%nat
            /\ hw (bbswitch_on_poll left i s) = after_sleeps k (hw s).
Proof.
  revert i s. induction left as [ | left IH]; intros i s;
    cbn [bbswitch_on_poll].
  - exists 0%nat. destruct (dis_dev (vars s)); split; try lia; reflexivity.
  - destruct (dis_dev (vars s));
      [exists 0%nat; split; [lia | reflexivity] | ].
    assert (H1 : hw (get_dis_dev (do_msleep 500 s)) = msleep (hw s) 500).
    { rewrite hw_get_dis_dev. reflexivity. }
    destruct (i + 1 >? 4).
    + exists 1%nat. split; [lia | ]. rewrite H1. reflexivity.
    + destruct (IH (i + 1) (get_dis_dev (do_msleep 500 s)))
        as (k & Hk & E).
      exists (S k). split; [lia | ]. rewrite E, H1. reflexivity.
Qed.

Lemma sgst_after_sleeps (k : nat) (w : W) :
  sleep_keeps_status -> sgst_value (after_sleeps k w) = sgst_value w.
Proof.
  intros Hk. revert w. induction k as [ | k IH]; intros w;
    cbn [after_sleeps]; [reflexivity | ].
  rewrite IH. apply Hk.
Qed.

Lemma on_stays_reported_intro :
  on_takes_effect -> sleep_keeps_status -> on_stays_reported.
Proof.
  intros Hon Hk w k _. unfold reports_on.
  rewrite (sgst_after_sleeps k _ Hk). apply Hon.
Qed.

(** An off-transition that passes its three tests evaluates [_OFF]; an
    on-transition entered with status off evaluates [_ON]. *)
Lemma bbswitch_off_evaluates (s : sys W) :
  off_gate s = true ->
  existsb (is_evaluate PG00 "_OFF") (new_events s (final (bbswitch_off s)))
  = true.
Proof.
  intros G. rewrite (off_gate_open s G). cbn [final].
  assert (Ht : exists l, trace (final (is_card_disabled s)) = l ++ trace s).
  { destruct (is_card_disabled_trace s) as [H | H]; eexists; exact H. }
  destruct Ht as (l & Ht).
  rewrite (new_events_app s _ (EvEvaluate PG00 "_OFF" :: l)).
  - reflexivity.
  - cbn [with_vars evaluate log with_hw trace]. rewrite Ht. reflexivity.
Qed.

Lemma bbswitch_on_evaluates (s : sys W) :
  value (is_card_disabled s) = Some 1 ->
  existsb (is_evaluate PG00 "_ON") (new_events s (final (bbswitch_on s)))
  = true.
Proof.
  intros Hst.
  assert (Hoff : reports_off (hw s)).
  { destruct (sgst_value (hw s)) as [v | ] eqn:Hs.
    - destruct (Z_lt_le_dec 0 v) as [Hv | Hv].
      + rewrite (is_card_disabled_on s v Hs Hv) in Hst. cbv zeta in Hst.
        destruct (dis_dev _); discriminate Hst.
      + exists v. split; assumption.
    - rewrite (is_card_disabled_fault s Hs) in Hst. discriminate Hst. }
  set (s1 := evaluate PG00 "_ON" (log (EvEvaluate PEGP "SGST") s)).
  assert (Hrun : bbswitch_on s = Ret tt (bbswitch_on_poll 5 0 s1)).
  { unfold bbswitch_on, bind. rewrite (status_when_off s Hoff). reflexivity. }
  rewrite Hrun. cbn [final].
  destruct (bbswitch_on_poll_extends 5 0 s1) as (l & Ht & _).
  rewrite (new_events_app s _
             (l ++ [EvEvaluate PG00 "_ON"; EvEvaluate PEGP "SGST"])).
  - rewrite existsb_app. apply orb_true_r.
  - rewrite Ht, <- app_assoc. reflexivity.
Qed.

Lemma off_twice (s : sys W) :
  off_gate s = false \/ off_takes_effect ->
  status_after (bbswitch_off (final (bbswitch_off s)))
  = status_after (bbswitch_off s).
Proof.
  intros H. unfold status_after.
  destruct (off_gate s) eqn:G.
  - destruct H as [H | Hoff]; [discriminate H | ].
    rewrite (off_gate_open s G). cbn [final].
    set (s3 := with_vars _ _).
    assert (H3 : reports_off (hw s3)) by apply Hoff.
    assert (Hc : off_gate s3 = false).
    { unfold off_gate. rewrite (status_when_off s3 H3). reflexivity. }
    rewrite (off_gate_closed s3 Hc).
    apply (status_stable s3).
  - rewrite (off_gate_closed s G).
    assert (Hc : off_gate (final (is_card_disabled s)) = false).
    { rewrite off_gate_stable. exact G. }
    rewrite (off_gate_closed _ Hc).
    apply (status_stable (final (is_card_disabled s))).
Qed.

Lemma on_twice (s : sys W) :
  value (is_card_disabled s) <> Some 1 \/ on_stays_reported ->
  status_after (bbswitch_on (final (bbswitch_on s)))
  = status_after (bbswitch_on s).
Proof.
  intros H. unfold status_after.
  assert (Hnoop : forall s0 : sys W,
             (forall st, value (is_card_disabled s0) = Some st -> st < 1) ->
             value (is_card_disabled (final (bbswitch_on s0)))
             = value (is_card_disabled s0)).
  { intros s0 H0. rewrite (on_noop s0 H0). apply (status_stable s0). }
  destruct (sgst_value (hw s)) as [v | ] eqn:Hs.
  - destruct (Z_lt_le_dec 0 v) as [Hv | Hv].
    + assert (H0 : forall st, value (is_card_disabled s) = Some st -> st < 1).
      { intros st. apply status_when_on. exists v. split; assumption. }
      rewrite (on_noop s H0). apply Hnoop.
      intros st. pose proof (status_stable s) as Hst.
      unfold status_after in Hst. rewrite Hst. apply H0.
    + assert (Hrun : bbswitch_on s
                     = Ret tt (bbswitch_on_poll 5 0
                         (evaluate PG00 "_ON"
                            (log (EvEvaluate PEGP "SGST") s)))).
      { unfold bbswitch_on, bind. rewrite (is_card_disabled_off s v Hs Hv).
        reflexivity. }
      destruct H as [H | Hon].
      { rewrite (is_card_disabled_off s v Hs Hv) in H. contradiction H.
        reflexivity. }
      rewrite Hrun. cbn [final]. apply Hnoop.
      intros st. apply status_when_on.
      destruct (hw_bbswitch_on_poll 5 0
                  (evaluate PG00 "_ON" (log (EvEvaluate PEGP "SGST") s)))
        as (k & Hk & ->).
      apply (Hon (hw s) k Hk).
  - assert (H0 : forall st, value (is_card_disabled s) = Some st -> st < 1).
    { rewrite (is_card_disabled_fault s Hs). discriminate. }
    rewrite (on_noop s H0). apply Hnoop.
    intros st. pose proof (status_stable s) as Hst.
    unfold status_after in Hst. rewrite Hst. apply H0.
Qed.

(** C9, as amended.  An off-transition that evaluates no [_OFF] (the card
    is reported off, no device is known, or a driver is bound) can be
    repeated without changing the status queried afterwards, and so can an
    on-transition that evaluates no [_ON] (the status is not off), on any
    machine.  A transition that does reach the firmware is idempotent when
    the firmware honours the call: the card is reported off once [_OFF] was
    evaluated, resp. reported on once [_ON] was evaluated and through the
    sleeps that follow. *)
Theorem transitions_idempotent (s : sys W) :
  (existsb (is_evaluate PG00 "_OFF")
     (new_events s (final (bbswitch_off s))) = false
   \/ off_takes_effect ->
   status_after (bbswitch_off (final (bbswitch_off s)))
   = status_after (bbswitch_off s))
  /\ (existsb (is_evaluate PG00 "_ON")
        (new_events s (final (bbswitch_on s))) = false
      \/ on_stays_reported ->
      status_after (bbswitch_on (final (bbswitch_on s)))
      = status_after (bbswitch_on s)).
Proof.
  split.
  - intros [Hno | Hoff]; apply off_twice; [left | right; exact Hoff].
    destruct (off_gate s) eqn:G; [ | reflexivity].
    rewrite (bbswitch_off_evaluates s G) in Hno. discriminate Hno.
  - intros [Hno | Hon]; apply on_twice; [left | right; exact Hon].
    intros Hst. rewrite (bbswitch_on_evaluates s Hst) in Hno.
    discriminate Hno.
Qed.

(** ** Steps taken with the card on *)

Lemma keeps_refl (s : sys W) : keeps s s.
Proof. repeat split. Qed.

Lemma keeps_log (e : event) (s : sys W) : keeps s (log e s).
Proof. repeat split. Qed.

Lemma keeps_trans (s1 s2 s3 : sys W) :
  keeps s1 s2 -> keeps s2 s3 -> keeps s1 s3.
Proof.
  unfold keeps. intros (A1 & B1 & C1 & D1) (A2 & B2 & C2 & D2).
  repeat split; congruence.
Qed.

Lemma keeps_get_dis_dev (s : sys W) : keeps s (get_dis_dev s).
Proof.
  unfold keeps. rewrite hw_get_dis_dev.
  destruct (ids_get_dis_dev s) as (-> & -> & ->). repeat split.
Qed.

Lemma located_found_on (s : sys W) : located s -> found_on s.
Proof.
  intros [Hon Hd]. split; [exact Hon | ].
  rewrite dis_dev_get_dis_dev.
  destruct (pci_get_device _ _ _); [discriminate | exact Hd].
Qed.

Lemma status_found_on (s : sys W) :
  value (is_card_disabled s) = Some 0 -> found_on s.
Proof.
  destruct (sgst_value (hw s)) as [v | ] eqn:Hs.
  - destruct (Z_lt_le_dec 0 v) as [Hv | Hv].
    + rewrite (is_card_disabled_on s v Hs Hv). cbv zeta.
      rewrite get_dis_dev_log. intros H. split.
      * exists v. split; assumption.
      * destruct (dis_dev (vars (get_dis_dev s))); discriminate.
    + rewrite (is_card_disabled_off s v Hs Hv). discriminate.
  - rewrite (is_card_disabled_fault s Hs). discriminate.
Qed.

Lemma status_reports_off (s : sys W) :
  value (is_card_disabled s) = Some 1 -> reports_off (hw s).
Proof.
  destruct (sgst_value (hw s)) as [v | ] eqn:Hs.
  - destruct (Z_lt_le_dec 0 v) as [Hv | Hv].
    + rewrite (is_card_disabled_on s v Hs Hv). cbv zeta.
      destruct (dis_dev _); discriminate.
    + intros _. exists v. split; assumption.
  - rewrite (is_card_disabled_fault s Hs). discriminate.
Qed.

Lemma is_card_disabled_found_on (s : sys W) :
  found_on s ->
  exists s', is_card_disabled s = Ret 0 s' /\ located s' /\ keeps s s'.
Proof.
  intros [(v & Hs & Hv) Hd].
  rewrite (is_card_disabled_on s v Hs Hv). cbv zeta.
  set (s2 := get_dis_dev (log (EvEvaluate PEGP "SGST") s)).
  assert (Hd2 : dis_dev (vars s2) <> None).
  { unfold s2. rewrite get_dis_dev_log. exact Hd. }
  assert (Hk : keeps s s2).
  { apply (keeps_trans s (log (EvEvaluate PEGP "SGST") s)).
    - apply keeps_log.
    - apply keeps_get_dis_dev. }
  exists s2. destruct (dis_dev (vars s2)) eqn:E; [ | congruence].
  split; [reflexivity | ]. split; [ | exact Hk].
  split; [ | congruence].
  exists v. destruct Hk as (-> & _). split; assumption.
Qed.

Lemma dis_dev_get_poll_located (left : nat) (i : Z) (s : sys W) :
  dis_dev (vars s) <> None -> dis_dev_get_poll left i s = (true, s).
Proof.
  intros Hd. destruct left; cbn [dis_dev_get_poll];
    destruct (dis_dev (vars s)); congruence.
Qed.

Lemma located_log (e : event) (s : sys W) : located s -> located (log e s).
Proof. intros H. exact H. Qed.

Lemma dis_dev_get_found_on (s : sys W) :
  found_on s ->
  exists s', dis_dev_get s = Ret tt s' /\ located s' /\ keeps s s'.
Proof.
  intros H. destruct (is_card_disabled_found_on s H) as (s1 & E & L & K).
  unfold dis_dev_get, bind. rewrite E. cbn [Z.ltb Z.compare].
  rewrite (dis_dev_get_poll_located 5 0 s1 (proj2 L)).
  unfold deref_dis_dev.
  destruct (dis_dev (vars s1)) as [p | ] eqn:Ed; [ | destruct L; congruence].
  destruct (pdev_bridge (hw s1) p) as [bridge | ].
  - exists (log (EvPmGet bridge) s1). repeat split; try apply L; apply K.
  - exists s1. repeat split; try apply L; apply K.
Qed.

Lemma dis_dev_put_found_on (s : sys W) :
  found_on s ->
  exists s', dis_dev_put s = Ret tt s' /\ located s' /\ keeps s s'.
Proof.
  intros H. destruct (is_card_disabled_found_on s H) as (s1 & E & L & K).
  unfold dis_dev_put, bind. rewrite E. cbn [Z.eqb].
  unfold deref_dis_dev.
  destruct (dis_dev (vars s1)) as [p | ] eqn:Ed; [ | destruct L; congruence].
  destruct (pdev_bridge (hw s1) p) as [bridge | ].
  - exists (log (EvPmPut bridge) s1). repeat split; try apply L; apply K.
  - exists s1. repeat split; try apply L; apply K.
Qed.

Lemma bbswitch_on_found_on (s : sys W) :
  found_on s ->
  exists s', bbswitch_on s = Ret tt s' /\ located s' /\ keeps s s'.
Proof.
  intros H. destruct (is_card_disabled_found_on s H) as (s1 & E & L & K).
  unfold bbswitch_on, bind. rewrite E. cbn [Z.ltb Z.compare].
  exists s1. repeat split; try apply L; apply K.
Qed.

(** ** Steps taken with the card off *)

Lemma dis_dev_get_off (s : sys W) :
  reports_off (hw s) ->
  dis_dev_get s = Ret tt (log (EvEvaluate PEGP "SGST") s).
Proof.
  intros H. unfold dis_dev_get, bind. rewrite (status_when_off s H).
  reflexivity.
Qed.

Lemma dis_dev_put_off (s : sys W) :
  reports_off (hw s) ->
  dis_dev_put s = Ret tt (log (EvEvaluate PEGP "SGST") s).
Proof.
  intros H. unfold dis_dev_put, bind. rewrite (status_when_off s H).
  reflexivity.
Qed.

Lemma keeps_bbswitch_on_poll (left : nat) (i : Z) (s : sys W) :
  vendor (vars (bbswitch_on_poll left i s)) = vendor (vars s)
  /\ device (vars (bbswitch_on_poll left i s)) = device (vars s)
  /\ dis_before_suspend_disabled (vars (bbswitch_on_poll left i s))
     = dis_before_suspend_disabled (vars s).
Proof.
  revert i s. induction left as [ | left IH]; intros i s;
    cbn [bbswitch_on_poll]; destruct (dis_dev (vars s)); try (repeat split).
  all: pose proof (ids_get_dis_dev (do_msleep 500 s)) as (A & B & C);
    cbn [do_msleep log with_hw vars] in A, B, C;
    destruct (i + 1 >? 4); try assumption;
    destruct (IH (i + 1) (get_dis_dev (do_msleep 500 s))) as (A' & B' & C');
    congruence.
Qed.

Lemma bbswitch_on_poll_finds (left : nat) (i : Z) (s : sys W) :
  Z.of_nat left = 5 - i ->
  (exists k, (1 <= k <= left)%nat /\
     pci_get_device (after_sleeps k (hw s))
                    (vendor (vars s)) (device (vars s)) <> None) ->
  dis_dev (vars (bbswitch_on_poll left i s)) <> None.
Proof.
  revert i s. induction left as [ | left IH]; intros i s Hl (k & Hk & Hfound).
  - lia.
  - cbn [bbswitch_on_poll].
    destruct (dis_dev (vars s)) eqn:Ed; [congruence | ].
    set (s1 := get_dis_dev (do_msleep 500 s)).
    assert (Hd1 : dis_dev (vars s1)
                  = match pci_get_device (msleep (hw s) 500)
                            (vendor (vars s)) (device (vars s)) with
                    | Some pdev => Some pdev
                    | None => None
                    end).
    { unfold s1. rewrite dis_dev_get_dis_dev.
      cbn [do_msleep log with_hw vars hw]. rewrite Ed. reflexivity. }
    destruct (pci_get_device (msleep (hw s) 500) _ _) as [pdev | ] eqn:Escan.
    + assert (Hsome : dis_dev (vars s1) <> None) by congruence.
      destruct (i + 1 >? 4); [exact Hsome | ].
      destruct left; cbn [bbswitch_on_poll]; rewrite Hd1; exact Hsome.
    + assert (Hk2 : (2 <= k)%nat).
      { destruct (Nat.eq_dec k 1) as [-> | ]; [ | lia].
        cbn [after_sleeps] in Hfound. congruence. }
      destruct (i + 1 >? 4) eqn:E.
      * apply Z.gtb_lt in E. lia.
      * rewrite Z.gtb_ltb in E. apply Z.ltb_ge in E.
        apply IH; [lia | ].
        exists (Nat.pred k). split; [lia | ].
        unfold s1. rewrite hw_get_dis_dev.
        destruct (ids_get_dis_dev (do_msleep 500 s)) as (-> & -> & _).
        cbn [do_msleep log with_hw vars hw].
        destruct k as [ | k']; [lia | ]. exact Hfound.
Qed.

Lemma bbswitch_on_poll_located (left : nat) (i : Z) (s : sys W) :
  dis_dev (vars s) <> None -> bbswitch_on_poll left i s = s.
Proof.
  intros Hd. destruct left; cbn [bbswitch_on_poll];
    destruct (dis_dev (vars s)); congruence.
Qed.

Lemma bbswitch_on_from_off (s : sys W) :
  reports_off (hw s) -> dis_dev (vars s) <> None \/ reappears s ->
  exists s',
    bbswitch_on s = Ret tt s' /\ dis_dev (vars s') <> None
    /\ dis_before_suspend_disabled (vars s')
       = dis_before_suspend_disabled (vars s).
Proof.
  intros Hoff Hre.
  set (s1 := evaluate PG00 "_ON" (log (EvEvaluate PEGP "SGST") s)).
  exists (bbswitch_on_poll 5 0 s1). split; [ | split].
  - unfold bbswitch_on, bind. rewrite (status_when_off s Hoff). reflexivity.
  - destruct Hre as [Hd | Hre].
    + rewrite bbswitch_on_poll_located; exact Hd.
    + apply bbswitch_on_poll_finds; [reflexivity | exact Hre].
  - destruct (keeps_bbswitch_on_poll 5 0 s1) as (_ & _ & ->). reflexivity.
Qed.

Lemma reports_cases (s : sys W) :
  status_answers -> reports_on (hw s) \/ reports_off (hw s).
Proof.
  intros Ha. specialize (Ha (hw s)).
  destruct (sgst_value (hw s)) as [v | ] eqn:Hs; [ | congruence].
  destruct (Z_lt_le_dec 0 v) as [Hv | Hv]; [left | right];
    exists v; split; assumption.
Qed.

Lemma bbswitch_off_off (s : sys W) :
  reports_off (hw s) ->
  bbswitch_off s = Ret tt (log (EvEvaluate PEGP "SGST") s).
Proof.
  intros H. unfold bbswitch_off, bind. rewrite (status_when_off s H).
  reflexivity.
Qed.

(** With a device reference held, [dis_dev_put] returns whatever the
    firmware reports, and keeps the reference. *)
Lemma dis_dev_put_held (s : sys W) :
  status_answers -> dis_dev (vars s) <> None ->
  exists s',
    dis_dev_put s = Ret tt s' /\ dis_dev (vars s') <> None
    /\ dis_before_suspend_disabled (vars s')
       = dis_before_suspend_disabled (vars s).
Proof.
  intros Ha Hd. destruct (reports_cases s Ha) as [Hon | Hoff].
  - destruct (dis_dev_put_found_on s (located_found_on s (conj Hon Hd)))
      as (s' & E & L & K).
    exists s'. split; [exact E | ]. split; [apply L | apply K].
  - exists (log (EvEvaluate PEGP "SGST") s).
    split; [apply (dis_dev_put_off s Hoff) | ]. split; [exact Hd | reflexivity].
Qed.

Lemma bbswitch_off_found_on (s : sys W) :
  off_takes_effect -> no_consumer -> found_on s ->
  exists s',
    bbswitch_off s = Ret tt s' /\ reports_off (hw s')
    /\ dis_before_suspend_disabled (vars s')
       = dis_before_suspend_disabled (vars s).
Proof.
  intros Hoff Hnc H.
  destruct (is_card_disabled_found_on s H) as (s1 & E & L & K).
  assert (G : off_gate s = true).
  { unfold off_gate. rewrite E. cbn [value final Z.eqb negb andb].
    destruct (dis_dev (vars s1)) eqn:Ed; [ | destruct L; congruence].
    rewrite Hnc. reflexivity. }
  rewrite (off_gate_open s G), E. cbn [final].
  eexists. split; [reflexivity | ]. split.
  - apply Hoff.
  - cbn [with_vars vars evaluate log with_hw set_dis_dev
         dis_before_suspend_disabled].
    apply K.
Qed.

(** ** Suspend and resume *)

Lemma prepare_from_on (e : pm_event) (s : sys W) :
  found_on s -> is_prepare e = true ->
  exists s',
    bbswitch_pm_handler e s = Ret 0 s' /\ located s'
    /\ dis_before_suspend_disabled (vars s') = 0.
Proof.
  intros H He.
  destruct (dis_dev_get_found_on s H) as (s1 & E1 & L1 & K1).
  destruct (is_card_disabled_found_on s1 (located_found_on s1 L1))
    as (s2 & E2 & L2 & K2).
  set (s3 := with_vars (set_before_suspend 0) s2).
  assert (L3 : located s3) by exact L2.
  destruct (bbswitch_on_found_on s3 (located_found_on s3 L3))
    as (s4 & E4 & L4 & K4).
  destruct (dis_dev_put_found_on s4 (located_found_on s4 L4))
    as (s5 & E5 & L5 & K5).
  exists s5.
  assert (Hrun : (_ <- dis_dev_get ;;
                  st <- is_card_disabled ;;
                  _ <- lift (with_vars (set_before_suspend st)) ;;
                  _ <- bbswitch_on ;;
                  _ <- dis_dev_put ;;
                  ret 0)%drv s = Ret 0 s5).
  { unfold bind. rewrite E1, E2. unfold lift. fold s3. rewrite E4, E5.
    reflexivity. }
  split; [ | split; [exact L5 | ]].
  - destruct e; try discriminate He; exact Hrun.
  - destruct K5 as (_ & _ & _ & ->). destruct K4 as (_ & _ & _ & ->).
    reflexivity.
Qed.

Lemma prepare_from_off (e : pm_event) (s : sys W) :
  status_answers ->
  reports_off (hw s) -> dis_dev (vars s) <> None \/ reappears s ->
  is_prepare e = true ->
  exists s',
    bbswitch_pm_handler e s = Ret 0 s' /\ dis_dev (vars s') <> None
    /\ dis_before_suspend_disabled (vars s') = 1.
Proof.
  intros Ha Hoff Hre He.
  set (s1 := log (EvEvaluate PEGP "SGST") s).
  set (s2 := log (EvEvaluate PEGP "SGST") s1).
  set (s3 := with_vars (set_before_suspend 1) s2).
  destruct (bbswitch_on_from_off s3 Hoff Hre) as (s4 & E4 & H4 & D4).
  destruct (dis_dev_put_held s4 Ha H4) as (s5 & E5 & H5 & D5).
  exists s5.
  assert (Hrun : (_ <- dis_dev_get ;;
                  st <- is_card_disabled ;;
                  _ <- lift (with_vars (set_before_suspend st)) ;;
                  _ <- bbswitch_on ;;
                  _ <- dis_dev_put ;;
                  ret 0)%drv s = Ret 0 s5).
  { unfold bind. rewrite (dis_dev_get_off s Hoff). fold s1.
    rewrite (status_when_off s1 Hoff). fold s2. unfold lift. fold s3.
    rewrite E4, E5. reflexivity. }
  split; [ | split; [exact H5 | ]].
  - destruct e; try discriminate He; exact Hrun.
  - rewrite D5, D4. reflexivity.
Qed.

Lemma post_when_was_on (e : pm_event) (s : sys W) :
  dis_before_suspend_disabled (vars s) = 0 -> is_post e = true ->
  bbswitch_pm_handler e s = Ret 0 s.
Proof.
  intros Hd He.
  destruct e; try discriminate He; cbn [bbswitch_pm_handler];
    rewrite Hd; reflexivity.
Qed.

Lemma post_when_was_off (e : pm_event) (s : sys W) :
  status_answers -> off_takes_effect -> no_consumer ->
  dis_dev (vars s) <> None -> dis_before_suspend_disabled (vars s) = 1 ->
  is_post e = true ->
  exists s', bbswitch_pm_handler e s = Ret 0 s' /\ reports_off (hw s').
Proof.
  intros Ha Hoff Hnc Hheld Hd He.
  destruct (reports_cases s Ha) as [Hon | Hrep].
  - destruct (dis_dev_get_found_on s (located_found_on s (conj Hon Hheld)))
      as (s1 & E1 & L1 & K1).
    destruct (bbswitch_off_found_on s1 Hoff Hnc (located_found_on s1 L1))
      as (s2 & E2 & R2 & D2).
    exists (log (EvEvaluate PEGP "SGST") s2). split; [ | exact R2].
    destruct e; try discriminate He; cbn [bbswitch_pm_handler];
      rewrite Hd; cbn [Z.eqb negb]; unfold bind;
      rewrite E1, E2, (dis_dev_put_off s2 R2); reflexivity.
  - set (s1 := log (EvEvaluate PEGP "SGST") s).
    set (s2 := log (EvEvaluate PEGP "SGST") s1).
    exists (log (EvEvaluate PEGP "SGST") s2). split; [ | exact Hrep].
    destruct e; try discriminate He; cbn [bbswitch_pm_handler];
      rewrite Hd; cbn [Z.eqb negb]; unfold bind;
      rewrite (dis_dev_get_off s Hrep); fold s1;
      rewrite (bbswitch_off_off s1 Hrep); fold s2;
      rewrite (dis_dev_put_off s2 Hrep); reflexivity.
Qed.

(** C4, as amended.  From status on, a prepare event followed by its post
    event leaves the status on, on any machine.  From status off it leaves
    the status off when the status evaluation always returns an object, the
    firmware reports the card off once [_OFF] was evaluated, no driver is
    bound to the device, and the module still holds a device reference or
    the device is back on the bus within the five polls that follow the
    power-on. *)
Theorem suspend_resume_restores (s : sys W) (prepare post : pm_event) :
  is_prepare prepare = true -> is_post post = true ->
  (value (is_card_disabled s) = Some 0 ->
   status_after
     (bbswitch_pm_handler post (final (bbswitch_pm_handler prepare s)))
   = Some 0)
  /\ (value (is_card_disabled s) = Some 1 ->
      status_answers -> off_takes_effect -> no_consumer ->
      dis_dev (vars s) <> None \/ reappears s ->
      status_after
        (bbswitch_pm_handler post (final (bbswitch_pm_handler prepare s)))
      = Some 1).
Proof.
  intros Hp Hq. unfold status_after. split.
  - intros Hst.
    destruct (prepare_from_on prepare s (status_found_on s Hst) Hp)
      as (s1 & E1 & L1 & D1).
    rewrite E1. cbn [final]. rewrite (post_when_was_on post s1 D1 Hq).
    cbn [final].
    destruct (is_card_disabled_found_on s1 (located_found_on s1 L1))
      as (s2 & -> & _). reflexivity.
  - intros Hst Ha Hoff Hnc Hre.
    destruct (prepare_from_off prepare s Ha (status_reports_off s Hst)
                Hre Hp) as (s1 & E1 & H1 & D1).
    rewrite E1. cbn [final].
    destruct (post_when_was_off post s1 Ha Hoff Hnc H1 D1 Hq)
      as (s2 & E2 & R2).
    rewrite E2. cbn [final]. rewrite (status_when_off s2 R2). reflexivity.
Qed.

End Properties.

(** ** Runs on the reference machine *)

Lemma g14_takes_effect (latency : nat) (driver : option string) :
  @on_takes_effect machine (machine_platform latency driver)
  /\ @off_takes_effect machine (machine_platform latency driver)
  /\ @sleep_keeps_status machine (machine_platform latency driver).
Proof.
  repeat split.
  - intros [power wait reply]. destruct power.
    + exists 1. split; [reflexivity | lia].
    + exists 1. split; [reflexivity | lia].
  - intros w. exists 0. split; [reflexivity | lia].
Qed.

(** C2.  The bridge reference is not paired.  On the reference machine,
    writing [ON] while the card is off releases a reference that the write
    never took ([held] meets a put with nothing held), and writing [OFF]
    while the card is on returns with the reference it took still held. *)
Theorem bridge_reference_unpaired :
  held 0 (rev (new_events card_off
                 (final (@bbswitch_proc_write machine g14 ""
                           (Some "ON"%string) card_off)))) = None
  /\ held 0 (rev (new_events card_on
                    (final (@bbswitch_proc_write machine g14 ""
                              (Some "OFF"%string) card_on)))) = Some 1%nat
  /\ ~ @paired machine card_off Z
         (@bbswitch_proc_write machine g14 "" (Some "ON"%string) card_off)
  /\ ~ @paired machine card_on Z
         (@bbswitch_proc_write machine g14 "" (Some "OFF"%string) card_on).
Proof.
  repeat split; try (vm_compute; reflexivity);
    unfold paired; vm_compute; discriminate.
Qed.

(** C3.  The off-transition dereferences a NULL [dis_dev].  With the card
    reported on by the firmware but not on the bus, the status query answers
    -1, the test against 1 lets the transition through, and
    [dis_dev->driver] is read with [dis_dev] NULL; a write of [OFF] reaches
    this read through [dis_dev_get], whose polls find nothing.  The state
    is the one a write of [ON] leaves when the device is slow to come back:
    [ON] and then [OFF], from the card off, ends in the same fault. *)
Theorem off_transition_null_dereference :
  value (@is_card_disabled machine g14_slow card_powering_up) = Some (-1)
  /\ (exists s',
         @bbswitch_off machine g14_slow card_powering_up = Fault NullDeref s'
         /\ dis_dev (vars s') = None)
  /\ (exists s',
         @bbswitch_proc_write machine g14_slow "" (Some "OFF"%string)
           card_powering_up = Fault NullDeref s'
         /\ dis_dev (vars s') = None)
  /\ (exists s1 s',
         @bbswitch_proc_write machine g14_slow "" (Some "ON"%string) card_off
           = Ret 2 s1
         /\ @bbswitch_proc_write machine g14_slow "" (Some "OFF"%string) s1
            = Fault NullDeref s').
Proof.
  split; [vm_compute; reflexivity | ]. split; [ | split].
  - exists (final (@bbswitch_off machine g14_slow card_powering_up)).
    split; vm_compute; reflexivity.
  - exists (final (@bbswitch_proc_write machine g14_slow ""
                     (Some "OFF"%string) card_powering_up)).
    split; vm_compute; reflexivity.
  - exists (final (@bbswitch_proc_write machine g14_slow ""
                     (Some "ON"%string) card_off)).
    exists (final (@bbswitch_proc_write machine g14_slow ""
                     (Some "OFF"%string)
                     (final (@bbswitch_proc_write machine g14_slow ""
                               (Some "ON"%string) card_off)))).
    split; vm_compute; reflexivity.
Qed.

(** C4, counterexample.  The card is off.  On the first machine a driver
    binds to the device as soon as it is back on the bus: the prepare event
    powers the card on, the post event's off-transition is refused because of
    the bound driver, and the status afterwards is on, not off.  On the
    second machine the device is not back within the polls: the status
    afterwards is indeterminate, not off. *)
Lemma suspend_resume_counterexample :
  ~ @suspend_resume_symmetric machine g14_nvidia card_off
  /\ ~ @suspend_resume_symmetric machine g14_slow card_off.
Proof.
  split; intros H; specialize (H 1 PM_SUSPEND_PREPARE PM_POST_SUSPEND).
  - assert (Hst : value (@is_card_disabled machine g14_nvidia card_off)
                  = Some 1) by reflexivity.
    specialize (H Hst (or_intror eq_refl) eq_refl eq_refl).
    vm_compute in H. discriminate.
  - assert (Hst : value (@is_card_disabled machine g14_slow card_off)
                  = Some 1) by reflexivity.
    specialize (H Hst (or_intror eq_refl) eq_refl eq_refl).
    vm_compute in H. discriminate.
Qed.

(** C5, counterexample.  The firmware reports the card on and a look-up
    of the recorded ids finds nothing on the bus, yet the status query
    answers 0 (on), not -1: the module still holds the device it saw
    earlier, and the look-up that fails leaves that reference in place.  The
    machine and the variables are those an on-transition leaves from
    [card_off_stale]. *)
Lemma status_query_counterexample :
  (@sgst_value machine g14_slow (hw card_on_unlisted) = Some 1
   /\ @pci_get_device machine g14_slow (hw card_on_unlisted)
        (vendor (vars card_on_unlisted)) (device (vars card_on_unlisted))
      = None
   /\ value (@is_card_disabled machine g14_slow card_on_unlisted) = Some 0)
  /\ (hw (final (@bbswitch_on machine g14_slow card_off_stale))
      = hw card_on_unlisted
      /\ vars (final (@bbswitch_on machine g14_slow card_off_stale))
         = vars card_on_unlisted)
  /\ ~ @status_mapping machine g14_slow card_on_unlisted.
Proof.
  split; [repeat split; vm_compute; reflexivity | ].
  split; [split; vm_compute; reflexivity | ].
  intros H. destruct (H 1 eq_refl) as (_ & _ & H').
  assert (Hv : 0 < 1) by lia.
  specialize (H' Hv eq_refl). vm_compute in H'. discriminate H'.
Qed.

(** C9, counterexample.  On a firmware that acts on a power call only when
    asked a second time, one on-transition from the card off leaves the
    status off and a second one leaves it on; one off-transition from the
    card on leaves the status on and a second one leaves it off. *)
Lemma idempotence_counterexample :
  (status_after (P := sluggish) (@bbswitch_on machine sluggish card_off)
   = Some 1
   /\ status_after (P := sluggish)
        (@bbswitch_on machine sluggish
           (final (@bbswitch_on machine sluggish card_off))) = Some 0)
  /\ (status_after (P := sluggish) (@bbswitch_off machine sluggish card_on)
      = Some 0
      /\ status_after (P := sluggish)
           (@bbswitch_off machine sluggish
              (final (@bbswitch_off machine sluggish card_on))) = Some 1)
  /\ ~ @idempotent_at machine sluggish card_off
  /\ ~ @idempotent_at machine sluggish card_on.
Proof.
  split; [split; vm_compute; reflexivity | ].
  split; [split; vm_compute; reflexivity | ].
  split; intros [Hoff Hon].
  - vm_compute in Hon. discriminate Hon.
  - vm_compute in Hoff. discriminate Hoff.
Qed.

Lemma g14_slow_never_reappears (power : bool) (wait : nat)
    (d : option pci_dev) :
  (5 < wait)%nat \/ power = false ->
  @never_reappears machine g14_slow (boot power wait d no_reply).
Proof.
  intros Hw k Hk.
  assert (Hcases : k = 1%nat \/ k = 2%nat \/ k = 3%nat \/ k = 4%nat
                   \/ k = 5%nat) by lia.
  destruct power.
  - destruct Hw as [Hw | Hw]; [ | discriminate].
    do 6 (destruct wait as [ | wait]; [lia | ]).
    destruct Hcases as [-> | [-> | [-> | [-> | ->]]]]; reflexivity.
  - destruct Hcases as [-> | [-> | [-> | [-> | ->]]]]; reflexivity.
Qed.

(** C6, counterexample.  Entered while the card is already reported on but
    not on the bus, the on-transition returns after its status query without
    a single sleep.  Entered with the card off and a stale non-NULL
    reference, it evaluates [_ON], skips the loop, keeps the stale reference,
    and the status queried next is on.  In neither run does a bus scan find
    the device. *)
Lemma bounded_retry_counterexample :
  ~ @bounded_retry machine g14_slow card_powering_up
  /\ ~ @bounded_retry machine g14_slow card_off_stale.
Proof.
  split; intros H.
  - assert (Hw : (5 < 100)%nat \/ true = false) by (left; lia).
    specialize (H (g14_slow_never_reappears true 100 None Hw)).
    destruct H as (H & _). vm_compute in H. discriminate.
  - specialize (H (g14_slow_never_reappears false 0 (Some GPU)
                     (or_intror eq_refl))).
    destruct H as (_ & H & _). vm_compute in H. discriminate.
Qed.

(** C7, counterexample.  Asked for index 32 on a handle whose mask is 1,
    the probe reaches [1 << 32], which [int] does not define; it does not
    answer "bit 0 and bit 32 of the mask are set", that is 0. *)
Lemma capability_probe_counterexample :
  ~ @probe_correct machine g14
      (@handle_has_dsm_func machine g14 7 acpi_optimus_dsm_muid 256 32)
      7 acpi_optimus_dsm_muid 256 32 (card_with_mask 1).
Proof.
  intros [_ H].
  specialize (H 1 _ eq_refl). vm_compute in H. discriminate.
Qed.

(** ** The theorems at work on the reference machine *)

(** C1 at work: the card on, the nvidia driver bound, an off-transition. *)
Lemma off_refused_when_bound_witness :
  (dis_dev (vars (final (@is_card_disabled machine g14_nvidia card_on)))
     = Some GPU
   /\ @pdev_driver machine g14_nvidia (hw card_on) GPU
      = Some "nvidia"%string)
  /\ (existsb (is_evaluate PG00 "_OFF")
        (new_events card_on
           (final (@bbswitch_off machine g14_nvidia card_on))) = false
      /\ hw (final (@bbswitch_off machine g14_nvidia card_on)) = hw card_on
      /\ dis_dev (vars (final (@bbswitch_off machine g14_nvidia card_on)))
         = Some GPU
      /\ status_after (P := g14_nvidia) (@bbswitch_off machine g14_nvidia card_on)
         = value (@is_card_disabled machine g14_nvidia card_on)).
Proof.
  split; [split; reflexivity | ].
  apply (@off_refused_when_bound machine g14_nvidia card_on GPU
           "nvidia"%string); reflexivity.
Defined.

(** C5 at work: the card on and enumerated. *)
Lemma status_query_mapping_witness :
  @sgst_value machine g14 (hw card_on) = Some 1
  /\ value (@is_card_disabled machine g14 card_on) = Some 0
  /\ dis_dev (vars (final (@is_card_disabled machine g14 card_on)))
     = Some GPU.
Proof.
  split; [reflexivity | ].
  destruct (@status_query_mapping machine g14 card_on 1 eq_refl)
    as (_ & H & _).
  assert (Hv : 0 < 1) by lia.
  exact (H Hv GPU eq_refl).
Defined.

(** C7 at work: the mask 0x04000001 supports function 26. *)
Lemma capability_probe_witness :
  0 <= 26 < 32
  /\ value (@handle_has_dsm_func machine g14 7 acpi_optimus_dsm_muid 256 26
              (card_with_mask 67108865))
     = Some (mask_says 67108865 26).
Proof.
  split; [lia | ].
  destruct (@capability_probe machine g14 7 acpi_optimus_dsm_muid 256 26
              (card_with_mask 67108865)) as (_ & H & _).
  eapply H; [lia | reflexivity].
Defined.

(** C8 at work: the firmware has no [_DSM] (AE_NOT_FOUND). *)
Lemma acpi_call_dsm_failure_witness :
  ACPI_FAILURE AE_NOT_FOUND
  /\ exists err s1,
       @acpi_call_dsm machine g14 7 acpi_optimus_dsm_muid 256 26
         (Some [x01; x00; x00; x03]) (Some 0) card_on
       = Ret (err, Some 0) s1
       /\ err <> 0.
Proof.
  split; [vm_compute; discriminate | ].
  apply (@acpi_call_dsm_failure machine g14 7 acpi_optimus_dsm_muid 256 26
           (Some [x01; x00; x00; x03]) (Some 0) card_on).
  vm_compute. discriminate.
Defined.

(** C9 at work: two off-transitions from on, two on-transitions from
    off, on a firmware that honours the calls. *)
Lemma transitions_idempotent_witness :
  (@off_takes_effect machine g14 /\ @on_stays_reported machine g14)
  /\ status_after (P := g14) (@bbswitch_off machine g14
                     (final (@bbswitch_off machine g14 card_on)))
     = status_after (P := g14) (@bbswitch_off machine g14 card_on)
  /\ status_after (P := g14) (@bbswitch_on machine g14
                     (final (@bbswitch_on machine g14 card_off)))
     = status_after (P := g14) (@bbswitch_on machine g14 card_off).
Proof.
  destruct (g14_takes_effect 1 None) as (Hon & Hoff & Hk).
  assert (Hstays : @on_stays_reported machine g14)
    by exact (@on_stays_reported_intro machine g14 Hon Hk).
  split; [split; assumption | ].
  destruct (@transitions_idempotent machine g14 card_on) as [H1 _].
  destruct (@transitions_idempotent machine g14 card_off) as [_ H2].
  split; [exact (H1 (or_intror Hoff)) | exact (H2 (or_intror Hstays))].
Defined.

(** C4 at work: a suspend and resume with the card on, and with the card
    off. *)
Lemma suspend_resume_restores_witness :
  (@status_answers machine g14 /\ @off_takes_effect machine g14
   /\ @no_consumer machine g14 /\ @reappears machine g14 card_off)
  /\ status_after (P := g14)
       (@bbswitch_pm_handler machine g14 PM_POST_SUSPEND
          (final (@bbswitch_pm_handler machine g14 PM_SUSPEND_PREPARE
                    card_on)))
     = Some 0
  /\ status_after (P := g14)
       (@bbswitch_pm_handler machine g14 PM_POST_SUSPEND
          (final (@bbswitch_pm_handler machine g14 PM_SUSPEND_PREPARE
                    card_off)))
     = Some 1.
Proof.
  destruct (g14_takes_effect 1 None) as (_ & Hoff & _).
  assert (Ha : @status_answers machine g14) by (intros w; discriminate).
  assert (Hnc : @no_consumer machine g14) by (intros w p; reflexivity).
  assert (Hre : @reappears machine g14 card_off).
  { exists 1%nat. split; [lia | vm_compute; discriminate]. }
  split; [repeat split; assumption | ].
  destruct (@suspend_resume_restores machine g14 card_on PM_SUSPEND_PREPARE
              PM_POST_SUSPEND eq_refl eq_refl) as [Hfrom_on _].
  destruct (@suspend_resume_restores machine g14 card_off PM_SUSPEND_PREPARE
              PM_POST_SUSPEND eq_refl eq_refl) as [_ Hfrom_off].
  split.
  - apply Hfrom_on. reflexivity.
  - apply Hfrom_off; [reflexivity | exact Ha | exact Hoff | exact Hnc | ].
    right. exact Hre.
Defined.

(** C6 at work: a power-on after which the device stays away. *)
Lemma on_transition_bounded_retry_witness :
  (@sgst_value machine g14_slow (hw card_off) = Some 0 /\ 0 <= 0
   /\ dis_dev (vars card_off) = None
   /\ @never_reappears machine g14_slow card_off)
  /\ exists s',
       @bbswitch_on machine g14_slow card_off = Ret tt s'
       /\ new_events card_off s'
          = attempts 5 card_off
            ++ [EvEvaluate PG00 "_ON"; EvEvaluate PEGP "SGST"]
       /\ dis_dev (vars s') = None
       /\ value (@is_card_disabled machine g14_slow s') <> Some 0
       /\ (@reports_on machine g14_slow (hw s') ->
           value (@is_card_disabled machine g14_slow s') = Some (-1)).
Proof.
  assert (Hnever : @never_reappears machine g14_slow card_off).
  { apply g14_slow_never_reappears. right. reflexivity. }
  split; [repeat split; try reflexivity; try lia; exact Hnever | ].
  apply (@on_transition_bounded_retry machine g14_slow card_off 0);
    [reflexivity | lia | reflexivity | exact Hnever].
Defined.

(** ** [buffer_to_string] *)

Lemma u8_range (b : byte) : 0 <= u8 b < 256.
Proof.
  unfold u8. pose proof (Byte.to_N_bounded b) as H.
  split; [apply N2Z.is_nonneg | ].
  change 256 with (Z.of_N 256). apply N2Z.inj_lt. lia.
Qed.

Lemma u8_land_255 (b : byte) : Z.land (u8 b) 255 = u8 b.
Proof.
  change 255 with (Z.ones 8). rewrite Z.land_ones by lia.
  apply Z.mod_small. apply u8_range.
Qed.

Lemma overwrite_length (mem : list ascii) (off : nat) (cs mem' : list ascii) :
  overwrite mem off cs = Some mem' -> List.length mem' = List.length mem.
Proof.
  unfold overwrite.
  destruct (off + List.length cs <=? List.length mem)%nat eqn:E; [ | discriminate].
  apply Nat.leb_le in E. intros [= <-].
  rewrite !List.length_app, List.length_firstn, List.length_skipn. lia.
Qed.

Lemma snprintf_length (mem : list ascii) (off size : nat)
    (text mem' : list ascii) :
  snprintf mem off size text = Some mem' ->
  List.length mem' = List.length mem.
Proof.
  destruct size as [ | room]; cbn [snprintf].
  - intros [= <-]. reflexivity.
  - apply overwrite_length.
Qed.

Lemma nth_error_head_skipn {A} (i : nat) (l : list A) (b : A) (r : list A) :
  skipn i l = b :: r -> nth_error l i = Some b /\ skipn (S i) l = r.
Proof.
  revert l. induction i as [ | i IH]; intros l H.
  - cbn in H. subst l. split; reflexivity.
  - destruct l as [ | a l]; [discriminate | ]. cbn [skipn] in H.
    destruct (IH l H) as [H1 H2]. split; [exact H1 | exact H2].
Qed.

Lemma skipn_length_le {A} (i : nat) (l r : list A) :
  skipn i l = r -> r <> [] -> (i + List.length r = List.length l)%nat.
Proof.
  intros H Hne.
  assert (Hlen : List.length r = (List.length l - i)%nat).
  { rewrite <- H. apply List.length_skipn. }
  destruct r as [ | a r]; [congruence | ]. cbn [List.length] in *. lia.
Qed.

Lemma format_byte_length (v : Z) : List.length (format_byte v) = 5%nat.
Proof. reflexivity. Qed.

Lemma buffer_to_string_from_spec (bytes : list byte) :
  forall (rest : list byte) (i : nat) (mem : list ascii),
    skipn i bytes = rest ->
    rest <> [] ->
    (5 * List.length bytes <= List.length mem)%nat ->
    buffer_to_string_from (List.length rest) i (List.length bytes)
      (Some bytes) mem
    = Some (firstn (5 * i) mem ++ hex_list rest
            ++ NUL :: skipn (5 * List.length bytes) mem).
Proof.
  induction rest as [ | b r IH]; intros i mem Hskip Hne Hfit; [congruence | ].
  pose proof (skipn_length_le i bytes (b :: r) Hskip Hne) as Hlen.
  destruct (nth_error_head_skipn i bytes b r Hskip) as [Hnth Hnext].
  cbn [List.length] in Hlen.
  cbn [List.length buffer_to_string_from]. rewrite Hnth. cbn [option_map].
  rewrite u8_land_255.
  replace (List.length bytes - i)%nat with (S (List.length r)) by lia.
  destruct r as [ | b' r'].
  - (* the last byte: room for four characters and the NUL *)
    cbn [List.length] in *. change (5 * 1)%nat with 5%nat.
    cbn [snprintf buffer_to_string_from].
    change (firstn 4 (format_byte (u8 b)))
      with (["0"%char; "x"%char] ++ hex2 (u8 b)).
    unfold overwrite. rewrite List.length_app.
    change (List.length (["0"%char; "x"%char] ++ hex2 (u8 b))) with 4%nat.
    cbn [List.length Nat.add].
    destruct (i * 5 + 5 <=? List.length mem)%nat eqn:E;
      [ | apply Nat.leb_gt in E; lia].
    replace (i * 5)%nat with (5 * i)%nat by lia.
    replace (5 * i + 5)%nat with (5 * List.length bytes)%nat by lia.
    cbn [hex_list]. rewrite <- app_assoc. reflexivity.
  - (* not the last byte: the five characters and a NUL fit *)
    set (r := b' :: r') in *.
    assert (Hr : (2 <= S (List.length r))%nat) by (unfold r; cbn; lia).
    assert (Hsn : snprintf mem (i * 5) (5 * S (List.length r))
                    (format_byte (u8 b))
                  = Some (firstn (5 * i) mem ++ format_byte (u8 b)
                          ++ NUL :: skipn (5 * i + 6) mem)).
    { replace (5 * S (List.length r))%nat
        with (S (5 + (5 * List.length r - 1)))%nat by lia.
      cbn [snprintf].
      rewrite firstn_all2 by (rewrite format_byte_length; lia).
      unfold overwrite. rewrite List.length_app, format_byte_length.
      cbn [List.length Nat.add].
      destruct (i * 5 + 6 <=? List.length mem)%nat eqn:E;
        [ | apply Nat.leb_gt in E; lia].
      replace (i * 5)%nat with (5 * i)%nat by lia.
      rewrite <- app_assoc. reflexivity. }
    rewrite Hsn.
    set (mem' := firstn (5 * i) mem ++ format_byte (u8 b)
                 ++ NUL :: skipn (5 * i + 6) mem).
    assert (Hlen' : List.length mem' = List.length mem).
    { apply (snprintf_length _ _ _ _ _ Hsn). }
    rewrite (IH (S i) mem' Hnext) by (unfold r; try discriminate; lia).
    f_equal.
    assert (Hfront : firstn (5 * S i) mem'
                     = firstn (5 * i) mem ++ format_byte (u8 b)).
    { unfold mem'. rewrite app_assoc.
      rewrite firstn_app.
      rewrite List.length_app, List.length_firstn, format_byte_length.
      replace (Nat.min (5 * i) (List.length mem)) with (5 * i)%nat by lia.
      replace (5 * S i - (5 * i + 5))%nat with 0%nat by lia.
      cbn [firstn]. rewrite app_nil_r.
      apply firstn_all2.
      rewrite List.length_app, List.length_firstn, format_byte_length. lia. }
    assert (Hback : skipn (5 * List.length bytes) mem'
                    = skipn (5 * List.length bytes) mem).
    { unfold mem'. rewrite app_assoc.
      change (NUL :: skipn (5 * i + 6) mem)
        with ([NUL] ++ skipn (5 * i + 6) mem).
      rewrite app_assoc.
      rewrite skipn_app.
      rewrite !List.length_app, List.length_firstn, format_byte_length.
      cbn [List.length].
      replace (Nat.min (5 * i) (List.length mem)) with (5 * i)%nat by lia.
      rewrite (skipn_all2 (n := 5 * List.length bytes)); cycle 1.
      { rewrite !List.length_app, List.length_firstn, format_byte_length.
        cbn [List.length]. lia. }
      cbn [app]. rewrite skipn_skipn. f_equal. lia. }
    rewrite Hfront, Hback.
    change (hex_list (b :: r)) with (format_byte (u8 b) ++ hex_list r).
    rewrite <- !app_assoc. reflexivity.
Qed.

Lemma hex2_no_nul (b : byte) :
  forallb (fun c => negb (Ascii.eqb c NUL)) (hex2 (u8 b)) = true.
Proof. destruct b; reflexivity. Qed.

Lemma hex_list_no_nul (bytes : list byte) :
  forallb (fun c => negb (Ascii.eqb c NUL)) (hex_list bytes) = true.
Proof.
  induction bytes as [ | b r IH]; [reflexivity | ].
  destruct r as [ | b' r'].
  - cbn [hex_list]. rewrite forallb_app, hex2_no_nul. reflexivity.
  - change (hex_list (b :: b' :: r'))
      with (format_byte (u8 b) ++ hex_list (b' :: r')).
    unfold format_byte. rewrite !forallb_app, hex2_no_nul, IH. reflexivity.
Qed.

Lemma c_string_app_nul (l r : list ascii) :
  forallb (fun c => negb (Ascii.eqb c NUL)) l = true ->
  c_string (l ++ NUL :: r) = l.
Proof.
  induction l as [ | c l IH]; cbn [app c_string forallb].
  - intros _. rewrite Ascii.eqb_refl. reflexivity.
  - intros H. apply andb_prop in H. destruct H as [Hc Hl].
    destruct (Ascii.eqb c NUL); [discriminate | ].
    rewrite (IH Hl). reflexivity.
Qed.

Lemma hex_list_length (bytes : list byte) :
  bytes <> [] -> (List.length (hex_list bytes) + 1 = 5 * List.length bytes)%nat.
Proof.
  induction bytes as [ | b r IH]; [congruence | intros _].
  destruct r as [ | b' r']; [reflexivity | ].
  change (hex_list (b :: b' :: r'))
    with (format_byte (u8 b) ++ hex_list (b' :: r')).
  rewrite List.length_app, format_byte_length.
  assert (Hne : b' :: r' <> []) by discriminate.
  specialize (IH Hne). cbn [List.length] in *. lia.
Qed.

(** X1.  Given a block of [n >= 1] bytes and a target of at least [5 n]
    characters, [buffer_to_string] returns the target holding the bytes as
    ["0xF8,0xD8,...,0xE0"] (upper-case, two digits each, commas between and
    none at the end), then a NUL, and leaves every character from index
    [5 n] on as it was. *)
Theorem buffer_to_string_renders (bytes : list byte) (target : list ascii) :
  bytes <> [] ->
  (5 * List.length bytes <= List.length target)%nat ->
  exists out,
    buffer_to_string (Some bytes) (List.length bytes) target = Some out
    /\ out = hex_list bytes ++ NUL :: skipn (5 * List.length bytes) target
    /\ c_string out = hex_list bytes
    /\ List.length (c_string out) = (5 * List.length bytes - 1)%nat
    /\ List.length out = List.length target.
Proof.
  intros Hne Hfit. unfold buffer_to_string.
  pose proof (buffer_to_string_from_spec bytes bytes 0 target eq_refl Hne Hfit)
    as H.
  change (5 * 0)%nat with 0%nat in H. cbn [firstn app] in H.
  eexists. split; [exact H | ]. split; [reflexivity | ].
  pose proof (hex_list_length bytes Hne) as Hl.
  rewrite (c_string_app_nul _ _ (hex_list_no_nul bytes)).
  split; [reflexivity | ]. split; [lia | ].
  rewrite List.length_app. cbn [List.length]. rewrite List.length_skipn. lia.
Qed.

Lemma buffer_to_string_from_short (buffer : option (list byte)) (n : nat) :
  forall (left i : nat) (mem : list ascii),
    (i + left = n)%nat -> (1 <= left)%nat ->
    (List.length mem < 5 * n)%nat ->
    buffer_to_string_from left i n buffer mem = None.
Proof.
  induction left as [ | left IH]; intros i mem Hn Hl Hshort; [lia | ].
  cbn [buffer_to_string_from].
  destruct (match buffer with
            | Some b => option_map (fun c => Z.land (u8 c) 255) (nth_error b i)
            | None => Some 0
            end) as [v | ]; [ | reflexivity].
  destruct (snprintf mem (i * 5) (5 * (n - i)) (format_byte v))
    as [mem' | ] eqn:Hsn; [ | reflexivity].
  pose proof (snprintf_length _ _ _ _ _ Hsn) as Hlen.
  destruct left as [ | left'].
  - exfalso. replace (5 * (n - i))%nat with 5%nat in Hsn by lia.
    cbn [snprintf] in Hsn. unfold overwrite in Hsn.
    rewrite List.length_app in Hsn.
    change (List.length (firstn 4 (format_byte v))) with 4%nat in Hsn.
    cbn [List.length Nat.add] in Hsn.
    destruct (i * 5 + 5 <=? List.length mem)%nat eqn:E; [ | discriminate].
    apply Nat.leb_le in E. lia.
  - apply IH; lia.
Qed.

(** X2.  With a target of fewer than [5 n] characters, [n >= 1],
    [buffer_to_string] has no defined result, whatever the bytes: a write
    lands outside the target, unless a read past the end of the block comes
    first. *)
Theorem buffer_to_string_overflows (buffer : option (list byte)) (n : nat)
    (target : list ascii) :
  (1 <= n)%nat -> (List.length target < 5 * n)%nat ->
  buffer_to_string buffer n target = None.
Proof.
  intros Hn Hshort. unfold buffer_to_string.
  apply buffer_to_string_from_short; lia.
Qed.

Lemma buffer_to_string_from_null (n : nat) :
  forall (left i : nat) (mem : list ascii),
    (i + left = n)%nat ->
    buffer_to_string_from left i n None mem
    = buffer_to_string_from left i n (Some (repeat x00 n)) mem.
Proof.
  induction left as [ | left IH]; intros i mem Hn; [reflexivity | ].
  cbn [buffer_to_string_from].
  assert (Hnth : nth_error (repeat x00 n) i = Some x00).
  { apply nth_error_repeat. lia. }
  rewrite Hnth. cbn [option_map].
  change (Z.land (u8 x00) 255) with 0.
  destruct (snprintf mem (i * 5) (5 * (n - i)) (format_byte 0));
    [ | reflexivity].
  apply IH. lia.
Qed.

(** X3.  A NULL block is shown as [n] zero bytes. *)
Theorem buffer_to_string_null (n : nat) (target : list ascii) :
  buffer_to_string None n target
  = buffer_to_string (Some (repeat x00 n)) n target.
Proof. unfold buffer_to_string. apply buffer_to_string_from_null. lia. Qed.

(** ** Results of the firmware method invoker *)

Lemma lor_shiftl_add (a x k : Z) :
  0 <= a < 2 ^ k -> 0 <= k -> Z.lor a (Z.shiftl x k) = a + x * 2 ^ k.
Proof.
  intros Ha Hk. rewrite Z.shiftl_mul_pow2 by lia.
  assert (Hland : Z.land a (x * 2 ^ k) = 0).
  { apply Z.bits_inj'. intros n Hn. rewrite Z.land_spec, Z.bits_0.
    destruct (Z_lt_le_dec n k) as [Hlt | Hge].
    - rewrite Z.mul_pow2_bits_low by lia. apply andb_false_r.
    - rewrite <- (Z.mod_small a (2 ^ k)) by lia.
      rewrite Z.mod_pow2_bits_high by lia. reflexivity. }
  rewrite <- Z.lxor_lor by exact Hland.
  symmetry. apply Z.add_nocarry_lxor. exact Hland.
Qed.

Lemma u32_small (z : Z) : 0 <= z < 2 ^ 32 -> u32 z = z.
Proof. intros H. unfold u32. apply Z.mod_small. exact H. Qed.

Lemma or_assign_shifted (r x k : Z) :
  0 <= r < 2 ^ k -> 0 <= x < 256 -> 0 <= k <= 24 ->
  or_assign r (s32 (Z.shiftl x k)) = r + x * 2 ^ k.
Proof.
  intros Hr Hx Hk. unfold or_assign. rewrite u32_s32.
  assert (Hp : 2 ^ k <= 2 ^ 24) by (apply Z.pow_le_mono_r; lia).
  assert (Hs : 0 <= x * 2 ^ k < 2 ^ 32).
  { change (2 ^ 32) with (256 * 2 ^ 24). change (2 ^ 24) with 16777216 in *.
    nia. }
  rewrite (u32_small (Z.shiftl x k))
    by (rewrite Z.shiftl_mul_pow2 by lia; exact Hs).
  rewrite lor_shiftl_add by lia.
  apply u32_small.
  change (2 ^ 32) with (256 * 2 ^ 24). change (2 ^ 24) with 16777216 in *.
  nia.
Qed.

Lemma buffer_result_little_endian (b0 b1 b2 b3 : byte) :
  buffer_result [b0; b1; b2; b3]
  = u8 b0 + u8 b1 * 2 ^ 8 + u8 b2 * 2 ^ 16 + u8 b3 * 2 ^ 24.
Proof.
  pose proof (u8_range b0) as H0. pose proof (u8_range b1) as H1.
  pose proof (u8_range b2) as H2. pose proof (u8_range b3) as H3.
  unfold buffer_result. cbn [nth].
  assert (E0 : or_assign 0 (u8 b0) = u8 b0).
  { unfold or_assign. rewrite (u32_small (u8 b0)) by lia.
    rewrite Z.lor_0_l. apply u32_small. lia. }
  rewrite E0.
  rewrite (or_assign_shifted (u8 b0) (u8 b1) 8) by lia.
  rewrite (or_assign_shifted _ (u8 b2) 16)
    by (change (2 ^ 8) with 256; change (2 ^ 16) with 65536; lia).
  rewrite (or_assign_shifted _ (u8 b3) 24)
    by (change (2 ^ 8) with 256; change (2 ^ 16) with 65536;
        change (2 ^ 24) with 16777216; lia).
  reflexivity.
Qed.

Lemma u8_byte_of (z : Z) : u8 (byte_of z) = z mod 256.
Proof.
  unfold byte_of, u8.
  assert (Hr : 0 <= z mod 256 < 256) by (apply Z.mod_pos_bound; lia).
  destruct (Byte.of_N (Z.to_N (z mod 256))) as [b | ] eqn:E.
  - apply Byte.to_of_N in E. rewrite E. apply Z2N.id. lia.
  - apply Byte.of_N_None_iff in E. lia.
Qed.

Lemma le_bytes_value (m : Z) :
  0 <= m < 2 ^ 32 -> buffer_result (le_bytes m) = m.
Proof.
  intros Hm. unfold le_bytes. rewrite buffer_result_little_endian.
  rewrite !u8_byte_of.
  change (2 ^ 8) with 256. change (2 ^ 16) with (256 * 256).
  change (2 ^ 24) with (256 * 256 * 256). change (2 ^ 32) with 4294967296 in Hm.
  rewrite <- !Z.div_div by lia.
  pose proof (Z.div_mod m 256 ltac:(lia)) as E0.
  pose proof (Z.div_mod (m / 256) 256 ltac:(lia)) as E1.
  pose proof (Z.div_mod (m / 256 / 256) 256 ltac:(lia)) as E2.
  assert (H3 : 0 <= m / 256 / 256 / 256 < 256).
  { split.
    - repeat (apply Z.div_pos; [ | lia]). lia.
    - repeat (apply Z.div_lt_upper_bound; [lia | ]). lia. }
  rewrite (Z.mod_small (m / 256 / 256 / 256) 256) by exact H3.
  lia.
Qed.

Section Invoker.

Context {W : Type} {P : Platform W}.

(** X4.  When the evaluation succeeds and returns a buffer of four bytes,
    [acpi_call_dsm] returns 0 and stores in a non-NULL slot the 32-bit value
    those bytes spell, least significant byte first: the four bytes of [m]
    give back [m]. *)
Theorem acpi_call_dsm_buffer (handle : acpi_handle) (muid : list byte)
    (revid func : Z) (args : option (list byte)) (old m : Z) (s : sys W) :
  0 <= m < 2 ^ 32 ->
  snd (evaluate_dsm (hw s) handle muid revid func (arg_block (hw s) args))
    = (AE_OK, Some (ACPI_TYPE_BUFFER (le_bytes m))) ->
  value (acpi_call_dsm handle muid revid func args (Some old) s)
    = Some (0, Some m).
Proof.
  intros Hm Hreply. rewrite acpi_call_dsm_unfold. cbv zeta.
  rewrite Hreply. cbn [fst snd]. change (s32 AE_OK =? 0) with true.
  cbn [negb]. change (Z.of_nat (List.length (le_bytes m)) =? 4) with true.
  cbn [value]. rewrite (le_bytes_value m Hm). reflexivity.
Qed.

(** X5.  A successful evaluation whose object is neither an integer nor a
    buffer of four bytes is no failure: [acpi_call_dsm] returns 0 and the
    slot keeps what the caller put there.  With a NULL slot nothing is
    stored for any object. *)
Theorem acpi_call_dsm_unusable_result (handle : acpi_handle)
    (muid : list byte) (revid func : Z) (args : option (list byte))
    (result : option Z) (obj : acpi_object) (s : sys W) :
  snd (evaluate_dsm (hw s) handle muid revid func (arg_block (hw s) args))
    = (AE_OK, Some obj) ->
  result = None
  \/ (exists type, obj = ACPI_TYPE_OTHER type)
  \/ (exists pointer, obj = ACPI_TYPE_BUFFER pointer
                      /\ List.length pointer <> 4%nat) ->
  value (acpi_call_dsm handle muid revid func args result s)
    = Some (0, result).
Proof.
  intros Hreply Hcase. rewrite acpi_call_dsm_unfold. cbv zeta.
  rewrite Hreply. cbn [fst snd]. change (s32 AE_OK =? 0) with true.
  cbn [negb].
  destruct Hcase as [-> | [(type & ->) | (pointer & -> & Hlen)]].
  - destruct obj; reflexivity.
  - reflexivity.
  - destruct result as [r | ]; [ | reflexivity].
    destruct (Z.of_nat (List.length pointer) =? 4) eqn:E; [ | reflexivity].
    apply Z.eqb_eq in E. lia.
Qed.

(** X6.  A mask whose bit 0 is clear supports no function: the probe
    answers 0 for every index, also one that [1 << index] is not defined
    for, since the shift is then not evaluated. *)
Theorem capability_probe_invalid_mask (handle : acpi_handle)
    (muid : list byte) (revid index m : Z) (s s1 : sys W) :
  acpi_call_dsm handle muid revid 0 None (Some 0) s = Ret (0, Some m) s1 ->
  Z.testbit m 0 = false ->
  handle_has_dsm_func handle muid revid index s = Ret 0 s1.
Proof.
  intros Hcall Hbit. unfold handle_has_dsm_func, bind. rewrite Hcall.
  cbn [fst snd Z.eqb negb]. unfold dsm_mask_test.
  change 1 with (2 ^ 0) at 1. rewrite land_pow2_eqb by lia.
  rewrite Hbit. reflexivity.
Qed.

(** X7.  [bbswitch_optimus_dsm] evaluates nothing and returns 0 unless
    [dsm_type] is Optimus.  When it is, it makes one [_DSM] call, function
    0x1A at revision 0x100 with the arguments 1, 0, 0, 3 on [dis_handle],
    and returns 1 if the evaluation fails. *)
Theorem bbswitch_optimus_dsm_calls (s : sys W) :
  (dsm_type (vars s) <> DSM_TYPE_OPTIMUS -> bbswitch_optimus_dsm s = Ret 0 s)
  /\ (dsm_type (vars s) = DSM_TYPE_OPTIMUS ->
      new_events s (final (bbswitch_optimus_dsm s))
        = [EvDsm (dis_handle (vars s)) acpi_optimus_dsm_muid 256 26
                 [x01; x00; x00; x03]]
      /\ vars (final (bbswitch_optimus_dsm s)) = vars s
      /\ (ACPI_FAILURE
            (fst (snd (evaluate_dsm (hw s) (dis_handle (vars s))
                         acpi_optimus_dsm_muid 256 26
                         [x01; x00; x00; x03]))) ->
          value (bbswitch_optimus_dsm s) = Some 1)).
Proof.
  split.
  - intros Hne. unfold bbswitch_optimus_dsm.
    destruct (dsm_type (vars s) =? DSM_TYPE_OPTIMUS) eqn:E; [ | reflexivity].
    apply Z.eqb_eq in E. contradiction.
  - intros He. unfold bbswitch_optimus_dsm. rewrite He.
    change (DSM_TYPE_OPTIMUS =? DSM_TYPE_OPTIMUS) with true. cbv iota.
    unfold bind. rewrite acpi_call_dsm_unfold. cbv zeta.
    cbn [arg_block].
    set (reply := evaluate_dsm _ _ _ _ _ _).
    set (s1 := log _ (with_hw (fst reply) s)).
    assert (Ht : trace s1 = [EvDsm (dis_handle (vars s))
                               acpi_optimus_dsm_muid 256 26
                               [x01; x00; x00; x03]] ++ trace s)
      by reflexivity.
    assert (Hfinal : final
              (match
                 (if negb (s32 (fst (snd reply)) =? 0)
                  then Ret (s32 (fst (snd reply)), Some 0) s1
                  else
                    match snd (snd reply) with
                    | Some (ACPI_TYPE_INTEGER v) => Ret (0, Some (u32 v)) s1
                    | Some (ACPI_TYPE_BUFFER pointer) =>
                        Ret
                          (0,
                           if Z.of_nat (List.length pointer) =? 4
                           then Some (buffer_result pointer)
                           else Some 0) s1
                    | Some (ACPI_TYPE_OTHER _) => Ret (0, Some 0) s1
                    | None => Fault NullDeref s1
                    end)
               with
               | Ret a s' =>
                   (if negb (fst a =? 0) then ret 1 else ret 0) s'
               | Fault f s' => Fault f s'
               end) = s1).
    { destruct (negb (s32 (fst (snd reply)) =? 0)) eqn:En.
      - cbn [fst]. rewrite En. reflexivity.
      - destruct (snd (snd reply)) as [[v | pointer | type] | ];
          reflexivity. }
    rewrite Hfinal. split; [apply (new_events_app _ _ _ Ht) | ].
    split; [reflexivity | ].
    unfold ACPI_FAILURE. intros Hfail.
    assert (Hne : s32 (fst (snd reply)) <> 0).
    { intros H0. apply Hfail. apply s32_zero_iff. exact H0. }
    destruct (s32 (fst (snd reply)) =? 0) eqn:E;
      [apply Z.eqb_eq in E; contradiction | ].
    cbn [negb fst]. rewrite E. reflexivity.
Qed.

End Invoker.

(** ** What the entry points keep *)

Section Kept.

Context {W : Type} {P : Platform W}.

Variable R : sys W -> sys W -> Prop.
Hypothesis R_refl : forall s, R s s.
Hypothesis R_trans : forall s1 s2 s3, R s1 s2 -> R s2 s3 -> R s1 s3.

Lemma preserves_ret {A} (a : A) : preserves R (ret a).
Proof. intros s. apply R_refl. Qed.

Lemma preserves_bind {A B} (m : M W A) (k : A -> M W B) :
  preserves R m -> (forall a, preserves R (k a)) -> preserves R (bind m k).
Proof.
  intros Hm Hk s. unfold bind. specialize (Hm s).
  destruct (m s) as [a s1 | f s1]; cbn [final] in *.
  - apply (R_trans _ s1); [exact Hm | apply Hk].
  - exact Hm.
Qed.

Lemma preserves_lift (f : sys W -> sys W) :
  (forall s, R s (f s)) -> preserves R (lift f).
Proof. intros H s. apply H. Qed.

Hypothesis R_log : forall e s, R s (log e s).
Hypothesis R_hw : forall w s, R s (with_hw w s).
Hypothesis R_found :
  forall pdev s, R s (with_vars (set_dis_dev (Some pdev)) s).

Lemma R_get_dis_dev (s : sys W) : R s (get_dis_dev s).
Proof.
  unfold get_dis_dev. destruct (pci_get_device _ _ _) as [pdev | ].
  - apply (R_trans _ (log (EvPciGet (vendor (vars s)) (device (vars s))) s));
      [apply R_log | apply R_found].
  - apply R_log.
Qed.

Lemma R_do_msleep (ms : Z) (s : sys W) : R s (do_msleep ms s).
Proof.
  unfold do_msleep. apply (R_trans _ (with_hw (msleep (hw s) ms) s));
    [apply R_hw | apply R_log].
Qed.

Lemma R_evaluate (pathname method : string) (s : sys W) :
  R s (evaluate pathname method s).
Proof.
  unfold evaluate.
  apply (R_trans _ (with_hw (acpi_evaluate (hw s) pathname method) s));
    [apply R_hw | apply R_log].
Qed.

Lemma preserves_is_card_disabled : preserves R is_card_disabled.
Proof.
  intros s. unfold is_card_disabled.
  destruct (sgst_value (hw s)) as [v | ]; [ | apply R_log].
  destruct (v >? 0); cbn [Z.eqb]; [ | apply R_log].
  assert (H : R s (get_dis_dev (log (EvEvaluate PEGP "SGST") s))).
  { apply (R_trans _ (log (EvEvaluate PEGP "SGST") s));
      [apply R_log | apply R_get_dis_dev]. }
  destruct (dis_dev _); exact H.
Qed.

Lemma R_bbswitch_on_poll (left : nat) (i : Z) (s : sys W) :
  R s (bbswitch_on_poll left i s).
Proof.
  revert i s. induction left as [ | left IH]; intros i s;
    cbn [bbswitch_on_poll]; destruct (dis_dev (vars s)); try apply R_refl.
  assert (H : R s (get_dis_dev (do_msleep 500 s))).
  { apply (R_trans _ (do_msleep 500 s));
      [apply R_do_msleep | apply R_get_dis_dev]. }
  destruct (i + 1 >? 4); [exact H | ].
  apply (R_trans _ _ _ H). apply IH.
Qed.

Lemma R_dis_dev_get_poll (left : nat) (i : Z) (s : sys W) :
  R s (snd (dis_dev_get_poll left i s)).
Proof.
  revert i s. induction left as [ | left IH]; intros i s;
    cbn [dis_dev_get_poll]; destruct (dis_dev (vars s)); try apply R_refl.
  assert (H : R s (get_dis_dev (do_msleep 500 s))).
  { apply (R_trans _ (do_msleep 500 s));
      [apply R_do_msleep | apply R_get_dis_dev]. }
  destruct (i + 1 >? 4).
  - destruct (dis_dev _); exact H.
  - apply (R_trans _ _ _ H). apply IH.
Qed.

Lemma preserves_deref_dis_dev : preserves R deref_dis_dev.
Proof.
  intros s. unfold deref_dis_dev. destruct (dis_dev (vars s)); apply R_refl.
Qed.

Lemma preserves_bridge_call (call : pci_dev -> event) (p : pci_dev) :
  preserves R (fun s => match pdev_bridge (hw s) p with
                        | Some bridge => lift (log (call bridge)) s
                        | None => Ret tt s
                        end).
Proof.
  intros s. destruct (pdev_bridge (hw s) p); [apply R_log | apply R_refl].
Qed.

Lemma preserves_dis_dev_get : preserves R dis_dev_get.
Proof.
  unfold dis_dev_get. apply preserves_bind; [apply preserves_is_card_disabled | ].
  intros st. destruct (st <? 1); [ | apply preserves_ret].
  intros s. pose proof (R_dis_dev_get_poll 5 0 s) as Hp.
  destruct (dis_dev_get_poll 5 0 s) as [go s1]. cbn [snd] in Hp.
  destruct go; [ | exact Hp].
  apply (R_trans _ _ _ Hp).
  apply (preserves_bind deref_dis_dev); [apply preserves_deref_dis_dev | ].
  intros p. apply (preserves_bridge_call EvPmGet).
Qed.

Lemma preserves_dis_dev_put : preserves R dis_dev_put.
Proof.
  unfold dis_dev_put. apply preserves_bind; [apply preserves_is_card_disabled | ].
  intros st. destruct (st =? 0); [ | apply preserves_ret].
  apply preserves_bind; [apply preserves_deref_dis_dev | ].
  intros p. apply (preserves_bridge_call EvPmPut).
Qed.

Lemma preserves_bbswitch_on : preserves R bbswitch_on.
Proof.
  unfold bbswitch_on. apply preserves_bind; [apply preserves_is_card_disabled | ].
  intros st. destruct (st <? 1); [apply preserves_ret | ].
  apply preserves_bind.
  - intros s. apply R_evaluate.
  - intros _. apply preserves_lift. apply R_bbswitch_on_poll.
Qed.

Lemma preserves_bbswitch_proc_show : preserves R bbswitch_proc_show.
Proof.
  unfold bbswitch_proc_show.
  apply preserves_bind; [apply preserves_dis_dev_get | intros _].
  apply preserves_bind; [apply preserves_is_card_disabled | intros st].
  intros s.
  apply (preserves_bind dis_dev_put); [apply preserves_dis_dev_put | ].
  intros _. apply preserves_ret.
Qed.

Hypothesis R_lost : forall s, R s (with_vars (set_dis_dev None) s).

Lemma preserves_bbswitch_off : preserves R bbswitch_off.
Proof.
  unfold bbswitch_off. apply preserves_bind; [apply preserves_is_card_disabled | ].
  intros st. destruct (st =? 1); [apply preserves_ret | ].
  apply preserves_bind; [apply preserves_deref_dis_dev | ].
  intros p s. destruct (pdev_driver (hw s) p); [apply R_refl | ].
  apply (preserves_bind bbswitch_acpi_off).
  - intros s0. apply R_evaluate.
  - intros _. apply preserves_lift. apply R_lost.
Qed.

Lemma preserves_bbswitch_proc_write (stack : string) (buff : option string) :
  preserves R (bbswitch_proc_write stack buff).
Proof.
  unfold bbswitch_proc_write. destruct buff as [b | ]; [ | apply preserves_ret].
  cbv zeta.
  apply preserves_bind; [apply preserves_dis_dev_get | intros _].
  apply preserves_bind.
  { destruct (String.prefix "OFF" _);
      [apply preserves_bbswitch_off | apply preserves_ret]. }
  intros _. apply preserves_bind.
  { destruct (String.prefix "ON" _);
      [apply preserves_bbswitch_on | apply preserves_ret]. }
  intros _. apply preserves_bind; [apply preserves_dis_dev_put | intros _].
  apply preserves_ret.
Qed.

Hypothesis R_memory : forall z s, R s (with_vars (set_before_suspend z) s).

Lemma preserves_bbswitch_pm_handler (e : pm_event) :
  preserves R (bbswitch_pm_handler e).
Proof.
  assert (Hprepare : preserves R
            (_ <- dis_dev_get ;;
             st <- is_card_disabled ;;
             _ <- lift (with_vars (set_before_suspend st)) ;;
             _ <- bbswitch_on ;;
             _ <- dis_dev_put ;;
             ret 0)%drv).
  { apply preserves_bind; [apply preserves_dis_dev_get | intros _].
    apply preserves_bind; [apply preserves_is_card_disabled | intros st].
    apply preserves_bind; [apply preserves_lift; apply R_memory | intros _].
    apply preserves_bind; [apply preserves_bbswitch_on | intros _].
    apply preserves_bind; [apply preserves_dis_dev_put | intros _].
    apply preserves_ret. }
  assert (Hpost : preserves R
            (fun s =>
               if negb (dis_before_suspend_disabled (vars s) =? 0) then
                 (_ <- dis_dev_get ;;
                  _ <- bbswitch_off ;;
                  _ <- dis_dev_put ;;
                  ret 0)%drv s
               else Ret 0 s)).
  { intros s. destruct (negb _); [ | apply R_refl].
    apply (preserves_bind dis_dev_get); [apply preserves_dis_dev_get | intros _].
    apply preserves_bind; [apply preserves_bbswitch_off | intros _].
    apply preserves_bind; [apply preserves_dis_dev_put | intros _].
    apply preserves_ret. }
  destruct e; try exact Hprepare; try exact Hpost; apply preserves_ret.
Qed.

Lemma preserves_apply_state (state : Z) : preserves R (apply_state state).
Proof.
  unfold apply_state.
  destruct (state =? CARD_ON); [apply preserves_bbswitch_on | ].
  destruct (state =? CARD_OFF);
    [apply preserves_bbswitch_off | apply preserves_ret].
Qed.

Lemma preserves_bbswitch_init_finish (load_state : Z) :
  preserves R (bbswitch_init_finish load_state).
Proof.
  unfold bbswitch_init_finish.
  apply preserves_bind; [apply preserves_dis_dev_get | intros _].
  apply preserves_bind; [apply preserves_is_card_disabled | intros st].
  apply preserves_bind.
  { destruct (st <? 1); [ | apply preserves_ret].
    apply preserves_bind; [apply preserves_deref_dis_dev | ].
    intros p. apply preserves_ret. }
  intros enabled.
  apply preserves_bind; [apply preserves_apply_state | intros _].
  apply preserves_bind; [apply preserves_is_card_disabled | intros _].
  apply preserves_bind; [apply preserves_dis_dev_put | intros _].
  apply preserves_ret.
Qed.

Lemma preserves_bbswitch_exit (unload_state : Z) :
  preserves R (bbswitch_exit unload_state).
Proof.
  unfold bbswitch_exit.
  apply preserves_bind; [apply preserves_dis_dev_get | intros _].
  apply preserves_bind; [apply preserves_apply_state | intros _].
  apply preserves_bind; [apply preserves_is_card_disabled | intros _].
  apply preserves_bind; [apply preserves_dis_dev_put | intros _].
  apply preserves_ret.
Qed.

End Kept.

Section EntryPoints.

Context {W : Type} {P : Platform W}.

Lemma keeps_config_refl (s : sys W) : keeps_config s s.
Proof. repeat split. Qed.

Lemma keeps_config_trans (s1 s2 s3 : sys W) :
  keeps_config s1 s2 -> keeps_config s2 s3 -> keeps_config s1 s3.
Proof.
  unfold keeps_config, same_config.
  intros (A1 & B1 & C1 & D1 & E1 & F1) (A2 & B2 & C2 & D2 & E2 & F2).
  repeat split; congruence.
Qed.

(** X8.  A command write, a status read and a PM event leave [dsm_type],
    [skip_optimus_dsm], [dis_handle], [dis_dev_name], [vendor] and [device]
    as they found them, however the run ends. *)
Theorem configuration_is_kept (stack : string) (buff : option string)
    (e : pm_event) (s : sys W) :
  keeps_config s (final (bbswitch_proc_write stack buff s))
  /\ keeps_config s (final (bbswitch_proc_show s))
  /\ keeps_config s (final (bbswitch_pm_handler e s)).
Proof.
  split; [ | split].
  - apply (preserves_bbswitch_proc_write keeps_config keeps_config_refl
             keeps_config_trans); intros; repeat split.
  - apply (preserves_bbswitch_proc_show keeps_config keeps_config_refl
             keeps_config_trans); intros; repeat split.
  - apply (preserves_bbswitch_pm_handler keeps_config keeps_config_refl
             keeps_config_trans); intros; repeat split.
Qed.

Lemma keeps_reference_refl (s : sys W) : keeps_reference s s.
Proof. intros H. exact H. Qed.

Lemma keeps_reference_trans (s1 s2 s3 : sys W) :
  keeps_reference s1 s2 -> keeps_reference s2 s3 -> keeps_reference s1 s3.
Proof. intros H1 H2 H. apply H2, H1, H. Qed.

(** X9.  A device reference, once held, is not lost by the status query,
    by [dis_dev_get], [dis_dev_put], the on-transition or a status read:
    among the functions that run after load only the off-transition sets
    [dis_dev] to NULL. *)
Theorem reference_is_kept (s : sys W) :
  dis_dev (vars s) <> None ->
  dis_dev (vars (final (is_card_disabled s))) <> None
  /\ dis_dev (vars (final (dis_dev_get s))) <> None
  /\ dis_dev (vars (final (dis_dev_put s))) <> None
  /\ dis_dev (vars (final (bbswitch_on s))) <> None
  /\ dis_dev (vars (final (bbswitch_proc_show s))) <> None.
Proof.
  intros H.
  assert (Hlog : forall e (s0 : sys W), keeps_reference s0 (log e s0))
    by (intros e s0 H0; exact H0).
  assert (Hhw : forall w (s0 : sys W), keeps_reference s0 (with_hw w s0))
    by (intros w s0 H0; exact H0).
  assert (Hfound : forall pdev (s0 : sys W),
             keeps_reference s0 (with_vars (set_dis_dev (Some pdev)) s0))
    by (intros pdev s0 _; discriminate).
  repeat split.
  - apply (preserves_is_card_disabled keeps_reference keeps_reference_trans
             Hlog Hfound s H).
  - apply (preserves_dis_dev_get keeps_reference keeps_reference_refl
             keeps_reference_trans Hlog Hhw Hfound s H).
  - apply (preserves_dis_dev_put keeps_reference keeps_reference_refl
             keeps_reference_trans Hlog Hfound s H).
  - apply (preserves_bbswitch_on keeps_reference keeps_reference_refl
             keeps_reference_trans Hlog Hhw Hfound s H).
  - apply (preserves_bbswitch_proc_show keeps_reference keeps_reference_refl
             keeps_reference_trans Hlog Hhw Hfound s H).
Qed.

(** ** Calls made and time slept *)

Lemma continues_refl (q : event -> bool) (n : nat) (s : sys W) :
  continues q n s s.
Proof. exists []. repeat split. cbn. lia. Qed.

Lemma sleeps_app (l1 l2 : list event) :
  sleeps (l1 ++ l2) = (sleeps l1 + sleeps l2)%nat.
Proof. unfold sleeps. rewrite filter_app, List.length_app. reflexivity. Qed.

Lemma continues_trans (q : event -> bool) (n1 n2 : nat) (s1 s2 s3 : sys W) :
  continues q n1 s1 s2 -> continues q n2 s2 s3 ->
  continues q (n1 + n2) s1 s3.
Proof.
  intros (l1 & H1 & Q1 & N1) (l2 & H2 & Q2 & N2). exists (l2 ++ l1).
  repeat split.
  - rewrite H2, H1. apply app_assoc.
  - rewrite forallb_app, Q1, Q2. reflexivity.
  - rewrite sleeps_app. lia.
Qed.

Lemma continues_weaken (q q' : event -> bool) (n n' : nat) (s s' : sys W) :
  (forall e, q e = true -> q' e = true) -> (n <= n')%nat ->
  continues q n s s' -> continues q' n' s s'.
Proof.
  intros Hq Hn (l & H & Q & N). exists l. repeat split; [exact H | | lia].
  rewrite forallb_forall in *. intros e He. apply Hq, Q, He.
Qed.

Lemma continues_more (q : event -> bool) (n n' : nat) (s s' : sys W) :
  (n <= n')%nat -> continues q n s s' -> continues q n' s s'.
Proof. intros Hn. apply continues_weaken; [auto | exact Hn]. Qed.

Lemma continues_log (q : event -> bool) (e : event) (s : sys W) :
  q e = true -> is_msleep e = false -> continues q 0 s (log e s).
Proof.
  intros Hq He. exists [e]. repeat split.
  - cbn. rewrite Hq. reflexivity.
  - unfold sleeps. cbn. rewrite He. cbn. lia.
Qed.

Lemma continues_bind {A B} (q : event -> bool) (n1 n2 : nat)
    (m : M W A) (k : A -> M W B) :
  (forall s, continues q n1 s (final (m s))) ->
  (forall a s, continues q n2 s (final (k a s))) ->
  forall s, continues q (n1 + n2) s (final (bind m k s)).
Proof.
  intros Hm Hk s. unfold bind. specialize (Hm s).
  destruct (m s) as [a s1 | f s1]; cbn [final] in *.
  - apply (continues_trans q n1 n2 s s1); [exact Hm | apply Hk].
  - apply (continues_more q n1); [lia | exact Hm].
Qed.

Lemma continues_ret {A} (q : event -> bool) (n : nat) (a : A) (s : sys W) :
  continues q n s (final (ret a s)).
Proof. apply continues_refl. Qed.

Section Calls.

Variable q : event -> bool.
Hypothesis q_read : forall e, read_event e = true -> q e = true.

Lemma continues_get_dis_dev (s : sys W) : continues q 0 s (get_dis_dev s).
Proof.
  exists [EvPciGet (vendor (vars s)) (device (vars s))].
  split; [apply trace_get_dis_dev | split].
  - cbn. rewrite q_read by reflexivity. reflexivity.
  - cbn. lia.
Qed.

Lemma continues_is_card_disabled (s : sys W) :
  continues q 0 s (final (is_card_disabled s)).
Proof.
  destruct (is_card_disabled_trace s) as [Ht | Ht]; eexists;
    (split; [exact Ht | ]); split; try (cbn; lia);
    cbn; rewrite !q_read by reflexivity; reflexivity.
Qed.

Lemma continues_attempt (s : sys W) :
  continues q 1 s (get_dis_dev (do_msleep 500 s)).
Proof.
  exists (attempt s). split; [ | split].
  - rewrite trace_get_dis_dev. reflexivity.
  - cbn. rewrite !q_read by reflexivity. reflexivity.
  - cbn. lia.
Qed.

Lemma continues_bbswitch_on_poll (left : nat) (i : Z) (s : sys W) :
  continues q left s (bbswitch_on_poll left i s).
Proof.
  revert i s. induction left as [ | left IH]; intros i s;
    cbn [bbswitch_on_poll]; destruct (dis_dev (vars s));
    try apply continues_refl.
  destruct (i + 1 >? 4).
  - apply (continues_more q 1); [lia | apply continues_attempt].
  - apply (continues_trans q 1 left _ _ _ (continues_attempt s)). apply IH.
Qed.

Lemma continues_dis_dev_get_poll (left : nat) (i : Z) (s : sys W) :
  continues q left s (snd (dis_dev_get_poll left i s)).
Proof.
  revert i s. induction left as [ | left IH]; intros i s;
    cbn [dis_dev_get_poll]; destruct (dis_dev (vars s));
    try apply continues_refl.
  destruct (i + 1 >? 4).
  - destruct (dis_dev _); cbn [snd];
      (apply (continues_more q 1); [lia | apply continues_attempt]).
  - apply (continues_trans q 1 left _ _ _ (continues_attempt s)). apply IH.
Qed.

Lemma continues_deref (n : nat) (s : sys W) :
  continues q n s (final (deref_dis_dev s)).
Proof.
  unfold deref_dis_dev. destruct (dis_dev (vars s)); apply continues_refl.
Qed.

Lemma continues_dis_dev_get (s : sys W) :
  continues q 5 s (final (dis_dev_get s)).
Proof.
  unfold dis_dev_get.
  apply (continues_bind q 0 5); [apply continues_is_card_disabled | ].
  clear s. intros st s. destruct (st <? 1); [ | apply continues_refl].
  pose proof (continues_dis_dev_get_poll 5 0 s) as Hp.
  destruct (dis_dev_get_poll 5 0 s) as [go s1]. cbn [snd] in Hp.
  destruct go; [ | exact Hp].
  apply (continues_trans q 5 0 s s1 _ Hp).
  unfold bind, deref_dis_dev. destruct (dis_dev (vars s1)) as [p | ];
    [ | apply continues_refl].
  destruct (pdev_bridge (hw s1) p) as [bridge | ]; [ | apply continues_refl].
  apply continues_log; [apply q_read | ]; reflexivity.
Qed.

Lemma continues_dis_dev_put (s : sys W) :
  continues q 0 s (final (dis_dev_put s)).
Proof.
  unfold dis_dev_put.
  apply (continues_bind q 0 0); [apply continues_is_card_disabled | ].
  clear s. intros st s. destruct (st =? 0); [ | apply continues_refl].
  unfold bind, deref_dis_dev. destruct (dis_dev (vars s)) as [p | ];
    [ | apply continues_refl].
  destruct (pdev_bridge (hw s) p) as [bridge | ]; [ | apply continues_refl].
  apply continues_log; [apply q_read | ]; reflexivity.
Qed.

Lemma continues_bbswitch_proc_show (s : sys W) :
  continues q 5 s (final (bbswitch_proc_show s)).
Proof.
  unfold bbswitch_proc_show.
  apply (continues_bind q 5 0); [apply continues_dis_dev_get | intros _].
  apply (continues_bind q 0 0); [apply continues_is_card_disabled | ].
  intros st s0.
  apply (continues_bind q 0 0 dis_dev_put); [apply continues_dis_dev_put | ].
  intros; apply continues_refl.
Qed.

Hypothesis q_power : forall e, is_power_call e = true -> q e = true.

Lemma continues_bbswitch_on (s : sys W) :
  continues q 5 s (final (bbswitch_on s)).
Proof.
  unfold bbswitch_on.
  apply (continues_bind q 0 5); [apply continues_is_card_disabled | ].
  clear s. intros st s. destruct (st <? 1); [apply continues_refl | ].
  cbn [bind bbswitch_acpi_on lift final].
  apply (continues_trans q 0 5 s (evaluate PG00 "_ON" s)).
  - exists [EvEvaluate PG00 "_ON"]. split; [reflexivity | split].
    + cbn. rewrite q_power by reflexivity. reflexivity.
    + cbn. lia.
  - apply continues_bbswitch_on_poll.
Qed.

Lemma continues_bbswitch_off (s : sys W) :
  continues q 0 s (final (bbswitch_off s)).
Proof.
  unfold bbswitch_off.
  apply (continues_bind q 0 0); [apply continues_is_card_disabled | ].
  clear s. intros st s. destruct (st =? 1); [apply continues_refl | ].
  unfold bind, deref_dis_dev. destruct (dis_dev (vars s)) as [p | ];
    [ | apply continues_refl].
  destruct (pdev_driver (hw s) p); [apply continues_refl | ].
  exists [EvEvaluate PG00 "_OFF"]. split; [reflexivity | split].
  - cbn. rewrite q_power by reflexivity. reflexivity.
  - cbn. lia.
Qed.

Lemma continues_bbswitch_proc_write (stack : string) (buff : option string)
    (s : sys W) :
  continues q 10 s (final (bbswitch_proc_write stack buff s)).
Proof.
  unfold bbswitch_proc_write. destruct buff as [b | ];
    [ | apply continues_refl].
  cbv zeta.
  apply (continues_bind q 5 5); [apply continues_dis_dev_get | intros _].
  apply (continues_bind q 0 5).
  { intros s0. destruct (String.prefix "OFF" _);
      [apply continues_bbswitch_off | apply continues_refl]. }
  intros _. apply (continues_bind q 5 0).
  { intros s0. destruct (String.prefix "ON" _);
      [apply continues_bbswitch_on | apply continues_refl]. }
  intros _. apply (continues_bind q 0 0); [apply continues_dis_dev_put | ].
  intros; apply continues_refl.
Qed.

Lemma continues_bbswitch_pm_handler (e : pm_event) (s : sys W) :
  continues q 10 s (final (bbswitch_pm_handler e s)).
Proof.
  assert (Hprepare : forall s0,
            continues q 10 s0
              (final ((_ <- dis_dev_get ;;
                       st <- is_card_disabled ;;
                       _ <- lift (with_vars (set_before_suspend st)) ;;
                       _ <- bbswitch_on ;;
                       _ <- dis_dev_put ;;
                       ret 0)%drv s0))).
  { apply (continues_bind q 5 5); [apply continues_dis_dev_get | intros _].
    apply (continues_bind q 0 5); [apply continues_is_card_disabled | ].
    intros st.
    apply (continues_bind q 0 5).
    { intros s1. exists []. split; [reflexivity | split; [reflexivity | ]].
      cbn. lia. }
    intros _.
    apply (continues_bind q 5 0); [apply continues_bbswitch_on | intros _].
    apply (continues_bind q 0 0); [apply continues_dis_dev_put | ].
    intros; apply continues_refl. }
  assert (Hpost : forall s0,
            continues q 10 s0
              (final (if negb (dis_before_suspend_disabled (vars s0) =? 0)
                      then (_ <- dis_dev_get ;;
                            _ <- bbswitch_off ;;
                            _ <- dis_dev_put ;;
                            ret 0)%drv s0
                      else Ret 0 s0))).
  { intros s0. destruct (negb _); [ | apply continues_refl].
    apply (continues_more q 5); [lia | ].
    apply (continues_bind q 5 0 dis_dev_get);
      [apply continues_dis_dev_get | intros _].
    apply (continues_bind q 0 0); [apply continues_bbswitch_off | intros _].
    apply (continues_bind q 0 0); [apply continues_dis_dev_put | ].
    intros; apply continues_refl. }
  destruct e; try apply Hprepare; try apply Hpost; apply continues_refl.
Qed.

End Calls.

(** X10.  A status read evaluates no [_ON], [_OFF] or [_DSM]: every call
    it makes is the [SGST] query, a bus scan, a sleep of 500 ms or a bridge
    reference call, and it sleeps at most five times. *)
Theorem status_read_is_passive (s : sys W) :
  forallb read_event (new_events s (final (bbswitch_proc_show s))) = true
  /\ (sleeps (new_events s (final (bbswitch_proc_show s))) <= 5)%nat.
Proof.
  destruct (continues_bbswitch_proc_show read_event (fun e H => H) s)
    as (l & Ht & Hq & Hn).
  rewrite (new_events_app _ _ _ Ht). split; assumption.
Qed.

(** X11.  A command write and a PM event evaluate no [_DSM]; besides the
    calls of a status read they make only [_OFF] and [_ON] under
    [\_SB.PCI0.GPP0.PG00].  Every sleep lasts 500 ms and there are at most
    ten of them, so neither blocks for more than five seconds of sleep. *)
Theorem entry_points_are_bounded (stack : string) (buff : option string)
    (e : pm_event) (s : sys W) :
  (forallb entry_event
     (new_events s (final (bbswitch_proc_write stack buff s))) = true
   /\ (sleeps (new_events s (final (bbswitch_proc_write stack buff s)))
       <= 10)%nat)
  /\ (forallb entry_event
        (new_events s (final (bbswitch_pm_handler e s))) = true
      /\ (sleeps (new_events s (final (bbswitch_pm_handler e s)))
          <= 10)%nat).
Proof.
  assert (Hr : forall e0, read_event e0 = true -> entry_event e0 = true).
  { intros e0 H. unfold entry_event. rewrite H. reflexivity. }
  assert (Hp : forall e0, is_power_call e0 = true -> entry_event e0 = true).
  { intros e0 H. unfold entry_event. rewrite H. apply orb_true_r. }
  split.
  - destruct (continues_bbswitch_proc_write entry_event Hr Hp stack buff s)
      as (l & Ht & Hq & Hn).
    rewrite (new_events_app _ _ _ Ht). split; assumption.
  - destruct (continues_bbswitch_pm_handler entry_event Hr Hp e s)
      as (l & Ht & Hq & Hn).
    rewrite (new_events_app _ _ _ Ht). split; assumption.
Qed.

(** ** Where a NULL reference is read *)

Lemma returns_bind {A B} (m : M W A) (k : A -> M W B) (s : sys W) :
  returns m s ->
  (forall a s', m s = Ret a s' -> returns (k a) s') ->
  returns (bind m k) s.
Proof.
  intros (a & s' & Hm) Hk. unfold returns, bind. rewrite Hm.
  apply (Hk a s' Hm).
Qed.

Lemma returns_ret {A} (a : A) (s : sys W) : returns (ret a) s.
Proof. exists a, s. reflexivity. Qed.

Lemma is_card_disabled_returns (s : sys W) :
  status_answers ->
  exists st s',
    is_card_disabled s = Ret st s'
    /\ (st = 0 -> dis_dev (vars s') <> None)
    /\ (st = 1 \/ st = 0 \/ st = -1).
Proof.
  intros Ha. specialize (Ha (hw s)).
  destruct (sgst_value (hw s)) as [v | ] eqn:Hs; [ | congruence].
  destruct (Z_lt_le_dec 0 v) as [Hv | Hv].
  - rewrite (is_card_disabled_on s v Hs Hv). cbv zeta.
    destruct (dis_dev (vars (get_dis_dev _))) eqn:Ed.
    + eexists. eexists. split; [reflexivity | ]. split; [congruence | lia].
    + eexists. eexists. split; [reflexivity | ]. split; [lia | lia].
  - rewrite (is_card_disabled_off s v Hs Hv).
    eexists. eexists. split; [reflexivity | ]. split; lia.
Qed.

Lemma dis_dev_get_poll_go (left : nat) (i : Z) (s : sys W) :
  fst (dis_dev_get_poll left i s) = true ->
  dis_dev (vars (snd (dis_dev_get_poll left i s))) <> None.
Proof.
  revert i s. induction left as [ | left IH]; intros i s;
    cbn [dis_dev_get_poll]; destruct (dis_dev (vars s)) eqn:Ed;
    cbn [fst snd]; try congruence.
  destruct (i + 1 >? 4).
  - destruct (dis_dev (vars (get_dis_dev (do_msleep 500 s)))) eqn:E1;
      cbn [fst snd]; congruence.
  - apply IH.
Qed.

Lemma dis_dev_get_returns (s : sys W) :
  status_answers -> returns dis_dev_get s.
Proof.
  intros Ha. unfold dis_dev_get. apply returns_bind.
  - destruct (is_card_disabled_returns s Ha) as (st & s' & E & _).
    exists st, s'. exact E.
  - intros st s1 _. destruct (st <? 1); [ | apply returns_ret].
    unfold returns. cbv beta.
    pose proof (dis_dev_get_poll_go 5 0 s1) as Hgo.
    destruct (dis_dev_get_poll 5 0 s1) as [go s2]. cbn [fst snd] in Hgo.
    destruct go; [ | eexists; eexists; reflexivity].
    specialize (Hgo eq_refl). unfold bind, deref_dis_dev.
    destruct (dis_dev (vars s2)) as [p | ]; [ | congruence].
    destruct (pdev_bridge (hw s2) p); eexists; eexists; reflexivity.
Qed.

Lemma dis_dev_put_returns (s : sys W) :
  status_answers -> returns dis_dev_put s.
Proof.
  intros Ha. unfold dis_dev_put.
  destruct (is_card_disabled_returns s Ha) as (st & s' & E & Hz & _).
  unfold returns, bind. rewrite E.
  destruct (st =? 0) eqn:E0; [ | eexists; eexists; reflexivity].
  apply Z.eqb_eq in E0. specialize (Hz E0). unfold deref_dis_dev.
  destruct (dis_dev (vars s')) as [p | ]; [ | congruence].
  destruct (pdev_bridge (hw s') p); eexists; eexists; reflexivity.
Qed.

Lemma bbswitch_on_returns (s : sys W) :
  status_answers -> returns bbswitch_on s.
Proof.
  intros Ha. unfold bbswitch_on.
  destruct (is_card_disabled_returns s Ha) as (st & s' & E & _).
  unfold returns, bind. rewrite E.
  destruct (st <? 1); eexists; eexists; reflexivity.
Qed.

(** X12.  On a machine whose [SGST] always returns an object,
    [dis_dev_get], [dis_dev_put], the on-transition, a status read and a
    suspend-prepare event always return: none of them reads through a NULL
    [dis_dev].  (The off-transition does, see C3.) *)
Theorem null_is_read_only_by_off (s : sys W) :
  status_answers ->
  returns dis_dev_get s
  /\ returns dis_dev_put s
  /\ returns bbswitch_on s
  /\ returns bbswitch_proc_show s
  /\ (forall e, is_prepare e = true -> returns (bbswitch_pm_handler e) s).
Proof.
  intros Ha.
  split; [apply dis_dev_get_returns, Ha | ].
  split; [apply dis_dev_put_returns, Ha | ].
  split; [apply bbswitch_on_returns, Ha | ].
  split.
  - unfold bbswitch_proc_show.
    apply returns_bind; [apply dis_dev_get_returns, Ha | intros _ s1 _].
    apply returns_bind.
    { destruct (is_card_disabled_returns s1 Ha) as (st & s' & E & _).
      exists st, s'. exact E. }
    intros st s2 _.
    apply (returns_bind dis_dev_put); [apply dis_dev_put_returns, Ha | ].
    intros; apply returns_ret.
  - intros e He.
    assert (Hrun : returns (_ <- dis_dev_get ;;
                            st <- is_card_disabled ;;
                            _ <- lift (with_vars (set_before_suspend st)) ;;
                            _ <- bbswitch_on ;;
                            _ <- dis_dev_put ;;
                            ret 0)%drv s).
    { apply returns_bind; [apply dis_dev_get_returns, Ha | intros _ s1 _].
      apply returns_bind.
      { destruct (is_card_disabled_returns s1 Ha) as (st & s' & E & _).
        exists st, s'. exact E. }
      intros st s2 _.
      apply returns_bind; [eexists; eexists; reflexivity | intros _ s3 _].
      apply returns_bind; [apply bbswitch_on_returns, Ha | intros _ s4 _].
      apply returns_bind; [apply dis_dev_put_returns, Ha | intros _ s5 _].
      apply returns_ret. }
    destruct e; try discriminate He; exact Hrun.
Qed.

(** ** The status line *)

Lemma is_card_disabled_values (s : sys W) (st : Z) :
  value (is_card_disabled s) = Some st -> st = 1 \/ st = 0 \/ st = -1.
Proof.
  unfold is_card_disabled.
  destruct (sgst_value (hw s)) as [v | ]; [ | discriminate].
  destruct (v >? 0); cbn [Z.eqb].
  - destruct (dis_dev _); cbn [value]; intros [= <-]; lia.
  - cbn [value]. intros [= <-]. lia.
Qed.

(** X13.  The line a status read produces is [dis_dev_name], a space, [ON]
    or [OFF], and a newline.  It says [OFF] exactly when the status query
    made after [dis_dev_get] answers 1; the indeterminate status -1 is shown
    as [ON]. *)
Theorem status_line (s : sys W) (line : string) :
  value (bbswitch_proc_show s) = Some line ->
  exists st,
    value (is_card_disabled (final (dis_dev_get s))) = Some st
    /\ line = (dis_dev_name (vars s) ++ " "
               ++ (if (st =? 1)%Z then "OFF" else "ON") ++ newline)%string.
Proof.
  assert (Hlog : forall e (s0 : sys W), keeps_config s0 (log e s0))
    by (intros; repeat split).
  assert (Hhw : forall w (s0 : sys W), keeps_config s0 (with_hw w s0))
    by (intros; repeat split).
  assert (Hfound : forall pdev (s0 : sys W),
             keeps_config s0 (with_vars (set_dis_dev (Some pdev)) s0))
    by (intros; repeat split).
  pose proof (preserves_dis_dev_get keeps_config keeps_config_refl
                keeps_config_trans Hlog Hhw Hfound s) as Hget.
  unfold bbswitch_proc_show, bind.
  destruct (dis_dev_get s) as [[] s1 | f s1]; cbn [final value] in *;
    [ | discriminate].
  pose proof (preserves_is_card_disabled keeps_config keeps_config_trans
                Hlog Hfound s1) as Hicd.
  pose proof (is_card_disabled_values s1) as Hval.
  destruct (is_card_disabled s1) as [st s2 | f s2]; cbn [final value] in *;
    [ | discriminate].
  destruct (dis_dev_put s2) as [[] s3 | f s3]; cbn [value]; [ | discriminate].
  intros [= <-]. exists st. split; [reflexivity | ].
  assert (Hname : dis_dev_name (vars s2) = dis_dev_name (vars s)).
  { destruct Hget as (_ & _ & _ & Hn1 & _).
    destruct Hicd as (_ & _ & _ & Hn2 & _). congruence. }
  rewrite Hname.
  destruct (Hval st eq_refl) as [-> | [-> | ->]]; reflexivity.
Qed.

(** ** Command writes *)

Lemma prefix_substring_app (p : string) :
  forall (n : nat) (b x : string),
    (String.length p <= n)%nat -> (n <= String.length b)%nat ->
    String.prefix p (substring 0 n b ++ x) = String.prefix p b.
Proof.
  assert (Hempty : forall t, String.prefix "" t = true)
    by (intros [ | a t]; reflexivity).
  induction p as [ | c p IH]; intros n b x Hp Hn;
    [rewrite !Hempty; reflexivity | ].
  cbn [String.length] in Hp.
  destruct n as [ | n]; [lia | ].
  destruct b as [ | a b]; cbn [String.length] in Hn; [lia | ].
  cbn [substring String.append String.prefix].
  destruct (ascii_dec c a); [ | reflexivity].
  apply IH; lia.
Qed.

Lemma bbswitch_proc_write_command (stack b : string) (s : sys W) :
  (3 <= String.length b)%nat ->
  bbswitch_proc_write stack (Some b) s
  = (_ <- dis_dev_get ;;
     _ <- (if String.prefix "OFF" b then bbswitch_off else ret tt) ;;
     _ <- (if String.prefix "ON" b then bbswitch_on else ret tt) ;;
     _ <- dis_dev_put ;;
     ret (Z.min (Z.of_nat (String.length b)) 7))%drv s.
Proof.
  intros Hlen.
  unfold bbswitch_proc_write. cbv zeta.
  set (len := if Z.of_nat (String.length b) >=? 8 then 7
              else Z.of_nat (String.length b)).
  assert (Hmin : len = Z.min (Z.of_nat (String.length b)) 7).
  { unfold len. destruct (Z.of_nat (String.length b) >=? 8) eqn:E.
    - rewrite Z.geb_leb in E. apply Z.leb_le in E. lia.
    - rewrite Z.geb_leb in E. apply Z.leb_gt in E. lia. }
  assert (H3 : (3 <= Z.to_nat len <= String.length b)%nat) by lia.
  rewrite (prefix_substring_app "OFF" (Z.to_nat len) b) by (cbn; lia).
  rewrite (prefix_substring_app "ON" (Z.to_nat len) b) by (cbn; lia).
  rewrite Hmin. reflexivity.
Qed.

(** X14.  A write whose buffer cannot be read returns [-EFAULT] and touches
    nothing.  A write of at least three bytes is decided by those bytes
    alone, not by what the stack held: after [dis_dev_get] it runs the
    off-transition if they begin with [OFF], the on-transition if they begin
    with [ON], then [dis_dev_put], and returns the number of bytes, at most
    7. *)
Theorem command_write_dispatch (stack b : string) (s : sys W) :
  bbswitch_proc_write stack None s = Ret (- EFAULT) s
  /\ ((3 <= String.length b)%nat ->
      bbswitch_proc_write stack (Some b) s
      = (_ <- dis_dev_get ;;
         _ <- (if String.prefix "OFF" b then bbswitch_off else ret tt) ;;
         _ <- (if String.prefix "ON" b then bbswitch_on else ret tt) ;;
         _ <- dis_dev_put ;;
         ret (Z.min (Z.of_nat (String.length b)) 7))%drv s).
Proof.
  split; [reflexivity | apply bbswitch_proc_write_command].
Qed.

(** X15.  A write of at least three bytes that begin with neither [OFF]
    nor [ON] evaluates no [_OFF], [_ON] or [_DSM]: it only takes and drops
    the bridge reference. *)
Theorem unknown_command_is_passive (stack b : string) (s : sys W) :
  (3 <= String.length b)%nat ->
  String.prefix "OFF" b = false ->
  String.prefix "ON" b = false ->
  forallb read_event
    (new_events s (final (bbswitch_proc_write stack (Some b) s))) = true.
Proof.
  intros Hlen Hoff Hon.
  rewrite (bbswitch_proc_write_command stack b s Hlen), Hoff, Hon.
  assert (Hc : continues read_event 5 s
            (final ((_ <- dis_dev_get ;; _ <- ret tt ;; _ <- ret tt ;;
                     _ <- dis_dev_put ;;
                     ret (Z.min (Z.of_nat (String.length b)) 7))%drv s))).
  { apply (continues_bind read_event 5 0);
      [apply continues_dis_dev_get; auto | intros _].
    apply (continues_bind read_event 0 0); [intros; apply continues_refl | ].
    intros _.
    apply (continues_bind read_event 0 0); [intros; apply continues_refl | ].
    intros _.
    apply (continues_bind read_event 0 0);
      [apply continues_dis_dev_put; auto | ].
    intros; apply continues_refl. }
  destruct Hc as (l & Ht & Hq & _).
  rewrite (new_events_app _ _ _ Ht). exact Hq.
Qed.

(** ** Transitions that take effect *)

(** X16.  From status on with no driver bound to the device, the
    off-transition evaluates [_OFF] once, after its status query, and sets
    [dis_dev] to NULL; if the firmware then reports the card off, the status
    queried next is off. *)
Theorem off_transition_powers_off (s : sys W) (p : pci_dev) :
  value (is_card_disabled s) = Some 0 ->
  dis_dev (vars (final (is_card_disabled s))) = Some p ->
  pdev_driver (hw s) p = None ->
  exists s',
    bbswitch_off s = Ret tt s'
    /\ new_events s s'
       = EvEvaluate PG00 "_OFF" :: new_events s (final (is_card_disabled s))
    /\ hw s' = acpi_evaluate (hw s) PG00 "_OFF"
    /\ dis_dev (vars s') = None
    /\ (reports_off (hw s') -> value (is_card_disabled s') = Some 1).
Proof.
  intros Hst Hd Hdrv.
  assert (G : off_gate s = true).
  { unfold off_gate. rewrite Hst, Hd, Hdrv. reflexivity. }
  rewrite (off_gate_open s G). eexists. split; [reflexivity | ].
  split; [ | split; [ | split]].
  - destruct (is_card_disabled_trace s) as [Ht | Ht];
      rewrite (new_events_app _ _ _ Ht); apply new_events_app;
      cbn [with_vars evaluate log with_hw trace]; rewrite Ht; reflexivity.
  - cbn [with_vars evaluate log with_hw hw].
    rewrite hw_is_card_disabled. reflexivity.
  - reflexivity.
  - intros Hoff. rewrite (status_when_off _ Hoff). reflexivity.
Qed.

Lemma bbswitch_on_poll_first (p : pci_dev) :
  forall (k left : nat) (i : Z) (s : sys W),
    Z.of_nat left = 5 - i ->
    (1 <= k <= left)%nat ->
    dis_dev (vars s) = None ->
    (forall j, (1 <= j < k)%nat ->
       pci_get_device (after_sleeps j (hw s))
                      (vendor (vars s)) (device (vars s)) = None) ->
    pci_get_device (after_sleeps k (hw s))
                   (vendor (vars s)) (device (vars s)) = Some p ->
    trace (bbswitch_on_poll left i s) = attempts k s ++ trace s
    /\ dis_dev (vars (bbswitch_on_poll left i s)) = Some p
    /\ hw (bbswitch_on_poll left i s) = after_sleeps k (hw s).
Proof.
  induction k as [ | k IH]; intros left i s Hl Hk Hd Hnone Hfound; [lia | ].
  destruct left as [ | left]; [lia | ].
  cbn [bbswitch_on_poll]. rewrite Hd.
  set (s1 := get_dis_dev (do_msleep 500 s)).
  assert (Hhw1 : hw s1 = msleep (hw s) 500).
  { unfold s1. rewrite hw_get_dis_dev. reflexivity. }
  assert (Hids : vendor (vars s1) = vendor (vars s)
                 /\ device (vars s1) = device (vars s)).
  { destruct (ids_get_dis_dev (do_msleep 500 s)) as (A & B & _).
    split; [exact A | exact B]. }
  assert (Htr1 : trace s1 = attempt s ++ trace s).
  { unfold s1. rewrite trace_get_dis_dev. reflexivity. }
  assert (Hd1 : dis_dev (vars s1)
                = pci_get_device (msleep (hw s) 500)
                    (vendor (vars s)) (device (vars s))).
  { unfold s1. rewrite dis_dev_get_dis_dev.
    cbn [do_msleep log with_hw vars hw]. rewrite Hd.
    destruct (pci_get_device (msleep (hw s) 500)
                (vendor (vars s)) (device (vars s))); reflexivity. }
  destruct k as [ | k].
  - (* found at this attempt *)
    cbn [after_sleeps] in Hfound. rewrite Hfound in Hd1.
    assert (Hres : (if i + 1 >? 4 then s1
                    else bbswitch_on_poll left (i + 1) s1) = s1).
    { destruct (i + 1 >? 4); [reflexivity | ].
      destruct left; cbn [bbswitch_on_poll]; rewrite Hd1; reflexivity. }
    rewrite Hres. split; [ | split].
    + rewrite Htr1. cbn [attempts]. rewrite app_nil_r. reflexivity.
    + exact Hd1.
    + exact Hhw1.
  - (* not yet *)
    assert (H1 : pci_get_device (msleep (hw s) 500)
                   (vendor (vars s)) (device (vars s)) = None).
    { apply (Hnone 1%nat). lia. }
    rewrite H1 in Hd1.
    destruct (i + 1 >? 4) eqn:E; [apply Z.gtb_lt in E; lia | ].
    rewrite Z.gtb_ltb in E. apply Z.ltb_ge in E.
    destruct Hids as [Hv Hdv].
    destruct (IH left (i + 1) s1) as (Ht & Hdd & Hh).
    + lia.
    + lia.
    + exact Hd1.
    + intros j Hj. rewrite Hhw1, Hv, Hdv. apply (Hnone (S j)). lia.
    + rewrite Hhw1, Hv, Hdv. exact Hfound.
    + split; [ | split].
      * rewrite Ht, Htr1.
        assert (Hat : forall n, attempts n s1 = attempts n s).
        { intros n. induction n as [ | n IHn]; cbn [attempts];
            [reflexivity | ].
          rewrite IHn. unfold attempt. rewrite Hv, Hdv. reflexivity. }
        rewrite Hat, app_assoc, attempts_snoc. reflexivity.
      * exact Hdd.
      * rewrite Hh, Hhw1. reflexivity.
Qed.

(** X17.  From status off with no device reference held, when the device
    is first seen on the bus at the [k]-th scan after [_ON]
    ([1 <= k <= 5]), the on-transition evaluates [_ON] once, makes exactly
    [k] attempts and stops there, holding the device found. *)
Theorem on_transition_finds_device (s : sys W) (k : nat) (p : pci_dev) :
  reports_off (hw s) ->
  dis_dev (vars s) = None ->
  (1 <= k <= 5)%nat ->
  (forall j, (1 <= j < k)%nat ->
     pci_get_device (after_sleeps j (powered_on s))
                    (vendor (vars s)) (device (vars s)) = None) ->
  pci_get_device (after_sleeps k (powered_on s))
                 (vendor (vars s)) (device (vars s)) = Some p ->
  exists s',
    bbswitch_on s = Ret tt s'
    /\ new_events s s'
       = attempts k s ++ [EvEvaluate PG00 "_ON"; EvEvaluate PEGP "SGST"]
    /\ dis_dev (vars s') = Some p
    /\ hw s' = after_sleeps k (powered_on s).
Proof.
  intros Hoff Hd Hk Hnone Hfound.
  set (s1 := evaluate PG00 "_ON" (log (EvEvaluate PEGP "SGST") s)).
  destruct (bbswitch_on_poll_first p k 5 0 s1) as (Ht & Hdd & Hh);
    try assumption; try reflexivity.
  exists (bbswitch_on_poll 5 0 s1). split; [ | split; [ | split]].
  - unfold bbswitch_on, bind. rewrite (status_when_off s Hoff). reflexivity.
  - apply new_events_app. rewrite Ht.
    rewrite (attempts_vars k s s1) by reflexivity.
    rewrite <- app_assoc. reflexivity.
  - exact Hdd.
  - exact Hh.
Qed.

(** ** Operations that leave the status alone *)

Lemma get_dis_dev_twice (s : sys W) :
  dis_dev (vars (get_dis_dev (get_dis_dev s))) = dis_dev (vars (get_dis_dev s)).
Proof.
  rewrite (dis_dev_get_dis_dev (get_dis_dev s)), hw_get_dis_dev.
  destruct (ids_get_dis_dev s) as (-> & -> & _).
  rewrite dis_dev_get_dis_dev.
  destruct (pci_get_device _ _ _); reflexivity.
Qed.

Lemma held_quiet (l r : list event) (n : nat) :
  forallb quiet l = true -> held n (l ++ r) = held n r.
Proof.
  induction l as [ | e l IH]; cbn [app forallb]; [reflexivity | ].
  intros H. apply andb_prop in H. destruct H as [He Hl].
  destruct e; cbn in He; try discriminate He; cbn [held]; apply IH, Hl.
Qed.

Lemma quiet_rev (l : list event) :
  forallb quiet l = true -> forallb quiet (rev l) = true.
Proof.
  rewrite !forallb_forall. intros H e He. apply H. apply in_rev. exact He.
Qed.

(** A get and a put of the same bridge, or none of either, around calls
    that touch no reference, are paired. *)
Lemma bracket_paired {A} (ob : option pci_dev) (l1 l2 : list event)
    (s : sys W) (o : outcome W A) :
  trace (final o)
    = bridge_call EvPmPut ob ++ l2 ++ bridge_call EvPmGet ob ++ l1 ++ trace s ->
  forallb quiet l1 = true -> forallb quiet l2 = true ->
  paired s o.
Proof.
  intros Ht Q1 Q2. unfold paired.
  rewrite (new_events_app s (final o)
             (bridge_call EvPmPut ob ++ l2 ++ bridge_call EvPmGet ob ++ l1))
    by (rewrite Ht, <- !app_assoc; reflexivity).
  rewrite !rev_app_distr, <- !app_assoc.
  rewrite (held_quiet _ _ _ (quiet_rev l1 Q1)).
  destruct ob as [bridge | ]; cbn [bridge_call rev app held].
  - rewrite (held_quiet _ _ _ (quiet_rev l2 Q2)). reflexivity.
  - rewrite (held_quiet _ _ _ (quiet_rev l2 Q2)). reflexivity.
Qed.

Lemma settled_log (ob : option pci_dev) (e : event) (s : sys W) :
  settled ob s -> settled ob (log e s).
Proof.
  unfold settled. rewrite get_dis_dev_log. intros H. exact H.
Qed.

Lemma is_card_disabled_settled (ob : option pci_dev) (s : sys W) :
  settled ob s ->
  exists st s',
    is_card_disabled s = Ret st s' /\ settled ob s'
    /\ extends_by quiet s s'
    /\ (st = 0 -> exists p, dis_dev (vars s') = Some p
                            /\ pdev_bridge (hw s') p = ob)
    /\ (st <> 0 -> ob = None)
    /\ (reports_on (hw s) -> st < 1).
Proof.
  intros [[Hoff ->] | [(Hon & Hd & ->) | (Hon & p & Hd & Hd' & Hb)]].
  - rewrite (status_when_off s Hoff). eexists. eexists.
    split; [reflexivity | ]. split; [ | split; [ | split; [ | split]]].
    + left. split; [exact Hoff | reflexivity].
    + exists [EvEvaluate PEGP "SGST"]. split; reflexivity.
    + discriminate.
    + reflexivity.
    + intros (v & Hs & Hv). destruct Hoff as (v' & Hs' & Hv').
      rewrite Hs in Hs'. injection Hs' as <-. lia.
  - pose proof Hon as (v & Hs & Hv).
    rewrite (is_card_disabled_on s v Hs Hv). cbv zeta.
    rewrite get_dis_dev_log, Hd.
    set (s2 := get_dis_dev (log (EvEvaluate PEGP "SGST") s)).
    assert (Hd2 : dis_dev (vars (get_dis_dev s2)) = None).
    { unfold s2. rewrite get_dis_dev_twice, get_dis_dev_log. exact Hd. }
    exists (-1), s2. split; [reflexivity | ].
    split; [ | split; [ | split; [ | split]]].
    + right. left. split; [ | split; [exact Hd2 | reflexivity]].
      unfold s2. unfold reports_on. rewrite hw_get_dis_dev. exact Hon.
    + exists [EvPciGet (vendor (vars s)) (device (vars s));
              EvEvaluate PEGP "SGST"].
      split; [unfold s2; rewrite trace_get_dis_dev; reflexivity | ].
      reflexivity.
    + discriminate.
    + reflexivity.
    + lia.
  - pose proof Hon as (v & Hs & Hv).
    rewrite (is_card_disabled_on s v Hs Hv). cbv zeta.
    rewrite get_dis_dev_log, Hd'.
    set (s2 := get_dis_dev (log (EvEvaluate PEGP "SGST") s)).
    assert (Hd2 : dis_dev (vars s2) = Some p).
    { unfold s2. rewrite get_dis_dev_log. exact Hd'. }
    assert (Hd3 : dis_dev (vars (get_dis_dev s2)) = Some p).
    { unfold s2. rewrite get_dis_dev_twice, get_dis_dev_log. exact Hd'. }
    assert (Hw2 : hw s2 = hw s) by (unfold s2; rewrite hw_get_dis_dev; reflexivity).
    exists 0, s2. split; [reflexivity | ].
    split; [ | split; [ | split; [ | split]]].
    + right. right. split; [unfold reports_on; rewrite Hw2; exact Hon | ].
      exists p. rewrite Hw2. repeat split; assumption.
    + exists [EvPciGet (vendor (vars s)) (device (vars s));
              EvEvaluate PEGP "SGST"].
      split; [unfold s2; rewrite trace_get_dis_dev; reflexivity | ].
      reflexivity.
    + intros _. exists p. rewrite Hw2. split; assumption.
    + congruence.
    + lia.
Qed.

Lemma dis_dev_put_settled (ob : option pci_dev) (s : sys W) :
  settled ob s ->
  exists s' l,
    dis_dev_put s = Ret tt s'
    /\ trace s' = bridge_call EvPmPut ob ++ l ++ trace s
    /\ forallb quiet l = true.
Proof.
  intros H.
  destruct (is_card_disabled_settled ob s H)
    as (st & s1 & E & _ & (l & Ht & Ql) & H0 & Hn0 & _).
  unfold dis_dev_put, bind. rewrite E.
  destruct (st =? 0) eqn:E0.
  - apply Z.eqb_eq in E0. destruct (H0 E0) as (p & Hd & Hb).
    unfold deref_dis_dev. rewrite Hd, Hb.
    destruct ob as [bridge | ].
    + exists (log (EvPmPut bridge) s1), l. split; [reflexivity | ].
      split; [cbn [log trace bridge_call app]; rewrite Ht; reflexivity | ].
      exact Ql.
    + exists s1, l. split; [reflexivity | ]. split; [exact Ht | exact Ql].
  - apply Z.eqb_neq in E0. rewrite (Hn0 E0).
    exists s1, l. split; [reflexivity | ]. split; [exact Ht | exact Ql].
Qed.

Lemma bbswitch_on_settled (ob : option pci_dev) (s : sys W) :
  settled ob s -> reports_on (hw s) ->
  exists s',
    bbswitch_on s = Ret tt s' /\ settled ob s' /\ extends_by quiet s s'.
Proof.
  intros H Hon.
  destruct (is_card_disabled_settled ob s H)
    as (st & s1 & E & S1 & X1 & _ & _ & Hlt).
  unfold bbswitch_on, bind. rewrite E.
  specialize (Hlt Hon).
  destruct (st <? 1) eqn:E1; [ | apply Z.ltb_ge in E1; lia].
  exists s1. split; [reflexivity | ]. split; assumption.
Qed.

Lemma dis_dev_get_poll_settles (left : nat) (i : Z) (s : sys W) :
  sleep_keeps_status ->
  i <= 4 -> 5 - i <= Z.of_nat left ->
  dis_dev (vars s) = None ->
  extends_by quiet s (snd (dis_dev_get_poll left i s))
  /\ sgst_value (hw (snd (dis_dev_get_poll left i s))) = sgst_value (hw s)
  /\ (fst (dis_dev_get_poll left i s) = true ->
      exists p,
        dis_dev (vars (snd (dis_dev_get_poll left i s))) = Some p
        /\ dis_dev (vars (get_dis_dev (snd (dis_dev_get_poll left i s))))
           = Some p)
  /\ (fst (dis_dev_get_poll left i s) = false ->
      dis_dev (vars (get_dis_dev (snd (dis_dev_get_poll left i s)))) = None).
Proof.
  intros Hk. revert i s.
  induction left as [ | left IH]; intros i s Hi Hl Hd; [lia | ].
  cbn [dis_dev_get_poll]. rewrite Hd.
  set (s1 := get_dis_dev (do_msleep 500 s)).
  assert (Hx1 : extends_by quiet s s1).
  { exists (attempt s). split; [ | reflexivity].
    unfold s1. rewrite trace_get_dis_dev. reflexivity. }
  assert (Hs1 : sgst_value (hw s1) = sgst_value (hw s)).
  { unfold s1. rewrite hw_get_dis_dev. cbn [do_msleep log with_hw hw].
    apply Hk. }
  assert (Hd1 : dis_dev (vars (get_dis_dev s1)) = dis_dev (vars s1)).
  { unfold s1. apply get_dis_dev_twice. }
  assert (Hend : forall b : bool,
            (if b then true else false) = b) by (intros []; reflexivity).
  destruct (dis_dev (vars s1)) as [p | ] eqn:E1.
  - assert (Hres : (if i + 1 >? 4 then (true, s1)
                    else dis_dev_get_poll left (i + 1) s1) = (true, s1)).
    { destruct (i + 1 >? 4); [reflexivity | ].
      apply dis_dev_get_poll_located. congruence. }
    rewrite Hres. cbn [fst snd].
    split; [exact Hx1 | ]. split; [exact Hs1 | ]. split.
    + intros _. exists p. split; [exact E1 | exact Hd1].
    + discriminate.
  - destruct (i + 1 >? 4) eqn:E.
    + cbn [fst snd]. split; [exact Hx1 | ]. split; [exact Hs1 | ]. split.
      * discriminate.
      * intros _. exact Hd1.
    + rewrite Z.gtb_ltb in E. apply Z.ltb_ge in E.
      destruct (IH (i + 1) s1) as (Hx & Hs & Ht & Hf); try lia;
        [exact E1 | ].
      split; [apply (extends_by_trans quiet s s1); assumption | ].
      split; [congruence | ]. split; assumption.
Qed.

Lemma dis_dev_get_settles (s : sys W) :
  sleep_keeps_status -> status_answers ->
  exists s' ob l,
    dis_dev_get s = Ret tt s' /\ settled ob s'
    /\ trace s' = bridge_call EvPmGet ob ++ l ++ trace s
    /\ forallb quiet l = true
    /\ (reports_on (hw s) -> reports_on (hw s')).
Proof.
  intros Hk Ha. pose proof (Ha (hw s)) as Has.
  destruct (sgst_value (hw s)) as [v | ] eqn:Hs; [ | congruence].
  destruct (Z_lt_le_dec 0 v) as [Hv | Hv].
  - unfold dis_dev_get, bind.
    rewrite (is_card_disabled_on s v Hs Hv). cbv zeta.
    set (s2 := get_dis_dev (log (EvEvaluate PEGP "SGST") s)).
    assert (Ht2 : trace s2
                  = [EvPciGet (vendor (vars s)) (device (vars s));
                     EvEvaluate PEGP "SGST"] ++ trace s).
    { unfold s2. rewrite trace_get_dis_dev. reflexivity. }
    assert (Hw2 : hw s2 = hw s) by (unfold s2; rewrite hw_get_dis_dev; reflexivity).
    assert (Hon2 : reports_on (hw s2)).
    { rewrite Hw2. exists v. split; assumption. }
    assert (Hclose : forall (s3 : sys W) (p : pci_dev) l3,
              trace s3 = l3 ++ trace s -> forallb quiet l3 = true ->
              reports_on (hw s3) ->
              dis_dev (vars s3) = Some p ->
              dis_dev (vars (get_dis_dev s3)) = Some p ->
              exists s' ob l,
                (p0 <- deref_dis_dev ;;
                 (fun s4 => match pdev_bridge (hw s4) p0 with
                            | Some bridge => pm_runtime_get_sync bridge s4
                            | None => Ret tt s4
                            end))%drv s3 = Ret tt s'
                /\ settled ob s'
                /\ trace s' = bridge_call EvPmGet ob ++ l ++ trace s
                /\ forallb quiet l = true
                /\ (reports_on (hw s) -> reports_on (hw s'))).
    { intros s3 p l3 Ht3 Q3 Hon3 Hd3 Hd3'.
      unfold bind, deref_dis_dev. rewrite Hd3.
      destruct (pdev_bridge (hw s3) p) as [bridge | ] eqn:Eb.
      - exists (log (EvPmGet bridge) s3), (Some bridge), l3.
        split; [reflexivity | ]. split; [ | split; [ | split]].
        + apply settled_log. right. right. split; [exact Hon3 | ].
          exists p. repeat split; assumption.
        + cbn [log trace bridge_call app]. rewrite Ht3. reflexivity.
        + exact Q3.
        + intros _. exact Hon3.
      - exists s3, None, l3.
        split; [reflexivity | ]. split; [ | split; [ | split]].
        + right. right. split; [exact Hon3 | ].
          exists p. repeat split; assumption.
        + exact Ht3.
        + exact Q3.
        + intros _. exact Hon3. }
    destruct (dis_dev (vars s2)) as [p | ] eqn:E2.
    + cbn [Z.ltb Z.compare].
      rewrite (dis_dev_get_poll_located 5 0 s2) by congruence.
      apply (Hclose s2 p _ Ht2 eq_refl Hon2 E2).
      unfold s2. rewrite get_dis_dev_twice. exact E2.
    + cbn [Z.ltb Z.compare].
      destruct (dis_dev_get_poll_settles 5 0 s2 Hk) as (Hx & Hsg & Ht & Hf);
        try lia; [exact E2 | ].
      destruct (dis_dev_get_poll 5 0 s2) as [go s3]. cbn [fst snd] in *.
      destruct Hx as (l3 & Ht3 & Q3).
      assert (Ht3' : trace s3
                = (l3 ++ [EvPciGet (vendor (vars s)) (device (vars s));
                          EvEvaluate PEGP "SGST"]) ++ trace s).
      { rewrite Ht3, Ht2, <- app_assoc. reflexivity. }
      assert (Q3' : forallb quiet
                (l3 ++ [EvPciGet (vendor (vars s)) (device (vars s));
                        EvEvaluate PEGP "SGST"]) = true).
      { rewrite forallb_app, Q3. reflexivity. }
      assert (Hon3 : reports_on (hw s3)).
      { unfold reports_on. rewrite Hsg. exact Hon2. }
      destruct go.
      * destruct (Ht eq_refl) as (p & Hd3 & Hd3').
        apply (Hclose s3 p _ Ht3' Q3' Hon3 Hd3 Hd3').
      * exists s3, None, (l3 ++ [EvPciGet (vendor (vars s)) (device (vars s));
                                 EvEvaluate PEGP "SGST"]).
        split; [reflexivity | ]. split; [ | split; [ | split]].
        -- right. left. split; [exact Hon3 | ].
           split; [apply Hf; reflexivity | reflexivity].
        -- exact Ht3'.
        -- exact Q3'.
        -- intros _. exact Hon3.
  - unfold dis_dev_get, bind. rewrite (is_card_disabled_off s v Hs Hv).
    cbn [Z.ltb Z.compare].
    exists (log (EvEvaluate PEGP "SGST") s), None, [EvEvaluate PEGP "SGST"].
    split; [reflexivity | ]. split; [ | split; [ | split]].
    + left. split; [ | reflexivity]. exists v. split; assumption.
    + reflexivity.
    + reflexivity.
    + intros (v' & Hs' & Hv'). cbn [log hw] in *.
      rewrite Hs in Hs'. injection Hs' as <-. lia.
Qed.

(** X18.  On a machine whose status query always answers and is not
    changed by sleeping, a status read takes and releases the bridge
    reference in pairs, whatever the state it starts in; so does a write of
    at least three bytes that begin with neither [OFF] nor [ON]. *)
Theorem passive_operations_are_paired (stack b : string) (s : sys W) :
  sleep_keeps_status -> status_answers ->
  paired s (bbswitch_proc_show s)
  /\ ((3 <= String.length b)%nat ->
      String.prefix "OFF" b = false -> String.prefix "ON" b = false ->
      paired s (bbswitch_proc_write stack (Some b) s)).
Proof.
  intros Hk Ha.
  destruct (dis_dev_get_settles s Hk Ha) as (s1 & ob & l1 & E1 & S1 & T1 & Q1 & _).
  split.
  - destruct (is_card_disabled_settled ob s1 S1)
      as (st & s2 & E2 & S2 & (l2 & T2 & Q2) & _).
    destruct (dis_dev_put_settled ob s2 S2) as (s3 & l3 & E3 & T3 & Q3).
    apply (bracket_paired ob l1 (l3 ++ l2)).
    + unfold bbswitch_proc_show, bind. rewrite E1, E2, E3. cbn [final ret].
      rewrite T3, T2, T1, <- !app_assoc. reflexivity.
    + exact Q1.
    + rewrite forallb_app, Q3, Q2. reflexivity.
  - intros Hlen Hoff Hon.
    rewrite (bbswitch_proc_write_command stack b s Hlen), Hoff, Hon.
    destruct (dis_dev_put_settled ob s1 S1) as (s3 & l3 & E3 & T3 & Q3).
    apply (bracket_paired ob l1 l3).
    + unfold bind, ret. rewrite E1. cbv beta iota. rewrite E3. cbn [final].
      rewrite T3, T1. reflexivity.
    + exact Q1.
    + exact Q3.
Qed.

(** ** Suspend-prepare *)

Lemma settled_memory (ob : option pci_dev) (z : Z) (s : sys W) :
  settled ob s -> settled ob (with_vars (set_before_suspend z) s).
Proof.
  unfold settled. rewrite !dis_dev_get_dis_dev.
  cbn [with_vars vars hw set_before_suspend vendor device dis_dev].
  intros H. exact H.
Qed.

Lemma quiet_read (l : list event) :
  forallb quiet l = true -> forallb read_event l = true.
Proof.
  rewrite !forallb_forall. intros H e He. specialize (H e He).
  unfold quiet in H. apply andb_prop in H. apply H.
Qed.

Lemma bridge_call_read (call : pci_dev -> event) (ob : option pci_dev) :
  (forall b, read_event (call b) = true) ->
  forallb read_event (bridge_call call ob) = true.
Proof.
  intros H. destruct ob as [b | ]; cbn; [rewrite H | ]; reflexivity.
Qed.

(** X19.  On a machine whose status query always answers and is not
    changed by sleeping, a suspend-prepare event that finds the card
    reported on returns 0 without evaluating [_ON], [_OFF] or [_DSM], with
    the bridge reference taken and released in pairs, and records a status
    below 1 (on or indeterminate) as the suspend memory. *)
Theorem prepare_with_card_on (e : pm_event) (s : sys W) :
  sleep_keeps_status -> status_answers ->
  reports_on (hw s) -> is_prepare e = true ->
  exists s',
    bbswitch_pm_handler e s = Ret 0 s'
    /\ paired s (bbswitch_pm_handler e s)
    /\ forallb read_event (new_events s s') = true
    /\ dis_before_suspend_disabled (vars s') < 1.
Proof.
  intros Hk Ha Hon He.
  destruct (dis_dev_get_settles s Hk Ha)
    as (s1 & ob & l1 & E1 & S1 & T1 & Q1 & Hon1).
  specialize (Hon1 Hon).
  destruct (is_card_disabled_settled ob s1 S1)
    as (st & s2 & E2 & S2 & (l2 & T2 & Q2) & _ & _ & Hlt).
  specialize (Hlt Hon1).
  set (s3 := with_vars (set_before_suspend st) s2).
  assert (S3 : settled ob s3) by (apply settled_memory; exact S2).
  assert (Hon3 : reports_on (hw s3)).
  { change (hw s3) with (hw s2).
    pose proof (hw_is_card_disabled s1) as Hw. rewrite E2 in Hw.
    cbn [final] in Hw. unfold reports_on. rewrite Hw. exact Hon1. }
  destruct (bbswitch_on_settled ob s3 S3 Hon3) as (s4 & E4 & S4 & (l4 & T4 & Q4)).
  destruct (dis_dev_put_settled ob s4 S4) as (s5 & l5 & E5 & T5 & Q5).
  assert (Hrun : (_ <- dis_dev_get ;;
                  st <- is_card_disabled ;;
                  _ <- lift (with_vars (set_before_suspend st)) ;;
                  _ <- bbswitch_on ;;
                  _ <- dis_dev_put ;;
                  ret 0)%drv s = Ret 0 s5).
  { unfold bind. rewrite E1, E2. unfold lift. fold s3. rewrite E4, E5.
    reflexivity. }
  assert (Hh : bbswitch_pm_handler e s = Ret 0 s5).
  { destruct e; try discriminate He; exact Hrun. }
  assert (T : trace s5
              = bridge_call EvPmPut ob ++ (l5 ++ l4 ++ l2)
                ++ bridge_call EvPmGet ob ++ l1 ++ trace s).
  { rewrite T5, T4. change (trace s3) with (trace s2).
    rewrite T2, T1, <- !app_assoc. reflexivity. }
  assert (Q : forallb quiet (l5 ++ l4 ++ l2) = true).
  { rewrite !forallb_app, Q5, Q4, Q2. reflexivity. }
  exists s5. split; [exact Hh | ]. split; [ | split].
  - apply (bracket_paired ob l1 (l5 ++ l4 ++ l2)).
    + rewrite Hh. exact T.
    + exact Q1.
    + exact Q.
  - rewrite (new_events_app s s5
               (bridge_call EvPmPut ob ++ (l5 ++ l4 ++ l2)
                ++ bridge_call EvPmGet ob ++ l1))
      by (rewrite T, <- !app_assoc; reflexivity).
    rewrite !forallb_app.
    rewrite (bridge_call_read EvPmPut ob) by reflexivity.
    rewrite (bridge_call_read EvPmGet ob) by reflexivity.
    rewrite (quiet_read _ Q5), (quiet_read _ Q4), (quiet_read _ Q2),
      (quiet_read _ Q1).
    reflexivity.
  - assert (Hlog : forall ev (s0 : sys W),
               dis_before_suspend_disabled (vars (log ev s0))
               = dis_before_suspend_disabled (vars s0)) by reflexivity.
    pose proof (preserves_bbswitch_on
                  (fun a b => dis_before_suspend_disabled (vars b)
                              = dis_before_suspend_disabled (vars a))
                  (fun _ => eq_refl)
                  (fun a b c H1 H2 => eq_trans H2 H1)
                  (fun _ _ => eq_refl) (fun _ _ => eq_refl)
                  (fun _ _ => eq_refl) s3) as H4.
    pose proof (preserves_dis_dev_put
                  (fun a b => dis_before_suspend_disabled (vars b)
                              = dis_before_suspend_disabled (vars a))
                  (fun _ => eq_refl)
                  (fun a b c H1 H2 => eq_trans H2 H1)
                  (fun _ _ => eq_refl)
                  (fun _ _ => eq_refl) s4) as H5.
    rewrite E4 in H4. rewrite E5 in H5. cbn [final] in H4, H5.
    rewrite H5, H4. exact Hlt.
Qed.

(** X20.  The suspend memory left by a prepare event is the status queried
    after [dis_dev_get], one of 1, 0 and -1, however the rest of the event
    goes; with -1 (indeterminate) it is non-zero, which the post event takes
    for "off before suspend". *)
Theorem prepare_records_status (e : pm_event) (s s1 : sys W) (st : Z) :
  is_prepare e = true ->
  dis_dev_get s = Ret tt s1 ->
  value (is_card_disabled s1) = Some st ->
  dis_before_suspend_disabled (vars (final (bbswitch_pm_handler e s))) = st
  /\ (st = 1 \/ st = 0 \/ st = -1).
Proof.
  intros He E1 Hst. split; [ | apply (is_card_disabled_values s1 st Hst)].
  assert (Hrun : dis_before_suspend_disabled
                   (vars (final ((_ <- dis_dev_get ;;
                                  st <- is_card_disabled ;;
                                  _ <- lift (with_vars (set_before_suspend st)) ;;
                                  _ <- bbswitch_on ;;
                                  _ <- dis_dev_put ;;
                                  ret 0)%drv s))) = st).
  { unfold bind at 1. rewrite E1. unfold bind at 1.
    destruct (is_card_disabled s1) as [st' s2 | f s2]; [ | discriminate].
    cbn [value] in Hst. injection Hst as ->.
    unfold bind at 1. unfold lift.
    set (s3 := with_vars (set_before_suspend st) s2).
    pose proof (preserves_bind
                  (fun a b => dis_before_suspend_disabled (vars b)
                              = dis_before_suspend_disabled (vars a))
                  (fun a b c H1 H2 => eq_trans H2 H1)
                  bbswitch_on
                  (fun _ => (_ <- dis_dev_put ;; ret 0)%drv)) as Hp.
    rewrite Hp; [reflexivity | | ].
    - apply preserves_bbswitch_on; try reflexivity.
      intros a b c H1 H2. exact (eq_trans H2 H1).
    - intros _. apply preserves_bind.
      + intros a b c H1 H2. exact (eq_trans H2 H1).
      + apply preserves_dis_dev_put; try reflexivity.
        intros a b c H1 H2. exact (eq_trans H2 H1).
      + intros _ s0. reflexivity. }
  destruct e; try discriminate He; exact Hrun.
Qed.

(** ** Loading and unloading *)

Lemma acpi_call_dsm_final (handle : acpi_handle) (muid : list byte)
    (revid func : Z) (args : option (list byte)) (result : option Z)
    (s : sys W) :
  final (acpi_call_dsm handle muid revid func args result s)
  = log (EvDsm handle muid revid func (arg_block (hw s) args))
        (with_hw (fst (evaluate_dsm (hw s) handle muid revid func
                         (arg_block (hw s) args))) s).
Proof.
  rewrite acpi_call_dsm_unfold. cbv zeta.
  destruct (negb _); [reflexivity | ].
  destruct (snd (snd _)) as [[v | pointer | type] | ]; reflexivity.
Qed.

Lemma handle_has_dsm_func_final (handle : acpi_handle) (muid : list byte)
    (revid sfnc : Z) (s : sys W) :
  final (handle_has_dsm_func handle muid revid sfnc s)
  = final (acpi_call_dsm handle muid revid 0 None (Some 0) s).
Proof.
  unfold handle_has_dsm_func, bind.
  destruct (acpi_call_dsm handle muid revid 0 None (Some 0) s)
    as [r s1 | f s1]; [ | reflexivity].
  destruct (negb (fst r =? 0)); [reflexivity | ].
  unfold dsm_mask_test. destruct (Z.land _ 1 =? 0); [reflexivity | ].
  destruct (shl_int 1 sfnc); reflexivity.
Qed.

Lemma handle_has_dsm_func_returns (handle : acpi_handle) (muid : list byte)
    (revid sfnc : Z) (s : sys W) :
  dsm_answers -> 0 <= sfnc < 32 ->
  returns (handle_has_dsm_func handle muid revid sfnc) s.
Proof.
  intros Hd Hi. unfold returns, handle_has_dsm_func, bind.
  rewrite acpi_call_dsm_unfold. cbv zeta.
  specialize (Hd (hw s) handle muid revid 0 (arg_block (hw s) None)).
  destruct (s32 (fst (snd (evaluate_dsm (hw s) handle muid revid 0
                             (arg_block (hw s) None)))) =? 0) eqn:E.
  - apply Z.eqb_eq in E. specialize (Hd E). cbn [negb].
    destruct (snd (snd (evaluate_dsm (hw s) handle muid revid 0
                          (arg_block (hw s) None))))
      as [[v | pointer | type] | ]; [ | | | congruence];
      cbn [fst snd Z.eqb negb];
      rewrite dsm_mask_test_spec by exact Hi; eexists; eexists; reflexivity.
  - cbn [negb fst]. rewrite E. cbn [negb]. eexists; eexists; reflexivity.
Qed.

Lemma continues_handle_has_dsm_func (q : event -> bool)
    (handle : acpi_handle) (muid : list byte) (revid sfnc : Z) (s : sys W) :
  (forall e, is_dsm e = true -> q e = true) ->
  continues q 0 s (final (handle_has_dsm_func handle muid revid sfnc s)).
Proof.
  intros Hq. rewrite handle_has_dsm_func_final, acpi_call_dsm_final.
  exists [EvDsm handle muid revid 0 (arg_block (hw s) None)].
  split; [reflexivity | split; [ | cbn; lia]].
  cbn [forallb]. rewrite Hq by reflexivity. reflexivity.
Qed.

Lemma vars_handle_has_dsm_func (handle : acpi_handle) (muid : list byte)
    (revid sfnc : Z) (s : sys W) :
  vars (final (handle_has_dsm_func handle muid revid sfnc s)) = vars s.
Proof. rewrite handle_has_dsm_func_final, acpi_call_dsm_final. reflexivity. Qed.

Lemma continues_with_vars (q : event -> bool) (f : globals -> globals)
    (s : sys W) :
  continues q 0 s (with_vars f s).
Proof. exists []. split; [reflexivity | split; [reflexivity | cbn; lia]]. Qed.

Section Scan.

Variable q : event -> bool.
Hypothesis q_read : forall e, read_event e = true -> q e = true.
Hypothesis q_dsm : forall e, is_dsm e = true -> q e = true.

Lemma continues_bbswitch_init_scan (bus : list pci_function) :
  forall (igd_handle : acpi_handle) (s : sys W),
    continues q 0 s (final (bbswitch_init_scan bus igd_handle s)).
Proof.
  assert (Hstep : forall s0 : sys W,
            continues q 0 s0 (log (EvPciGet PCI_ANY_ID PCI_ANY_ID) s0)).
  { intros s0. apply continues_log; [apply q_read | ]; reflexivity. }
  induction bus as [ | pdev rest IH]; intros igd_handle s;
    cbn [bbswitch_init_scan].
  - apply Hstep.
  - set (s1 := log (EvPciGet PCI_ANY_ID PCI_ANY_ID) s).
    assert (Hnext : forall igd,
              continues q 0 s (final (bbswitch_init_scan rest igd s1))).
    { intros igd. apply (continues_trans q 0 0 s s1); [apply Hstep | apply IH]. }
    destruct (negb _ && negb _); [apply Hnext | ].
    destruct (pf_handle pdev =? 0); [apply Hnext | ].
    destruct (pf_vendor pdev =? PCI_VENDOR_ID_INTEL); [apply Hnext | ].
    apply (continues_trans q 0 0 s s1); [apply Hstep | ].
    apply (continues_bind q 0 0).
    + intros s0. apply continues_handle_has_dsm_func. exact q_dsm.
    + intros found s0. destruct (negb (found =? 0)); [ | apply IH].
      apply (continues_bind q 0 0); [intros; apply continues_with_vars | ].
      intros _. apply IH.
Qed.

Lemma continues_has_dsm_func (muid : list byte) (revid sfnc : Z)
    (s : sys W) :
  continues q 0 s (final (has_dsm_func muid revid sfnc s)).
Proof. apply continues_handle_has_dsm_func. exact q_dsm. Qed.

Lemma continues_bbswitch_init_dsm (igd_handle : acpi_handle) (s : sys W) :
  continues q 0 s (final (bbswitch_init_dsm igd_handle s)).
Proof.
  unfold bbswitch_init_dsm.
  apply (continues_bind q 0 0).
  { intros s0. destruct (skip_optimus_dsm (vars s));
      [apply continues_refl | apply continues_has_dsm_func]. }
  intros optimus s0. destruct (negb (optimus =? 0)).
  { apply (continues_bind q 0 0); [intros; apply continues_with_vars | ].
    intros; apply continues_refl. }
  apply (continues_bind q 0 0); [apply continues_has_dsm_func | ].
  intros nvidia s1. destruct (negb (nvidia =? 0)).
  { apply (continues_bind q 0 0); [intros; apply continues_with_vars | ].
    intros; apply continues_refl. }
  apply (continues_bind q 0 0); [intros; apply continues_with_vars | ].
  intros _ s2. destruct (igd_handle =? 0); [apply continues_refl | ].
  apply (continues_bind q 0 0); [apply continues_has_dsm_func | ].
  intros nvidia' s3. destruct (negb (nvidia' =? 0)); [ | apply continues_refl].
  apply (continues_bind q 0 0); [intros; apply continues_with_vars | ].
  intros; apply continues_refl.
Qed.

End Scan.

Lemma bind_ret_inv {A B} (m : M W A) (k : A -> M W B) (s s' : sys W)
    (b : B) :
  bind m k s = Ret b s' ->
  exists a s1, m s = Ret a s1 /\ k a s1 = Ret b s'.
Proof.
  unfold bind. destruct (m s) as [a s1 | f s1]; [ | discriminate].
  intros H. exists a, s1. split; [reflexivity | exact H].
Qed.

Lemma returns_lift (f : sys W -> sys W) (s : sys W) : returns (lift f) s.
Proof. exists tt, (f s). reflexivity. Qed.

Lemma repeat_shift {A} (a : A) (n : nat) (l : list A) :
  repeat a n ++ a :: l = a :: repeat a n ++ l.
Proof.
  induction n as [ | n IH]; [reflexivity | ].
  cbn [repeat app]. rewrite IH. reflexivity.
Qed.

Lemma bbswitch_init_scan_skips (bus : list pci_function) :
  forallb (fun pdev => negb (is_candidate pdev)) bus = true ->
  forall (igd_handle : acpi_handle) (s : sys W),
    exists igd s',
      bbswitch_init_scan bus igd_handle s = Ret igd s'
      /\ vars s' = vars s /\ hw s' = hw s
      /\ trace s'
         = repeat (EvPciGet PCI_ANY_ID PCI_ANY_ID) (S (List.length bus))
           ++ trace s.
Proof.
  induction bus as [ | pdev rest IH]; intros H igd_handle s;
    cbn [bbswitch_init_scan].
  - eexists; eexists. repeat split.
  - cbn [forallb] in H. apply andb_prop in H as [Hc Hr].
    unfold is_candidate in Hc. cbv zeta in *.
    destruct (Z.shiftr (pf_class pdev) 8 =? PCI_CLASS_DISPLAY_VGA),
             (Z.shiftr (pf_class pdev) 8 =? PCI_CLASS_DISPLAY_3D),
             (pf_handle pdev =? 0), (pf_vendor pdev =? PCI_VENDOR_ID_INTEL);
      cbn in Hc; try discriminate Hc; cbn [negb andb];
      match goal with
      | |- exists _ _, bbswitch_init_scan rest ?i ?s1 = _ /\ _ =>
          destruct (IH Hr i s1) as (igd & s' & E & Hv & Hh & Ht)
      end;
      exists igd, s'; (split; [exact E | ]);
      (split; [exact Hv | ]); (split; [exact Hh | ]);
      rewrite Ht; cbn [trace log List.length];
      rewrite repeat_shift; reflexivity.
Qed.

(** X21.  When no function on the bus is a display controller with an ACPI
    handle and a vendor other than Intel, and no device was recorded before,
    loading returns [-ENODEV]: it walks the whole bus, evaluates nothing,
    registers nothing and leaves its variables as they were. *)
Theorem load_without_candidate (load_state : Z) (bus : list pci_function)
    (proc_created : bool) (s : sys W) :
  dis_dev (vars s) = None ->
  forallb (fun pdev => negb (is_candidate pdev)) bus = true ->
  exists s',
    bbswitch_init load_state bus proc_created s = Ret (- ENODEV, []) s'
    /\ vars s' = vars s /\ hw s' = hw s
    /\ trace s'
       = repeat (EvPciGet PCI_ANY_ID PCI_ANY_ID) (S (List.length bus))
         ++ trace s.
Proof.
  intros Hd Hb.
  destruct (bbswitch_init_scan_skips bus Hb 0 s)
    as (igd & s' & E & Hv & Hh & Ht).
  exists s'. unfold bbswitch_init, bind. rewrite E, Hv, Hd.
  repeat split; assumption.
Qed.

Lemma bbswitch_init_scan_vars (bus : list pci_function) :
  forall (igd_handle : acpi_handle) (s : sys W),
    vars (final (bbswitch_init_scan bus igd_handle s)) = vars s
    \/ exists pdev,
         In pdev bus /\ is_candidate pdev = true
         /\ vars (final (bbswitch_init_scan bus igd_handle s))
            = set_discrete pdev (vars s).
Proof.
  induction bus as [ | pdev rest IH]; intros igd_handle s;
    cbn [bbswitch_init_scan]; [left; reflexivity | ].
  cbv zeta.
  set (s1 := log (EvPciGet PCI_ANY_ID PCI_ANY_ID) s).
  assert (Hnext : forall igd (s2 : sys W),
            vars s2 = vars s ->
            vars (final (bbswitch_init_scan rest igd s2)) = vars s
            \/ exists pdev0,
                 In pdev0 (pdev :: rest) /\ is_candidate pdev0 = true
                 /\ vars (final (bbswitch_init_scan rest igd s2))
                    = set_discrete pdev0 (vars s)).
  { intros igd s2 Hv. destruct (IH igd s2) as [H | (pdev0 & Hin & Hc & H)].
    - left. rewrite H. exact Hv.
    - right. exists pdev0. split; [right; exact Hin | ].
      split; [exact Hc | ]. rewrite H, Hv. reflexivity. }
  destruct (Z.shiftr (pf_class pdev) 8 =? PCI_CLASS_DISPLAY_VGA) eqn:E1,
           (Z.shiftr (pf_class pdev) 8 =? PCI_CLASS_DISPLAY_3D) eqn:E2;
    cbn [negb andb]; try (apply Hnext; reflexivity);
    (destruct (pf_handle pdev =? 0) eqn:E3; [apply Hnext; reflexivity | ]);
    (destruct (pf_vendor pdev =? PCI_VENDOR_ID_INTEL) eqn:E4;
     [apply Hnext; reflexivity | ]);
    (assert (Hc : is_candidate pdev = true)
       by (unfold is_candidate; cbv zeta; rewrite E1, E2, E3, E4;
           reflexivity));
    unfold bind;
    pose proof (vars_handle_has_dsm_func (pf_handle pdev)
                  acpi_optimus_dsm_muid 256 26 s1) as Hv;
    (destruct (handle_has_dsm_func (pf_handle pdev) acpi_optimus_dsm_muid
                 256 26 s1) as [found s2 | f s2];
     cbn [final] in Hv; [ | left; exact Hv]);
    (destruct (negb (found =? 0)); [ | apply Hnext; exact Hv]);
    cbn [lift];
    (destruct (IH igd_handle (with_vars (set_discrete pdev) s2))
       as [H | (pdev0 & Hin & Hc0 & H)];
     right;
     [exists pdev; split; [left; reflexivity | ]; split; [exact Hc | ];
      rewrite H; cbn [with_vars vars]; rewrite Hv; reflexivity
     | exists pdev0; split; [right; exact Hin | ]; split; [exact Hc0 | ];
       rewrite H; cbn [with_vars vars]; rewrite Hv; reflexivity]).
Qed.

Lemma has_dsm_func_vars (muid : list byte) (revid sfnc r : Z)
    (s s' : sys W) :
  has_dsm_func muid revid sfnc s = Ret r s' -> vars s' = vars s.
Proof.
  intros H.
  pose proof (vars_handle_has_dsm_func (dis_handle (vars s)) muid revid sfnc s)
    as Hv.
  unfold has_dsm_func in H. rewrite H in Hv. exact Hv.
Qed.

(** What the choice of [dsm_type] leaves alone, and what it chooses. *)
Lemma bbswitch_init_dsm_choice (igd_handle : acpi_handle) (found : bool)
    (s s' : sys W) :
  bbswitch_init_dsm igd_handle s = Ret found s' ->
  (skip_optimus_dsm (vars s') = skip_optimus_dsm (vars s)
   /\ dis_dev (vars s') = dis_dev (vars s)
   /\ dis_dev_name (vars s') = dis_dev_name (vars s)
   /\ vendor (vars s') = vendor (vars s)
   /\ device (vars s') = device (vars s))
  /\ (dis_handle (vars s') = dis_handle (vars s)
      \/ dis_handle (vars s') = igd_handle)
  /\ (found = true ->
      (dsm_type (vars s') = DSM_TYPE_OPTIMUS
       /\ skip_optimus_dsm (vars s) = false)
      \/ dsm_type (vars s') = DSM_TYPE_NVIDIA)
  /\ (found = false -> dsm_type (vars s') = dsm_type (vars s)).
Proof.
  intros H. unfold bbswitch_init_dsm in H.
  apply bind_ret_inv in H as (optimus & s1 & H1 & H).
  assert (V1 : vars s1 = vars s
               /\ (negb (optimus =? 0) = true
                   -> skip_optimus_dsm (vars s) = false)).
  { destruct (skip_optimus_dsm (vars s)) eqn:Es.
    - injection H1 as <- <-. split; [reflexivity | discriminate].
    - split; [exact (has_dsm_func_vars _ _ _ _ _ _ H1) | reflexivity]. }
  destruct V1 as [V1 Hskip].
  destruct (negb (optimus =? 0)).
  { injection H as <- <-. cbn. rewrite V1.
    repeat split; auto; discriminate. }
  apply bind_ret_inv in H as (nvidia & s2 & H2 & H).
  apply has_dsm_func_vars in H2.
  destruct (negb (nvidia =? 0)).
  { injection H as <- <-. cbn. rewrite H2, V1.
    repeat split; auto; discriminate. }
  cbn [bind lift] in H.
  destruct (igd_handle =? 0).
  { injection H as <- <-. cbn. rewrite H2, V1.
    repeat split; auto; discriminate. }
  apply bind_ret_inv in H as (nvidia' & s3 & H3 & H).
  apply has_dsm_func_vars in H3. cbn in H3.
  destruct (negb (nvidia' =? 0)).
  - injection H as <- <-. cbn. rewrite H3. cbn. rewrite H2, V1.
    repeat split; auto; discriminate.
  - injection H as <- <-. rewrite H3. cbn. rewrite H2, V1.
    repeat split; auto; discriminate.
Qed.

Lemma load_event_read (e : event) : read_event e = true -> load_event e = true.
Proof. intros H. unfold load_event. rewrite H. reflexivity. Qed.

Lemma load_event_dsm (e : event) : is_dsm e = true -> load_event e = true.
Proof. intros H. unfold load_event. rewrite H. apply orb_true_r. Qed.

Lemma continues_apply_state (q : event -> bool) (state : Z) (s : sys W) :
  (forall e, read_event e = true -> q e = true) ->
  (state <> CARD_ON /\ state <> CARD_OFF
   \/ forall e, is_power_call e = true -> q e = true) ->
  continues q 5 s (final (apply_state state s)).
Proof.
  intros Hr Hs. unfold apply_state.
  destruct (state =? CARD_ON) eqn:E1.
  { destruct Hs as [[Hs _] | Hp]; [apply Z.eqb_eq in E1; contradiction | ].
    apply continues_bbswitch_on; assumption. }
  destruct (state =? CARD_OFF) eqn:E2; [ | apply continues_refl].
  destruct Hs as [[_ Hs] | Hp]; [apply Z.eqb_eq in E2; contradiction | ].
  apply (continues_more q 0 5); [lia | ].
  apply continues_bbswitch_off; assumption.
Qed.

Lemma continues_bbswitch_init_finish (q : event -> bool) (load_state : Z)
    (s : sys W) :
  (forall e, read_event e = true -> q e = true) ->
  (load_state <> CARD_ON /\ load_state <> CARD_OFF
   \/ forall e, is_power_call e = true -> q e = true) ->
  continues q 10 s (final (bbswitch_init_finish load_state s)).
Proof.
  intros Hr Hs. unfold bbswitch_init_finish.
  apply (continues_bind q 5 5);
    [intros; apply continues_dis_dev_get; exact Hr | intros _].
  apply (continues_bind q 0 5);
    [intros; apply continues_is_card_disabled; exact Hr | intros st].
  apply (continues_bind q 0 5).
  { intros s0. destruct (st <? 1); [ | apply continues_refl].
    apply (continues_bind q 0 0); [intros; apply continues_deref | ].
    intros; apply continues_refl. }
  intros enabled.
  apply (continues_bind q 5 0);
    [intros; apply continues_apply_state; assumption | intros _].
  apply (continues_bind q 0 0);
    [intros; apply continues_is_card_disabled; exact Hr | intros _].
  apply (continues_bind q 0 0);
    [intros; apply continues_dis_dev_put; exact Hr | intros _].
  intros; apply continues_refl.
Qed.

Lemma continues_bbswitch_exit (q : event -> bool) (unload_state : Z)
    (s : sys W) :
  (forall e, read_event e = true -> q e = true) ->
  (unload_state <> CARD_ON /\ unload_state <> CARD_OFF
   \/ forall e, is_power_call e = true -> q e = true) ->
  continues q 10 s (final (bbswitch_exit unload_state s)).
Proof.
  intros Hr Hs. unfold bbswitch_exit.
  apply (continues_bind q 5 5);
    [intros; apply continues_dis_dev_get; exact Hr | intros _].
  apply (continues_bind q 5 0);
    [intros; apply continues_apply_state; assumption | intros _].
  apply (continues_bind q 0 0);
    [intros; apply continues_is_card_disabled; exact Hr | intros _].
  apply (continues_bind q 0 0);
    [intros; apply continues_dis_dev_put; exact Hr | intros _].
  intros; apply continues_refl.
Qed.

Lemma continues_bbswitch_init (q : event -> bool) (load_state : Z)
    (bus : list pci_function) (proc_created : bool) (s : sys W) :
  (forall e, read_event e = true -> q e = true) ->
  (forall e, is_dsm e = true -> q e = true) ->
  (load_state <> CARD_ON /\ load_state <> CARD_OFF
   \/ forall e, is_power_call e = true -> q e = true) ->
  continues q 10 s (final (bbswitch_init load_state bus proc_created s)).
Proof.
  intros Hr Hd Hs. unfold bbswitch_init.
  apply (continues_bind q 0 10);
    [intros; apply continues_bbswitch_init_scan; assumption | ].
  intros igd s1. destruct (dis_dev (vars s1)); [ | apply continues_refl].
  apply (continues_bind q 0 10);
    [intros; apply continues_bbswitch_init_dsm; assumption | ].
  intros found s2. destruct (negb found); [apply continues_refl | ].
  destruct (negb proc_created); [apply continues_refl | ].
  apply continues_bbswitch_init_finish; assumption.
Qed.

(** X22.  Loading and unloading make only the calls of a status read,
    [_OFF] and [_ON] under [\_SB.PCI0.GPP0.PG00] and, while loading, [_DSM];
    every sleep lasts 500 ms and there are at most ten of them. *)
Theorem load_and_unload_are_bounded (load_state unload_state : Z)
    (bus : list pci_function) (proc_created : bool) (s : sys W) :
  (forallb (fun e => entry_event e || is_dsm e)
     (new_events s (final (bbswitch_init load_state bus proc_created s)))
   = true
   /\ (sleeps (new_events s
                 (final (bbswitch_init load_state bus proc_created s)))
       <= 10)%nat)
  /\ (forallb entry_event
        (new_events s (final (bbswitch_exit unload_state s))) = true
      /\ (sleeps (new_events s (final (bbswitch_exit unload_state s)))
          <= 10)%nat).
Proof.
  assert (Hr : forall e0, read_event e0 = true -> entry_event e0 = true).
  { intros e0 H. unfold entry_event. rewrite H. reflexivity. }
  assert (Hp : forall e0, is_power_call e0 = true -> entry_event e0 = true).
  { intros e0 H. unfold entry_event. rewrite H. apply orb_true_r. }
  split.
  - assert (H1 : forall e, read_event e = true
                            -> entry_event e || is_dsm e = true)
      by (intros e H; rewrite (Hr e H); reflexivity).
    assert (H2 : forall e, is_dsm e = true
                            -> entry_event e || is_dsm e = true)
      by (intros e H; rewrite H; apply orb_true_r).
    assert (H3 : forall e, is_power_call e = true
                            -> entry_event e || is_dsm e = true)
      by (intros e H; rewrite (Hp e H); reflexivity).
    destruct (continues_bbswitch_init (fun e => entry_event e || is_dsm e)
                load_state bus proc_created s H1 H2 (or_intror H3))
      as (l & Ht & Hq & Hn).
    rewrite (new_events_app _ _ _ Ht). split; assumption.
  - destruct (continues_bbswitch_exit entry_event unload_state s Hr
                (or_intror Hp)) as (l & Ht & Hq & Hn).
    rewrite (new_events_app _ _ _ Ht). split; assumption.
Qed.

Lemma bbswitch_init_finish_value (load_state code : Z) (calls : list kcall)
    (s s' : sys W) :
  bbswitch_init_finish load_state s = Ret (code, calls) s' ->
  code = 0
  /\ exists enabled,
       calls = [ProcCreate] ++ enabled ++ [RegisterPmNotifier]
       /\ (enabled = [] \/ exists p, enabled = [PciEnableDevice p]).
Proof.
  intros H. unfold bbswitch_init_finish in H.
  apply bind_ret_inv in H as (u1 & s1 & _ & H).
  apply bind_ret_inv in H as (st & s2 & _ & H).
  apply bind_ret_inv in H as (enabled & s3 & He & H).
  apply bind_ret_inv in H as (u2 & s4 & _ & H).
  apply bind_ret_inv in H as (st' & s5 & _ & H).
  apply bind_ret_inv in H as (u3 & s6 & _ & H).
  injection H as <- <- <-. split; [reflexivity | ].
  exists enabled. split; [reflexivity | ].
  destruct (st <? 1); [ | injection He as <- _; left; reflexivity].
  apply bind_ret_inv in He as (p & s7 & _ & He).
  injection He as <- _. right. exists p. reflexivity.
Qed.

(** How a run of [bbswitch_init] goes: it stops before [dis_dev_get], or
    it ends as [bbswitch_init_finish] does. *)
Lemma bbswitch_init_cases (load_state : Z) (bus : list pci_function)
    (proc_created : bool) (s : sys W) :
  (continues load_event 0 s
     (final (bbswitch_init load_state bus proc_created s))
   /\ forall code calls,
        value (bbswitch_init load_state bus proc_created s)
        = Some (code, calls) ->
        (code = - ENODEV /\ calls = [])
        \/ (code = - ENOMEM /\ calls = [ProcCreate]
            /\ proc_created = false))
  \/ exists igd s1 s2,
       bbswitch_init_scan bus 0 s = Ret igd s1
       /\ dis_dev (vars s1) <> None
       /\ bbswitch_init_dsm igd s1 = Ret true s2
       /\ proc_created = true
       /\ bbswitch_init load_state bus proc_created s
          = bbswitch_init_finish load_state s2.
Proof.
  pose proof (continues_bbswitch_init_scan load_event load_event_read
                load_event_dsm bus 0 s) as C1.
  unfold bbswitch_init, bind.
  destruct (bbswitch_init_scan bus 0 s) as [igd s1 | f s1] eqn:E1;
    cbn [final] in C1.
  2: { left. split; [exact C1 | discriminate]. }
  destruct (dis_dev (vars s1)) as [p | ] eqn:Ep.
  2: { left. split; [exact C1 | ]. intros code calls H.
       injection H as <- <-. left. split; reflexivity. }
  pose proof (continues_bbswitch_init_dsm load_event load_event_dsm igd s1)
    as C2.
  destruct (bbswitch_init_dsm igd s1) as [found s2 | f s2] eqn:E2;
    cbn [final] in C2.
  2: { left. split; [ | discriminate].
       apply (continues_trans _ 0 0 s s1 s2); assumption. }
  assert (C : continues load_event 0 s s2)
    by (apply (continues_trans _ 0 0 s s1 s2); assumption).
  destruct found; cbn [negb].
  - destruct proc_created; cbn [negb].
    + right. exists igd, s1, s2. rewrite Ep.
      split; [reflexivity | ]. split; [discriminate | ].
      split; [exact E2 | ]. split; reflexivity.
    + left. split; [exact C | ]. intros code calls H.
      injection H as <- <-. right. repeat split.
  - left. split; [exact C | ]. intros code calls H.
    injection H as <- <-. left. split; reflexivity.
Qed.

(** X23.  [bbswitch_init] returns 0, [-ENODEV] or [-ENOMEM].  It registers
    the PM notifier only when it returns 0, after the proc entry was created
    and with [dsm_type] set to Optimus or nVidia, to Optimus only if
    [skip_optimus_dsm] is off; before a return of [-ENODEV] it makes no
    kernel call, before [-ENOMEM] only the failed [proc_create]. *)
Theorem load_outcomes (load_state code : Z) (bus : list pci_function)
    (proc_created : bool) (calls : list kcall) (s s' : sys W) :
  bbswitch_init load_state bus proc_created s = Ret (code, calls) s' ->
  (code = 0 /\ proc_created = true
   /\ (exists enabled,
         calls = [ProcCreate] ++ enabled ++ [RegisterPmNotifier]
         /\ (enabled = [] \/ exists p, enabled = [PciEnableDevice p]))
   /\ ((dsm_type (vars s') = DSM_TYPE_OPTIMUS
        /\ skip_optimus_dsm (vars s) = false)
       \/ dsm_type (vars s') = DSM_TYPE_NVIDIA))
  \/ (code = - ENODEV /\ calls = [])
  \/ (code = - ENOMEM /\ calls = [ProcCreate] /\ proc_created = false).
Proof.
  intros H.
  destruct (bbswitch_init_cases load_state bus proc_created s)
    as [[_ Hv] | (igd & s1 & s2 & E1 & Hp & E2 & Hc & E)].
  { right. apply Hv. rewrite H. reflexivity. }
  left. rewrite E in H.
  destruct (bbswitch_init_finish_value _ _ _ _ _ H) as (-> & Hcalls).
  split; [reflexivity | ]. split; [exact Hc | ]. split; [exact Hcalls | ].
  assert (K : keeps_config s2 (final (bbswitch_init_finish load_state s2))).
  { apply (preserves_bbswitch_init_finish keeps_config keeps_config_refl
             keeps_config_trans); intros; repeat split. }
  rewrite H in K. cbn [final] in K. destruct K as (K & _).
  destruct (bbswitch_init_dsm_choice igd true s1 s2 E2)
    as ((Hskip & _) & _ & Hchoice & _).
  assert (S1 : skip_optimus_dsm (vars s1) = skip_optimus_dsm (vars s)).
  { pose proof (bbswitch_init_scan_vars bus 0 s) as V. rewrite E1 in V.
    cbn [final] in V. destruct V as [-> | (pdev & _ & _ & ->)]; reflexivity. }
  rewrite K, <- S1. apply Hchoice. reflexivity.
Qed.

(** X24.  When [bbswitch_init] starts with no device recorded and returns
    0, the vendor, the device id and the name it keeps are those of a
    function on the bus that is a display controller with an ACPI handle and
    a vendor other than Intel; the name is cut to 15 characters. *)
Theorem load_selects_candidate (load_state : Z) (bus : list pci_function)
    (proc_created : bool) (calls : list kcall) (s s' : sys W) :
  dis_dev (vars s) = None ->
  bbswitch_init load_state bus proc_created s = Ret (0, calls) s' ->
  exists pdev,
    In pdev bus /\ is_candidate pdev = true
    /\ vendor (vars s') = pf_vendor pdev
    /\ device (vars s') = pf_device pdev
    /\ dis_dev_name (vars s') = substring 0 15 (pf_name pdev).
Proof.
  intros Hd H.
  destruct (bbswitch_init_cases load_state bus proc_created s)
    as [[_ Hv] | (igd & s1 & s2 & E1 & Hp & E2 & Hc & E)].
  { rewrite H in Hv.
    destruct (Hv 0 calls eq_refl) as [[Hz _] | [Hz _]]; discriminate Hz. }
  rewrite E in H.
  assert (K : keeps_config s2 (final (bbswitch_init_finish load_state s2))).
  { apply (preserves_bbswitch_init_finish keeps_config keeps_config_refl
             keeps_config_trans); intros; repeat split. }
  rewrite H in K. cbn [final] in K.
  destruct K as (_ & _ & _ & Kn & Kv & Kd).
  destruct (bbswitch_init_dsm_choice igd true s1 s2 E2)
    as ((_ & _ & Hn & Hv & Hdv) & _).
  pose proof (bbswitch_init_scan_vars bus 0 s) as V. rewrite E1 in V.
  cbn [final] in V. destruct V as [V | (pdev & Hin & Hcand & V)].
  { rewrite V in Hp. contradiction. }
  exists pdev. split; [exact Hin | ]. split; [exact Hcand | ].
  rewrite Kn, Kv, Kd, Hn, Hv, Hdv, V. repeat split.
Qed.

(** X25.  Loading with a [load_state] other than 0 and 1, and loading that
    returns an error, whatever [load_state] is, evaluate no [_ON] and no
    [_OFF]; unloading with an [unload_state] other than 0 and 1 makes only
    the calls of a status read. *)
Theorem unchanged_state_makes_no_power_call (load_state unload_state : Z)
    (bus : list pci_function) (proc_created : bool) (s : sys W) :
  (load_state <> CARD_ON /\ load_state <> CARD_OFF
   \/ exists code calls,
        value (bbswitch_init load_state bus proc_created s)
        = Some (code, calls) /\ code <> 0) ->
  unload_state <> CARD_ON -> unload_state <> CARD_OFF ->
  forallb load_event
    (new_events s (final (bbswitch_init load_state bus proc_created s)))
  = true
  /\ forallb read_event
       (new_events s (final (bbswitch_exit unload_state s))) = true.
Proof.
  intros Hl Hon Hoff. split.
  - assert (C : continues load_event 10 s
                  (final (bbswitch_init load_state bus proc_created s))).
    { destruct Hl as [Hl | (code & calls & Hv & Hz)].
      - apply continues_bbswitch_init;
          [apply load_event_read | apply load_event_dsm | left; exact Hl].
      - destruct (bbswitch_init_cases load_state bus proc_created s)
          as [[C _] | (igd & s1 & s2 & _ & _ & _ & _ & E)].
        + apply (continues_more _ 0 10); [lia | exact C].
        + rewrite E in Hv.
          destruct (bbswitch_init_finish load_state s2)
            as [[code' calls'] s3 | f s3] eqn:Ef; [ | discriminate Hv].
          injection Hv as -> ->.
          destruct (bbswitch_init_finish_value _ _ _ _ _ Ef) as [Hz' _].
          contradiction. }
    destruct C as (l & Ht & Hq & _).
    rewrite (new_events_app _ _ _ Ht). exact Hq.
  - assert (Hr : forall e, read_event e = true -> read_event e = true)
      by auto.
    destruct (continues_bbswitch_exit read_event unload_state s Hr
                (or_introl (conj Hon Hoff))) as (l & Ht & Hq & _).
    rewrite (new_events_app _ _ _ Ht). exact Hq.
Qed.

(** *** Loading and unloading return *)

Lemma bbswitch_init_scan_returns (bus : list pci_function) :
  dsm_answers ->
  forall (igd_handle : acpi_handle) (s : sys W),
    returns (bbswitch_init_scan bus igd_handle) s.
Proof.
  intros Hd. induction bus as [ | pdev rest IH]; intros igd_handle s;
    unfold returns; cbn [bbswitch_init_scan]; cbv zeta.
  - eexists; eexists; reflexivity.
  - destruct (negb _ && negb _); [apply IH | ].
    destruct (pf_handle pdev =? 0); [apply IH | ].
    destruct (pf_vendor pdev =? PCI_VENDOR_ID_INTEL); [apply IH | ].
    apply returns_bind.
    + apply handle_has_dsm_func_returns; [exact Hd | lia].
    + intros found s1 _. destruct (negb (found =? 0)); [ | apply IH].
      apply returns_bind; [apply returns_lift | ]. intros _ s2 _. apply IH.
Qed.

Lemma has_dsm_func_returns (muid : list byte) (revid sfnc : Z) (s : sys W) :
  dsm_answers -> 0 <= sfnc < 32 -> returns (has_dsm_func muid revid sfnc) s.
Proof. intros Hd Hi. apply handle_has_dsm_func_returns; assumption. Qed.

Lemma bbswitch_init_dsm_returns (igd_handle : acpi_handle) (s : sys W) :
  dsm_answers -> returns (bbswitch_init_dsm igd_handle) s.
Proof.
  intros Hd. unfold returns, bbswitch_init_dsm.
  apply returns_bind.
  { destruct (skip_optimus_dsm (vars s));
      [apply returns_ret | apply has_dsm_func_returns; [exact Hd | lia]]. }
  intros optimus s1 _. destruct (negb (optimus =? 0)).
  { apply returns_bind; [apply returns_lift | ].
    intros; apply returns_ret. }
  apply returns_bind; [apply has_dsm_func_returns; [exact Hd | lia] | ].
  intros nvidia s2 _. destruct (negb (nvidia =? 0)).
  { apply returns_bind; [apply returns_lift | ].
    intros; apply returns_ret. }
  apply returns_bind; [apply returns_lift | ].
  intros _ s3 _. destruct (igd_handle =? 0); [apply returns_ret | ].
  apply returns_bind; [apply has_dsm_func_returns; [exact Hd | lia] | ].
  intros nvidia' s4 _. destruct (negb (nvidia' =? 0)); [ | apply returns_ret].
  apply returns_bind; [apply returns_lift | ].
  intros; apply returns_ret.
Qed.

Lemma apply_state_returns (state : Z) (s : sys W) :
  status_answers -> state <> CARD_OFF -> returns (apply_state state) s.
Proof.
  intros Ha Hs. unfold apply_state.
  destruct (state =? CARD_ON); [apply bbswitch_on_returns; exact Ha | ].
  destruct (state =? CARD_OFF) eqn:E; [ | apply returns_ret].
  apply Z.eqb_eq in E. contradiction.
Qed.

Lemma is_card_disabled_answers (s : sys W) :
  status_answers -> returns is_card_disabled s.
Proof.
  intros Ha. destruct (is_card_disabled_returns s Ha) as (st & s' & E & _).
  exists st, s'. exact E.
Qed.

Lemma bbswitch_init_finish_returns (load_state : Z) (s : sys W) :
  status_answers -> load_state <> CARD_OFF -> dis_dev (vars s) <> None ->
  returns (bbswitch_init_finish load_state) s.
Proof.
  intros Ha Hs H.
  assert (Hlog : forall e (s0 : sys W), keeps_reference s0 (log e s0))
    by (intros e s0 H0; exact H0).
  assert (Hhw : forall w (s0 : sys W), keeps_reference s0 (with_hw w s0))
    by (intros w s0 H0; exact H0).
  assert (Hfound : forall pdev (s0 : sys W),
             keeps_reference s0 (with_vars (set_dis_dev (Some pdev)) s0))
    by (intros pdev s0 _; discriminate).
  unfold bbswitch_init_finish.
  apply returns_bind; [apply dis_dev_get_returns; exact Ha | ].
  intros u1 s1 E1.
  pose proof (preserves_dis_dev_get keeps_reference keeps_reference_refl
                keeps_reference_trans Hlog Hhw Hfound s H) as K1.
  rewrite E1 in K1. cbn [final] in K1.
  apply returns_bind; [apply is_card_disabled_answers; exact Ha | ].
  intros st s2 E2.
  pose proof (preserves_is_card_disabled keeps_reference keeps_reference_trans
                Hlog Hfound s1 K1) as K2.
  rewrite E2 in K2. cbn [final] in K2.
  apply returns_bind.
  { destruct (st <? 1); [ | apply returns_ret].
    apply returns_bind; [ | intros; apply returns_ret].
    unfold returns, deref_dis_dev.
    destruct (dis_dev (vars s2)) as [p | ]; [ | contradiction].
    exists p, s2. reflexivity. }
  intros enabled s3 _.
  apply returns_bind; [apply apply_state_returns; assumption | ].
  intros u2 s4 _.
  apply returns_bind; [apply is_card_disabled_answers; exact Ha | ].
  intros st' s5 _.
  apply returns_bind; [apply dis_dev_put_returns; exact Ha | ].
  intros; apply returns_ret.
Qed.

(** X26.  When the status query and every successful [_DSM] evaluation
    give an object, loading with [load_state] other than 0 and unloading
    with [unload_state] other than 0 run to their end: the device that
    [pci_enable_device] is given while loading is never NULL. *)
Theorem load_and_unload_return (load_state unload_state : Z)
    (bus : list pci_function) (proc_created : bool) (s : sys W) :
  status_answers -> dsm_answers ->
  (load_state <> CARD_OFF ->
   returns (bbswitch_init load_state bus proc_created) s)
  /\ (unload_state <> CARD_OFF ->
      value (bbswitch_exit unload_state s)
      = Some [RemoveProcEntry; UnregisterPmNotifier]).
Proof.
  intros Ha Hd. split.
  - intros Hl. unfold bbswitch_init.
    apply returns_bind; [apply bbswitch_init_scan_returns; exact Hd | ].
    intros igd s1 E1. unfold returns.
    destruct (dis_dev (vars s1)) as [p | ] eqn:Ep;
      [ | eexists; eexists; reflexivity].
    apply returns_bind; [apply bbswitch_init_dsm_returns; exact Hd | ].
    intros found s2 E2.
    destruct found; cbn [negb]; [ | apply returns_ret].
    destruct proc_created; cbn [negb]; [ | apply returns_ret].
    apply bbswitch_init_finish_returns; [exact Ha | exact Hl | ].
    destruct (bbswitch_init_dsm_choice igd true s1 s2 E2)
      as ((_ & -> & _) & _).
    rewrite Ep. discriminate.
  - intros Hu.
    assert (R : exists s', bbswitch_exit unload_state s
                           = Ret [RemoveProcEntry; UnregisterPmNotifier] s').
    { unfold bbswitch_exit.
      destruct (dis_dev_get_returns s Ha) as (u1 & s1 & E1).
      destruct (apply_state_returns unload_state s1 Ha Hu) as (u2 & s2 & E2).
      destruct (is_card_disabled_answers s2 Ha) as (st & s3 & E3).
      destruct (dis_dev_put_returns s3 Ha) as (u3 & s4 & E4).
      exists s4. unfold bind. rewrite E1, E2, E3, E4. reflexivity. }
    destruct R as (s' & ->). reflexivity.
Qed.

(** *** The bridge reference while loading and unloading *)

(** X27.  On a machine whose status query always answers and is not
    changed by sleeping, unloading with an [unload_state] other than 0 and 1
    takes and releases the bridge reference in pairs, and so does the end of
    loading with such a [load_state], whatever the state they start in. *)
Theorem unchanged_state_is_paired (state : Z) (s : sys W) :
  sleep_keeps_status -> status_answers ->
  state <> CARD_ON -> state <> CARD_OFF ->
  paired s (bbswitch_exit state s)
  /\ paired s (bbswitch_init_finish state s).
Proof.
  intros Hk Ha Hon Hoff.
  assert (Hnone : apply_state state = ret tt).
  { unfold apply_state.
    destruct (state =? CARD_ON) eqn:E1; [apply Z.eqb_eq in E1; contradiction | ].
    destruct (state =? CARD_OFF) eqn:E2; [ | reflexivity].
    apply Z.eqb_eq in E2. contradiction. }
  destruct (dis_dev_get_settles s Hk Ha)
    as (s1 & ob & l1 & E1 & S1 & T1 & Q1 & _).
  destruct (is_card_disabled_settled ob s1 S1)
    as (st & s2 & E2 & S2 & (l2 & T2 & Q2) & Hst & Hnz & _).
  split.
  - destruct (dis_dev_put_settled ob s2 S2) as (s3 & l3 & E3 & T3 & Q3).
    apply (bracket_paired ob l1 (l3 ++ l2)).
    + unfold bbswitch_exit, bind. rewrite E1, Hnone. unfold ret. rewrite E2, E3. cbn [final]. 
      rewrite T3, T2, T1, <- !app_assoc. reflexivity.
    + exact Q1.
    + rewrite forallb_app, Q3, Q2. reflexivity.
  - destruct (is_card_disabled_settled ob s2 S2)
      as (st' & s3 & E3 & S3 & (l3 & T3 & Q3) & _).
    destruct (dis_dev_put_settled ob s3 S3) as (s4 & l4 & E4 & T4 & Q4).
    assert (Hend : forall enabled : list kcall,
              paired s
                ((_ <- apply_state state ;;
                  _ <- is_card_disabled ;;
                  _ <- dis_dev_put ;;
                  ret (0, [ProcCreate] ++ enabled ++ [RegisterPmNotifier]))%drv
                   s2)).
    { intros enabled. rewrite Hnone. unfold bind, ret. rewrite E3, E4.
      apply (bracket_paired ob l1 (l4 ++ l3 ++ l2)); [ | exact Q1 | ].
      - cbn [final]. rewrite T4, T3, T2, T1, <- !app_assoc. reflexivity.
      - rewrite !forallb_app, Q4, Q3, Q2. reflexivity. }
    unfold bbswitch_init_finish.
    unfold bind at 1. rewrite E1. unfold bind at 1. rewrite E2.
    unfold bind at 1.
    destruct (st <? 1); [ | apply Hend].
    unfold bind at 1, deref_dis_dev.
    destruct (dis_dev (vars s2)) as [p | ] eqn:Ep; [apply Hend | ].
    assert (Hob : ob = None).
    { apply Hnz. intros ->. destruct (Hst eq_refl) as (p & Hp & _).
      congruence. }
    subst ob. apply (bracket_paired None l1 l2); [ | exact Q1 | exact Q2].
    cbn [final bridge_call app]. rewrite T2, T1. reflexivity.
Qed.

End EntryPoints.

(** ** The further properties at work on the reference machine *)

(** X1 at work: two bytes into a target of twelve characters. *)
Lemma buffer_to_string_renders_witness :
  ([xf8; xd8] <> [] /\ (5 * 2 <= 12)%nat)
  /\ exists out,
       buffer_to_string (Some [xf8; xd8]) 2 (repeat "x"%char 12) = Some out
       /\ c_string out = hex_list [xf8; xd8].
Proof.
  assert (H1 : [xf8; xd8] <> []) by discriminate.
  assert (H2 : (5 * List.length [xf8; xd8]
                <= List.length (repeat "x"%char 12))%nat) by (cbn; lia).
  split; [split; [exact H1 | lia] | ].
  destruct (buffer_to_string_renders [xf8; xd8] (repeat "x"%char 12) H1 H2)
    as (out & E & _ & C & _).
  exists out. split; [exact E | exact C].
Defined.

(** X2 at work: one byte into a target of four characters. *)
Lemma buffer_to_string_overflows_witness :
  ((1 <= 1)%nat /\ (List.length (repeat "x"%char 4) < 5 * 1)%nat)
  /\ buffer_to_string (Some [xf8]) 1 (repeat "x"%char 4) = None.
Proof.
  assert (H : (List.length (repeat "x"%char 4) < 5 * 1)%nat) by (cbn; lia).
  split; [split; [lia | exact H] | ].
  apply (buffer_to_string_overflows (Some [xf8]) 1 (repeat "x"%char 4));
    [lia | exact H].
Defined.

(** X4 at work: the Optimus mask returned as a buffer. *)
Lemma acpi_call_dsm_buffer_witness :
  0 <= 67108865 < 2 ^ 32
  /\ value (@acpi_call_dsm machine g14 7 acpi_optimus_dsm_muid 256 0 None
              (Some 0)
              (boot true 0 (Some GPU)
                 (AE_OK, Some (ACPI_TYPE_BUFFER (le_bytes 67108865)))))
     = Some (0, Some 67108865).
Proof.
  assert (H : 0 <= 67108865 < 2 ^ 32) by lia.
  split; [exact H | ].
  apply (@acpi_call_dsm_buffer machine g14 7 acpi_optimus_dsm_muid 256 0 None
           0 67108865 _ H).
  reflexivity.
Defined.

(** X5 at work: a buffer of one byte leaves the slot alone. *)
Lemma acpi_call_dsm_unusable_result_witness :
  List.length [x01] <> 4%nat
  /\ value (@acpi_call_dsm machine g14 7 acpi_optimus_dsm_muid 256 0 None
              (Some 9)
              (boot true 0 (Some GPU)
                 (AE_OK, Some (ACPI_TYPE_BUFFER [x01]))))
     = Some (0, Some 9).
Proof.
  assert (H : List.length [x01] <> 4%nat) by (cbn; lia).
  split; [exact H | ].
  apply (@acpi_call_dsm_unusable_result machine g14 7 acpi_optimus_dsm_muid
           256 0 None (Some 9) (ACPI_TYPE_BUFFER [x01]));
    [reflexivity | ].
  right; right. exists [x01]. split; [reflexivity | exact H].
Defined.

(** X6 at work: the mask 2 and the index 40. *)
Lemma capability_probe_invalid_mask_witness :
  Z.testbit 2 0 = false
  /\ value (@handle_has_dsm_func machine g14 7 acpi_optimus_dsm_muid 256 40
              (card_with_mask 2))
     = Some 0.
Proof.
  split; [reflexivity | ].
  assert (H : @acpi_call_dsm machine g14 7 acpi_optimus_dsm_muid 256 0 None
                (Some 0) (card_with_mask 2)
              = Ret (0, Some 2)
                  (final (@acpi_call_dsm machine g14 7 acpi_optimus_dsm_muid
                            256 0 None (Some 0) (card_with_mask 2))))
    by (vm_compute; reflexivity).
  rewrite (@capability_probe_invalid_mask machine g14 7 acpi_optimus_dsm_muid
             256 40 2 _ _ H eq_refl).
  reflexivity.
Defined.

(** X7 at work: the firmware has no [_DSM]. *)
Lemma bbswitch_optimus_dsm_calls_witness :
  (dsm_type (vars card_on) = DSM_TYPE_OPTIMUS /\ ACPI_FAILURE AE_NOT_FOUND)
  /\ value (@bbswitch_optimus_dsm machine g14 card_on) = Some 1.
Proof.
  assert (Hf : ACPI_FAILURE AE_NOT_FOUND) by (vm_compute; discriminate).
  split; [split; [reflexivity | exact Hf] | ].
  destruct (@bbswitch_optimus_dsm_calls machine g14 card_on) as (_ & H).
  destruct (H eq_refl) as (_ & _ & H'). apply H'. exact Hf.
Defined.

(** X9 at work: a status read with the card on. *)
Lemma reference_is_kept_witness :
  dis_dev (vars card_on) <> None
  /\ dis_dev (vars (final (@bbswitch_proc_show machine g14 card_on))) <> None.
Proof.
  assert (H : dis_dev (vars card_on) <> None) by (vm_compute; discriminate).
  split; [exact H | ].
  destruct (@reference_is_kept machine g14 card_on H) as (_ & _ & _ & _ & K).
  exact K.
Defined.

(** X12 at work: a status read with the card off. *)
Lemma null_is_read_only_by_off_witness :
  @status_answers machine g14
  /\ returns (@bbswitch_proc_show machine g14) card_off.
Proof.
  assert (Ha : @status_answers machine g14) by (intros w; discriminate).
  split; [exact Ha | ].
  destruct (@null_is_read_only_by_off machine g14 card_off Ha)
    as (_ & _ & _ & K & _).
  exact K.
Defined.

(** X13 at work: the line read with the card on. *)
Lemma status_line_witness :
  value (@bbswitch_proc_show machine g14 card_on)
  = Some ("0000:01:00.0 ON" ++ newline)%string
  /\ exists st,
       value (@is_card_disabled machine g14
                (final (@dis_dev_get machine g14 card_on))) = Some st
       /\ ("0000:01:00.0 ON" ++ newline)%string
          = (dis_dev_name (vars card_on) ++ " "
             ++ (if (st =? 1)%Z then "OFF" else "ON") ++ newline)%string.
Proof.
  assert (H : value (@bbswitch_proc_show machine g14 card_on)
              = Some ("0000:01:00.0 ON" ++ newline)%string)
    by (vm_compute; reflexivity).
  split; [exact H | ].
  apply (@status_line machine g14 card_on _ H).
Defined.

(** X14 at work: a write of [OFF]. *)
Lemma command_write_dispatch_witness :
  (3 <= String.length "OFF")%nat
  /\ @bbswitch_proc_write machine g14 "" (Some "OFF"%string) card_on
     = (_ <- @dis_dev_get machine g14 ;;
        _ <- @bbswitch_off machine g14 ;;
        _ <- ret tt ;;
        _ <- @dis_dev_put machine g14 ;;
        ret 3)%drv card_on.
Proof.
  assert (Hl : (3 <= String.length "OFF")%nat) by (cbn; lia).
  split; [exact Hl | ].
  destruct (@command_write_dispatch machine g14 "" "OFF" card_on) as [_ H].
  exact (H Hl).
Defined.

(** X15 at work: a write of [abc]. *)
Lemma unknown_command_is_passive_witness :
  ((3 <= String.length "abc")%nat /\ String.prefix "OFF" "abc" = false
   /\ String.prefix "ON" "abc" = false)
  /\ forallb read_event
       (new_events card_on
          (final (@bbswitch_proc_write machine g14 ""
                    (Some "abc"%string) card_on))) = true.
Proof.
  assert (Hl : (3 <= String.length "abc")%nat) by (cbn; lia).
  split; [split; [exact Hl | split; reflexivity] | ].
  apply (@unknown_command_is_passive machine g14 "" "abc" card_on Hl);
    reflexivity.
Defined.

(** X16 at work: the card on, no driver bound. *)
Lemma off_transition_powers_off_witness :
  (value (@is_card_disabled machine g14 card_on) = Some 0
   /\ @pdev_driver machine g14 (hw card_on) GPU = None)
  /\ exists s',
       @bbswitch_off machine g14 card_on = Ret tt s'
       /\ dis_dev (vars s') = None.
Proof.
  assert (H1 : value (@is_card_disabled machine g14 card_on) = Some 0)
    by (vm_compute; reflexivity).
  assert (H2 : dis_dev (vars (final (@is_card_disabled machine g14 card_on)))
               = Some GPU) by (vm_compute; reflexivity).
  split; [split; [exact H1 | reflexivity] | ].
  destruct (@off_transition_powers_off machine g14 card_on GPU H1 H2 eq_refl)
    as (s' & E & _ & _ & D & _).
  exists s'. split; [exact E | exact D].
Defined.

(** X17 at work: the device is back at the first scan after [_ON]. *)
Lemma on_transition_finds_device_witness :
  (@reports_off machine g14 (hw card_off) /\ dis_dev (vars card_off) = None
   /\ (1 <= 1 <= 5)%nat)
  /\ exists s',
       @bbswitch_on machine g14 card_off = Ret tt s'
       /\ new_events card_off s'
          = attempts 1 card_off
            ++ [EvEvaluate PG00 "_ON"; EvEvaluate PEGP "SGST"]
       /\ dis_dev (vars s') = Some GPU.
Proof.
  assert (Hoff : @reports_off machine g14 (hw card_off))
    by (exists 0; split; [reflexivity | lia]).
  assert (Hk : (1 <= 1 <= 5)%nat) by lia.
  assert (Hn : forall j, (1 <= j < 1)%nat ->
            @pci_get_device machine g14
              (@after_sleeps machine g14 j (@powered_on machine g14 card_off))
              (vendor (vars card_off)) (device (vars card_off)) = None)
    by (intros j Hj; lia).
  assert (Hs : @pci_get_device machine g14
                 (@after_sleeps machine g14 1
                    (@powered_on machine g14 card_off))
                 (vendor (vars card_off)) (device (vars card_off))
               = Some GPU) by (vm_compute; reflexivity).
  split; [split; [exact Hoff | split; [reflexivity | exact Hk]] | ].
  destruct (@on_transition_finds_device machine g14 card_off 1 GPU Hoff
              eq_refl Hk Hn Hs) as (s' & E & T & D & _).
  exists s'. split; [exact E | split; [exact T | exact D]].
Defined.

(** X18 at work: a status read with the card on. *)
Lemma passive_operations_are_paired_witness :
  (@sleep_keeps_status machine g14 /\ @status_answers machine g14)
  /\ paired card_on (@bbswitch_proc_show machine g14 card_on).
Proof.
  destruct (g14_takes_effect 1 None) as (_ & _ & Hk).
  assert (Ha : @status_answers machine g14) by (intros w; discriminate).
  split; [split; [exact Hk | exact Ha] | ].
  destruct (@passive_operations_are_paired machine g14 "" "" card_on Hk Ha)
    as [H _].
  exact H.
Defined.

(** X19 at work: a suspend with the card on. *)
Lemma prepare_with_card_on_witness :
  (@sleep_keeps_status machine g14 /\ @status_answers machine g14
   /\ @reports_on machine g14 (hw card_on)
   /\ is_prepare PM_SUSPEND_PREPARE = true)
  /\ exists s',
       @bbswitch_pm_handler machine g14 PM_SUSPEND_PREPARE card_on = Ret 0 s'
       /\ dis_before_suspend_disabled (vars s') < 1.
Proof.
  destruct (g14_takes_effect 1 None) as (_ & _ & Hk).
  assert (Ha : @status_answers machine g14) by (intros w; discriminate).
  assert (Hon : @reports_on machine g14 (hw card_on))
    by (exists 1; split; [reflexivity | lia]).
  split; [repeat split; assumption | ].
  destruct (@prepare_with_card_on machine g14 PM_SUSPEND_PREPARE card_on
              Hk Ha Hon eq_refl) as (s' & E & _ & _ & D).
  exists s'. split; [exact E | exact D].
Defined.

(** X20 at work: a suspend with the card off. *)
Lemma prepare_records_status_witness :
  (is_prepare PM_SUSPEND_PREPARE = true
   /\ value (@is_card_disabled machine g14
               (final (@dis_dev_get machine g14 card_off))) = Some 1)
  /\ dis_before_suspend_disabled
       (vars (final (@bbswitch_pm_handler machine g14 PM_SUSPEND_PREPARE
                       card_off))) = 1.
Proof.
  assert (H1 : @dis_dev_get machine g14 card_off
               = Ret tt (final (@dis_dev_get machine g14 card_off)))
    by (vm_compute; reflexivity).
  assert (H2 : value (@is_card_disabled machine g14
                        (final (@dis_dev_get machine g14 card_off)))
               = Some 1) by (vm_compute; reflexivity).
  split; [split; [reflexivity | exact H2] | ].
  destruct (@prepare_records_status machine g14 PM_SUSPEND_PREPARE card_off
              _ 1 eq_refl H1 H2) as [K _].
  exact K.
Defined.

(** X21 at work: a bus with the integrated GPU and a network card only. *)
Lemma load_without_candidate_witness :
  (dis_dev (vars optimus_laptop) = None
   /\ forallb (fun pdev => negb (is_candidate pdev)) [igpu; nic] = true)
  /\ exists s',
       @bbswitch_init machine g14 CARD_UNCHANGED [igpu; nic] true
         optimus_laptop = Ret (- ENODEV, []) s'
       /\ vars s' = vars optimus_laptop.
Proof.
  assert (Hb : forallb (fun pdev => negb (is_candidate pdev)) [igpu; nic]
               = true) by (vm_compute; reflexivity).
  split; [split; [reflexivity | exact Hb] | ].
  destruct (@load_without_candidate machine g14 CARD_UNCHANGED [igpu; nic]
              true optimus_laptop eq_refl Hb) as (s' & E & V & _).
  exists s'. split; [exact E | exact V].
Defined.

(** X23 at work: loading on a laptop with an Optimus [_DSM]. *)
Lemma load_outcomes_witness :
  @bbswitch_init machine g14 CARD_UNCHANGED [igpu; dgpu; nic] true
    optimus_laptop
  = Ret (0, [ProcCreate; PciEnableDevice GPU; RegisterPmNotifier])
      (final (@bbswitch_init machine g14 CARD_UNCHANGED [igpu; dgpu; nic]
                true optimus_laptop))
  /\ dsm_type (vars (final (@bbswitch_init machine g14 CARD_UNCHANGED
                              [igpu; dgpu; nic] true optimus_laptop)))
     <> DSM_TYPE_UNSUPPORTED.
Proof.
  assert (H : @bbswitch_init machine g14 CARD_UNCHANGED [igpu; dgpu; nic]
                true optimus_laptop
              = Ret (0, [ProcCreate; PciEnableDevice GPU; RegisterPmNotifier])
                  (final (@bbswitch_init machine g14 CARD_UNCHANGED
                            [igpu; dgpu; nic] true optimus_laptop)))
    by (vm_compute; reflexivity).
  split; [exact H | ].
  destruct (@load_outcomes machine g14 _ _ _ _ _ _ _ H)
    as [(_ & _ & _ & [[-> _] | ->]) | [(Hc & _) | (Hc & _)]];
    discriminate.
Defined.

(** X24 at work: the discrete GPU of the laptop is the one kept. *)
Lemma load_selects_candidate_witness :
  dis_dev (vars optimus_laptop) = None
  /\ exists pdev,
       In pdev [igpu; dgpu; nic] /\ is_candidate pdev = true
       /\ vendor (vars (final (@bbswitch_init machine g14 CARD_UNCHANGED
                                 [igpu; dgpu; nic] true optimus_laptop)))
          = pf_vendor pdev
       /\ device (vars (final (@bbswitch_init machine g14 CARD_UNCHANGED
                                 [igpu; dgpu; nic] true optimus_laptop)))
          = pf_device pdev
       /\ dis_dev_name
            (vars (final (@bbswitch_init machine g14 CARD_UNCHANGED
                            [igpu; dgpu; nic] true optimus_laptop)))
          = substring 0 15 (pf_name pdev).
Proof.
  assert (H : @bbswitch_init machine g14 CARD_UNCHANGED [igpu; dgpu; nic]
                true optimus_laptop
              = Ret (0, [ProcCreate; PciEnableDevice GPU; RegisterPmNotifier])
                  (final (@bbswitch_init machine g14 CARD_UNCHANGED
                            [igpu; dgpu; nic] true optimus_laptop)))
    by (vm_compute; reflexivity).
  split; [reflexivity | ].
  apply (@load_selects_candidate machine g14 CARD_UNCHANGED [igpu; dgpu; nic]
           true _ optimus_laptop _ eq_refl H).
Defined.

(** X25 at work: loading and unloading with the state left unchanged. *)
Lemma unchanged_state_makes_no_power_call_witness :
  (CARD_UNCHANGED <> CARD_ON /\ CARD_UNCHANGED <> CARD_OFF)
  /\ forallb load_event
       (new_events optimus_laptop
          (final (@bbswitch_init machine g14 CARD_UNCHANGED
                    [igpu; dgpu; nic] true optimus_laptop))) = true
  /\ forallb read_event
       (new_events card_on
          (final (@bbswitch_exit machine g14 CARD_UNCHANGED card_on))) = true.
Proof.
  assert (H1 : CARD_UNCHANGED <> CARD_ON) by discriminate.
  assert (H0 : CARD_UNCHANGED <> CARD_OFF) by discriminate.
  split; [split; assumption | ].
  destruct (@unchanged_state_makes_no_power_call machine g14 CARD_UNCHANGED
              CARD_UNCHANGED [igpu; dgpu; nic] true optimus_laptop
              (or_introl (conj H1 H0)) H1 H0) as [Hload _].
  destruct (@unchanged_state_makes_no_power_call machine g14 CARD_UNCHANGED
              CARD_UNCHANGED [] true card_on (or_introl (conj H1 H0)) H1 H0)
    as [_ Hunload].
  split; [exact Hload | exact Hunload].
Defined.

(** X26 at work: loading with [load_state=1] on the Optimus laptop. *)
Lemma load_and_unload_return_witness :
  (@status_answers machine g14_optimus /\ @dsm_answers machine g14_optimus
   /\ CARD_ON <> CARD_OFF)
  /\ returns (@bbswitch_init machine g14_optimus CARD_ON [igpu; dgpu; nic]
                true) optimus_laptop
  /\ value (@bbswitch_exit machine g14_optimus CARD_ON card_off)
     = Some [RemoveProcEntry; UnregisterPmNotifier].
Proof.
  assert (Ha : @status_answers machine g14_optimus)
    by (intros w; discriminate).
  assert (Hd : @dsm_answers machine g14_optimus)
    by (intros w handle muid revid func args _; discriminate).
  assert (Hs : CARD_ON <> CARD_OFF) by discriminate.
  split; [repeat split; assumption | ].
  destruct (@load_and_unload_return machine g14_optimus CARD_ON CARD_ON
              [igpu; dgpu; nic] true optimus_laptop Ha Hd) as [Hload _].
  destruct (@load_and_unload_return machine g14_optimus CARD_ON CARD_ON
              [] true card_off Ha Hd) as [_ Hunload].
  split; [exact (Hload Hs) | exact (Hunload Hs)].
Defined.

(** X27 at work: unloading with the card on and the state left unchanged. *)
Lemma unchanged_state_is_paired_witness :
  (@sleep_keeps_status machine g14 /\ @status_answers machine g14
   /\ CARD_UNCHANGED <> CARD_ON /\ CARD_UNCHANGED <> CARD_OFF)
  /\ paired card_on (@bbswitch_exit machine g14 CARD_UNCHANGED card_on)
  /\ paired card_on (@bbswitch_init_finish machine g14 CARD_UNCHANGED card_on).
Proof.
  destruct (g14_takes_effect 1 None) as (_ & _ & Hk).
  assert (Ha : @status_answers machine g14) by (intros w; discriminate).
  assert (H1 : CARD_UNCHANGED <> CARD_ON) by discriminate.
  assert (H0 : CARD_UNCHANGED <> CARD_OFF) by discriminate.
  split; [repeat split; assumption | ].
  apply (@unchanged_state_is_paired machine g14 CARD_UNCHANGED card_on
           Hk Ha H1 H0).
Defined.
